(** * QuantChallenge: walk-forward signals, trade conversion and PnL analytics

    A shallow embedding of the algorithmic core of the repository:
    - [convert_trades.py]: [apply_daily_ml_strategy], [convert_to_trades],
      [insert_trades_to_db], [main], a column of [create_strategy_features];
    - [task3_report.py]: [compute_hourly_pnl], [display_pnl_report];
    - [task4_dashboard.py]: [load_trader_data], [compute_hourly_metrics];
    - [task1_api.py]: [create_trade], [get_trade], [delete_trade];
    - [task1.py]: [compute_pnl];
    - [task2_analysis.py]: [task2_6_battery_revenue], [run_strategy];
    - [generate_sample_data.py]: [generate_sample_trades].

    Conventions of the embedding.
    - Python [int] and pandas index labels are [Z]; a [datetime.date] is the
      number of days since 1970-01-01, a [pandas.Timestamp] the number of
      seconds since 1970-01-01T00:00:00 (the feed is quarter-hourly, so no
      sub-second part occurs).
    - Prices, quantities and probabilities are rationals [Q]: every finite
      float is a rational.  The sums of volumes, and the sums taken by SQL
      and pandas, are taken exact.
    - The running PnL of the report and of [compute_pnl] is a binary64,
      accumulated as the code does it, row by row with round to nearest
      even ([Binary64]).
    - The predicted probabilities are float32, and so are the thresholds
      they are compared with.
    - The recency weights go through [numpy.exp]; they are real numbers
      extended with the infinities and NaN: the exponential overflows to
      infinity as the binary64 does, the rounding of finite values is not
      modelled.
    - A [DataFrame] is the list of its rows in table order; where the index
      labels matter (the converter prints them) a row comes with its label.
    - The dict [hourly_data] of the report is a finite map [gmap Z HourData];
      the [trades] table is the list of its rows in insertion order.
    - The classifier is a black box: [fit], which may raise, and
      [predict_proba] are section variables, deterministic because the
      source fixes [random_state].
    - The database of the API is the committed rows together with the write
      lock that a connection left open keeps; the dashboard's loader comes
      with its cache. *)

From Stdlib Require Import ZArith QArith Qminmax Reals Psatz List Bool.
From Stdlib Require Import Ascii String DecimalString DecimalPos DecimalZ.
From stdpp Require Import gmap.
Import ListNotations.

(** ** Calendar: [datetime], [timedelta], [strftime], [isoformat] *)

Module Clock.
Local Open Scope Z_scope.

(** [timedelta(days=d, hours=h)], in seconds. *)
Definition timedelta (days hours : Z) : Z := days * 86400 + hours * 3600.

(** Proleptic Gregorian date [(year, month, day)] of a day number. *)
Definition civil_from_days (n : Z) : Z * Z * Z :=
  let z := n + 719468 in
  let era := z / 146097 in
  let doe := z - era * 146097 in
  let yoe := (doe - doe / 1460 + doe / 36524 - doe / 146096) / 365 in
  let doy := doe - (365 * yoe + yoe / 4 - yoe / 100) in
  let mp := (5 * doy + 2) / 153 in
  let d := doy - (153 * mp + 2) / 5 + 1 in
  let m := if mp <? 10 then mp + 3 else mp - 9 in
  let y := yoe + era * 400 in
  (if m <=? 2 then y + 1 else y, m, d).

(** The decimal digit of the units of [n]. *)
Definition digit (n : Z) : ascii :=
  match n mod 10 with
  | 0 => "0" | 1 => "1" | 2 => "2" | 3 => "3" | 4 => "4"
  | 5 => "5" | 6 => "6" | 7 => "7" | 8 => "8" | _ => "9"
  end%char.

(** [%02d]-style and [%04d]-style fields; the fields formatted here never
    exceed their width (a pandas timestamp has a four-digit year). *)
Definition pad2 (n : Z) : string :=
  String (digit (n / 10)) (String (digit n) EmptyString).

Definition pad4 (n : Z) : string :=
  String (digit (n / 1000)) (String (digit (n / 100)) (pad2 n)).

Definition date_of (ts : Z) : Z := ts / 86400.
Definition hour_of (ts : Z) : Z := (ts mod 86400) / 3600.
Definition minute_of (ts : Z) : Z := (ts mod 3600) / 60.
Definition second_of (ts : Z) : Z := ts mod 60.

(** [date.isoformat()]: YYYY-MM-DD. *)
Definition date_isoformat (day : Z) : string :=
  let '(y, m, d) := civil_from_days day in
  (pad4 y ++ "-" ++ pad2 m ++ "-" ++ pad2 d)%string.

(** [Timestamp.isoformat()]: YYYY-MM-DDTHH:MM:SS. *)
Definition isoformat (ts : Z) : string :=
  (date_isoformat (date_of ts) ++ "T" ++ pad2 (hour_of ts) ++ ":"
   ++ pad2 (minute_of ts) ++ ":" ++ pad2 (second_of ts))%string.

(** [Timestamp.strftime('%Y%m%d_%H%M%S')]. *)
Definition strftime (ts : Z) : string :=
  let '(y, m, d) := civil_from_days (date_of ts) in
  (pad4 y ++ pad2 m ++ pad2 d ++ "_" ++ pad2 (hour_of ts)
   ++ pad2 (minute_of ts) ++ pad2 (second_of ts))%string.

End Clock.

(** ** Floating point: binary64 and float32, round to nearest even *)

Module Binary64.
Local Open Scope Z_scope.

(** A float is a rational, an infinity or NaN (the sign of zero is not
    kept). *)
Inductive ext (A : Type) :=
| Finite (x : A)
| PosInf
| NegInf
| NaN.
Arguments Finite {A} x.
Arguments PosInf {A}.
Arguments NegInf {A}.
Arguments NaN {A}.

(** [n / d] rounded to the nearest integer, ties to even ([0 <= n], [0 < d]). *)
Definition nearest_even (n d : Z) : Z :=
  let q := n / d in
  match (2 * (n mod d)) ?= d with
  | Lt => q
  | Gt => q + 1
  | Eq => if Z.even q then q else q + 1
  end.

(** The binary exponent of [n / d]: the [k] with [2^k <= n / d < 2^(k+1)]. *)
Definition floor_log2 (n d : Z) : Z :=
  let k := Z.log2 n - Z.log2 d in
  if (if 0 <=? k then d * 2 ^ k <=? n else d <=? n * 2 ^ (- k))
  then k else k - 1.

(** Rounding to the format with [prec] significant bits, least exponent
    [emin] (of the last place) and overflow at [2^emax]. *)
Definition round_format (prec emin emax : Z) (x : Q) : ext Q :=
  let x := Qred x in
  let n := Qnum x in
  let d := Zpos (Qden x) in
  if n =? 0 then Finite 0%Q
  else
    let a := Z.abs n in
    let e := Z.max (floor_log2 a d - (prec - 1)) emin in
    let m := if 0 <=? e then nearest_even a (d * 2 ^ e)
             else nearest_even (a * 2 ^ (- e)) d in
    if 2 ^ (emax - e) <=? m then (if 0 <? n then PosInf else NegInf)
    else
      let v := if 0 <=? e then inject_Z (m * 2 ^ e)
               else Qred (m # Z.to_pos (2 ^ (- e))) in
      Finite (if 0 <? n then v else Qopp v).

(** Python [float] and numpy [float64]. *)
Definition round (x : Q) : ext Q := round_format 53 (-1074) 1024 x.

(** numpy [float32]. *)
Definition round32 (x : Q) : ext Q := round_format 24 (-149) 128 x.

Definition neg (a : ext Q) : ext Q :=
  match a with
  | Finite x => Finite (Qopp x)
  | PosInf => NegInf
  | NegInf => PosInf
  | NaN => NaN
  end.

(** [a + b] *)
Definition add (a b : ext Q) : ext Q :=
  match a, b with
  | Finite x, Finite y => round (x + y)
  | NaN, _ | _, NaN => NaN
  | PosInf, NegInf | NegInf, PosInf => NaN
  | PosInf, _ | _, PosInf => PosInf
  | NegInf, _ | _, NegInf => NegInf
  end.

(** [a - b] *)
Definition sub (a b : ext Q) : ext Q := add a (neg b).

(** The infinity of the sign of [x], NaN for zero. *)
Definition signed_inf (x : Q) : ext Q :=
  match Qnum x with
  | 0 => NaN
  | Zpos _ => PosInf
  | Zneg _ => NegInf
  end.

(** [a * b] *)
Definition mul (a b : ext Q) : ext Q :=
  match a, b with
  | Finite x, Finite y => round (x * y)
  | NaN, _ | _, NaN => NaN
  | Finite x, PosInf | PosInf, Finite x => signed_inf x
  | Finite x, NegInf | NegInf, Finite x => signed_inf (Qopp x)
  | PosInf, PosInf | NegInf, NegInf => PosInf
  | PosInf, NegInf | NegInf, PosInf => NegInf
  end.

(** [a < b]; false when either is NaN. *)
Definition ltb (a b : ext Q) : bool :=
  match a, b with
  | Finite x, Finite y =>
      match Qcompare x y with Lt => true | _ => false end
  | Finite _, PosInf | NegInf, Finite _ | NegInf, PosInf => true
  | _, _ => false
  end.

(** The rounding of [x] returns [x] itself. *)
Definition exact (x : Q) : Prop := round x = Finite (Qred x).

End Binary64.

(** ** Feature table *)

Module Frame.

(** One row of [df_ml].  [other_features] holds the values of the feature
    columns other than [hour], in the order of [feature_columns]. *)
Record Row := mkRow {
  timestamp : Z;
  date : Z;
  hour : Z;
  da_price : Q;
  id_price_h : Q;
  spread : Q;
  other_features : list Q
}.

(** A row of [test_data] once the columns [signal] and [prob] are set. *)
Record Scored := mkScored {
  row : Row;
  signal : Z;
  prob : Q
}.

(** [df[feature_columns]] on one row. *)
Definition feature_columns (r : Row) : list Q :=
  inject_Z (hour r) :: other_features r.

(** [Series.unique()]: the distinct values in order of first appearance. *)
Fixpoint unique (l : list Z) : list Z :=
  match l with
  | [] => []
  | x :: rest => x :: List.filter (fun y => negb (y =? x)%Z) (unique rest)
  end.

(** [pd.concat(frames, ignore_index=True)] relabels the rows 0, 1, 2, ... *)
Definition reset_index_from {A} (start : nat) (l : list A) : list (Z * A) :=
  combine (map Z.of_nat (seq start (length l))) l.

Definition reset_index {A} (l : list A) : list (Z * A) := reset_index_from 0 l.

End Frame.

(** ** WalkForwardForecaster: [apply_daily_ml_strategy] *)

Module Forecast.
Import Frame Binary64.

Definition min_train_days : nat := 30.
Definition min_samples : nat := 100.
Definition decay : R := 0.01%R.

(** [numpy.exp] overflows to [inf] above the logarithm of the largest
    binary64, 709.782712893384 to twelve decimals. *)
Definition exp_overflow : R := 709.782712893384%R.

Definition np_exp (x : R) : ext R :=
  if Rle_dec x exp_overflow then Finite (exp x) else PosInf.

(** The infinity of the sign of [x], NaN for zero. *)
Definition signed_inf (x : R) : ext R :=
  if Req_EM_T x 0%R then NaN
  else if Rlt_dec 0%R x then PosInf else NegInf.

(** Array arithmetic with infinities and NaN. *)
Definition ext_add (a b : ext R) : ext R :=
  match a, b with
  | Finite x, Finite y => Finite (x + y)%R
  | NaN, _ | _, NaN => NaN
  | PosInf, NegInf | NegInf, PosInf => NaN
  | PosInf, _ | _, PosInf => PosInf
  | NegInf, _ | _, NegInf => NegInf
  end.

Definition ext_neg (a : ext R) : ext R :=
  match a with
  | Finite x => Finite (- x)%R
  | PosInf => NegInf
  | NegInf => PosInf
  | NaN => NaN
  end.

Definition ext_sub (a b : ext R) : ext R :=
  match a, b with
  | Finite x, Finite y => Finite (x - y)%R
  | _, _ => ext_add a (ext_neg b)
  end.

Definition ext_mul (a b : ext R) : ext R :=
  match a, b with
  | Finite x, Finite y => Finite (x * y)%R
  | NaN, _ | _, NaN => NaN
  | Finite x, PosInf | PosInf, Finite x => signed_inf x
  | Finite x, NegInf | NegInf, Finite x => signed_inf (- x)%R
  | PosInf, PosInf | NegInf, NegInf => PosInf
  | PosInf, NegInf | NegInf, PosInf => NegInf
  end.

Definition ext_div (a b : ext R) : ext R :=
  match a, b with
  | Finite x, Finite y =>
      if Req_EM_T y 0%R then signed_inf x else Finite (x / y)%R
  | NaN, _ | _, NaN => NaN
  | Finite _, _ => Finite 0%R
  | PosInf, Finite y => if Rle_dec 0%R y then PosInf else NegInf
  | NegInf, Finite y => if Rle_dec 0%R y then NegInf else PosInf
  | _, _ => NaN
  end.

Definition ext_min (a b : ext R) : ext R :=
  match a, b with
  | Finite x, Finite y => Finite (Rmin x y)
  | NaN, _ | _, NaN => NaN
  | NegInf, _ | _, NegInf => NegInf
  | PosInf, c | c, PosInf => c
  end.

Definition ext_max (a b : ext R) : ext R :=
  match a, b with
  | Finite x, Finite y => Finite (Rmax x y)
  | NaN, _ | _, NaN => NaN
  | PosInf, _ | _, PosInf => PosInf
  | NegInf, c | c, NegInf => c
  end.

(** [ndarray.min] and [ndarray.max]; the loop calls them on at least
    [min_samples] values (numpy raises on an empty array). *)
Definition array_min (l : list (ext R)) : ext R :=
  match l with [] => NaN | x :: rest => fold_left ext_min rest x end.

Definition array_max (l : list (ext R)) : ext R :=
  match l with [] => NaN | x :: rest => fold_left ext_max rest x end.

(** [np.arange(n_samples)] *)
Definition arange (n : nat) : list R := map INR (seq 0 n).

(** Lines 146-149: exponential recency weights rescaled with the array's
    own minimum and maximum. *)
Definition time_weights (n_samples : nat) : list (ext R) :=
  let w := map (fun i => np_exp (decay * i)%R) (arange n_samples) in
  let lo := array_min w in
  let hi := array_max w in
  map (fun x =>
         ext_add (Finite 0.5%R)
           (ext_div (ext_mul (Finite 0.5%R) (ext_sub x lo)) (ext_sub hi lo)))
      w.

(** A Python constant as numpy reads it next to a float32 array: the
    binary64 literal rounded to float32. *)
Definition float32 (x : Q) : Q :=
  match round x with
  | Finite y => match round32 y with Finite z => z | _ => y end
  | _ => x
  end.

(** Lines 171-173: the column starts at 0, then the two masked stores.
    [probs] is a float32 array and so are the two comparisons. *)
Definition signal_of (p : Q) : Z :=
  let s := 0%Z in
  let s := if Qlt_le_dec (float32 0.55) p then 1%Z else s in
  let s := if Qlt_le_dec p (float32 0.45) then (-1)%Z else s in
  s.

Definition train_data (df : list Row) (current_day : Z) : list Row :=
  List.filter (fun r => (date r <? current_day)%Z) df.

Definition test_data (df : list Row) (current_day : Z) : list Row :=
  List.filter (fun r => (date r =? current_day)%Z) df.

(** [(train_data['spread'] > 0).astype(int)] *)
Definition y_train (train : list Row) : list Z :=
  map (fun r => if Qlt_le_dec 0 (spread r) then 1%Z else 0%Z) train.

Definition unique_days (df : list Row) : list Z := unique (map date df).

(** The two exceptions that end the run. *)
Inductive Raised :=
| FitError
| ConcatValueError.

Section Classifier.
(** The classifier: [XGBClassifier(...).fit(X, y, sample_weight=w)], which
    raises on input it rejects ([None]; labels of a single class 1 are such
    an input), and the class-1 column of [predict_proba], row by row, a
    float32. *)
Variable Model : Type.
Variable fit : list (list Q) -> list Z -> list (ext R) -> option Model.
Variable predict_proba : Model -> list Q -> Q.

Definition fit_for (df : list Row) (current_day : Z) : option Model :=
  let train := train_data df current_day in
  fit (map feature_columns train) (y_train train)
      (time_weights (length train)).

Definition score (model : Model) (r : Row) : Scored :=
  let p := predict_proba model (feature_columns r) in
  {| row := r; signal := signal_of p; prob := p |}.

(** The body of the loop for one day: [None] is [continue], [Some (inl _)]
    an exception of [fit], [Some (inr scored)] the frame appended.  The
    model is fitted before the day's rows are looked at. *)
Definition day_step (df : list Row) (current_day : Z)
  : option (Raised + list Scored) :=
  if (length (train_data df current_day) <? min_samples)%nat then None
  else
    match fit_for df current_day with
    | None => Some (inl FitError)
    | Some model =>
        let test := test_data df current_day in
        if (length test =? 0)%nat then None
        else Some (inr (map (score model) test))
    end.

(** The loop over [unique_days[min_train_days:]], building [trades_list]. *)
Fixpoint walk (df : list Row) (days : list Z)
  : Raised + list (list Scored) :=
  match days with
  | [] => inr []
  | current_day :: rest =>
      match day_step df current_day with
      | None => walk df rest
      | Some (inl e) => inl e
      | Some (inr scored) =>
          match walk df rest with
          | inl e => inl e
          | inr frames => inr (scored :: frames)
          end
      end
  end.

Definition trades_list (df : list Row) : Raised + list (list Scored) :=
  walk df (skipn min_train_days (unique_days df)).

(** [pd.concat] raises [ValueError] on an empty list of frames. *)
Definition apply_daily_ml_strategy (df : list Row)
  : Raised + list (Z * Scored) :=
  match trades_list df with
  | inl e => inl e
  | inr [] => inl ConcatValueError
  | inr frames => inr (reset_index (concat frames))
  end.

End Classifier.

End Forecast.

(** ** Trade store: the [trades] table *)

Module Store.
Local Open Scope Z_scope.

(** A row of the table, which is also the dict built by the converter. *)
Record Trade := mkTrade {
  trade_id : string;
  trader_id : string;
  delivery_day : string;
  delivery_hour : Z;
  quantity : Q;
  price : Q;
  side : string;
  strategy : string;
  timestamp : string
}.

(** How [insert_trades_to_db] raises: the two ways an [INSERT] raises
    [sqlite3.IntegrityError], and the [TypeError] of formatting [None] in
    the statistics block. *)
Inductive InsertError :=
| CheckViolation (id : string)
| PrimaryKeyCollision (id : string)
| FormatTypeError.

(** [init_database]: the table is dropped and created anew. *)
Definition init_database : list Trade := [].

(** The two CHECK clauses of the schema. *)
Definition check_constraints (t : Trade) : bool :=
  (String.eqb (side t) "buy" || String.eqb (side t) "sell")
  && (0 <=? delivery_hour t) && (delivery_hour t <=? 23).

Definition has_key (table : list Trade) (id : string) : bool :=
  existsb (fun u => String.eqb (trade_id u) id) table.

Definition insert_row (table : list Trade) (t : Trade)
  : InsertError + list Trade :=
  if negb (check_constraints t) then inl (CheckViolation (trade_id t))
  else if has_key table (trade_id t)
       then inl (PrimaryKeyCollision (trade_id t))
       else inr (table ++ [t]).

Fixpoint insert_rows (table : list Trade) (trades : list Trade)
  : InsertError + list Trade :=
  match trades with
  | [] => inr table
  | t :: rest =>
      match insert_row table t with
      | inl e => inl e
      | inr table' => insert_rows table' rest
      end
  end.

(** [SUM(CASE WHEN side='buy' THEN quantity ELSE 0 END)] over the rows. *)
Definition buy_volume (table : list Trade) : Q :=
  fold_right Qplus 0%Q
    (map (fun t => if String.eqb (side t) "buy" then quantity t else 0%Q)
         table).

Definition sell_volume (table : list Trade) : Q :=
  fold_right Qplus 0%Q
    (map (fun t => if String.eqb (side t) "sell" then quantity t else 0%Q)
         table).

(** [SUM(CASE WHEN side='sell' THEN quantity*price ELSE -quantity*price END)] *)
Definition signed_pnl (table : list Trade) : Q :=
  fold_right Qplus 0%Q
    (map (fun t => if String.eqb (side t) "sell"
                   then (quantity t * price t)%Q
                   else (- quantity t * price t)%Q) table).

(** Lines 294-301: the aggregate query.  SQLite's SUM over no row is NULL,
    which [fetchone] returns as [None] in all three columns. *)
Definition statistics (table : list Trade) : option (Q * Q * Q) :=
  match table with
  | [] => None
  | _ => Some (buy_volume table, sell_volume table, signed_pnl table)
  end.

(** [insert_trades_to_db]: the inserts (an exception leaves the
    transaction uncommitted), the commit and [SELECT COUNT( * )], then the
    statistics printed with the format [:,.2f], which raises [TypeError] on
    [None]; the value returned is the row count. *)
Definition insert_trades_to_db (table : list Trade) (trades : list Trade)
  : InsertError + (list Trade * nat) :=
  match insert_rows table trades with
  | inl e => inl e
  | inr table' =>
      let total_trades := length table' in
      match statistics table' with
      | None => inl FormatTypeError
      | Some _ => inr (table', total_trades)
      end
  end.

End Store.

(** ** SignalConverter: [convert_to_trades] *)

Module Convert.
Import Frame Store.
Local Open Scope string_scope.

Definition position_size : Q := 100.

(** [f"{idx}"] for an integer label. *)
Definition str (idx : Z) : string := NilZero.string_of_int (Z.to_int idx).

(** The body of the [iterrows] loop for one row of [df_trades]. *)
Definition convert_row (strategy_name : string) (idx : Z) (r : Scored)
  : list Trade :=
  let delivery_day := Frame.date (row r) in
  let delivery_hour := Frame.hour (row r) in
  let da_price := Frame.da_price (row r) in
  let id_price := Frame.id_price_h (row r) in
  let trade_timestamp :=
    (Frame.timestamp (row r) - Clock.timedelta 1 0)%Z in
  if (signal r =? 1)%Z then
    [ {| trade_id := "ML_DA_" ++ Clock.strftime trade_timestamp ++ "_"
                       ++ str idx ++ "_BUY";
         trader_id := "strategy_ml_daily";
         delivery_day := Clock.date_isoformat delivery_day;
         delivery_hour := delivery_hour;
         quantity := position_size;
         price := da_price;
         side := "buy";
         strategy := strategy_name;
         timestamp := Clock.isoformat trade_timestamp |};
      {| trade_id := "ML_ID_" ++ Clock.strftime trade_timestamp ++ "_"
                       ++ str idx ++ "_SELL";
         trader_id := "strategy_ml_daily";
         delivery_day := Clock.date_isoformat delivery_day;
         delivery_hour := delivery_hour;
         quantity := position_size;
         price := id_price;
         side := "sell";
         strategy := strategy_name;
         timestamp :=
           Clock.isoformat (trade_timestamp + Clock.timedelta 0 2)%Z |} ]
  else if (signal r =? -1)%Z then
    [ {| trade_id := "ML_DA_" ++ Clock.strftime trade_timestamp ++ "_"
                       ++ str idx ++ "_SELL";
         trader_id := "strategy_ml_daily";
         delivery_day := Clock.date_isoformat delivery_day;
         delivery_hour := delivery_hour;
         quantity := position_size;
         price := da_price;
         side := "sell";
         strategy := strategy_name;
         timestamp := Clock.isoformat trade_timestamp |};
      {| trade_id := "ML_ID_" ++ Clock.strftime trade_timestamp ++ "_"
                       ++ str idx ++ "_BUY";
         trader_id := "strategy_ml_daily";
         delivery_day := Clock.date_isoformat delivery_day;
         delivery_hour := delivery_hour;
         quantity := position_size;
         price := id_price;
         side := "buy";
         strategy := strategy_name;
         timestamp :=
           Clock.isoformat (trade_timestamp + Clock.timedelta 0 2)%Z |} ]
  else [].

(** [df_results[df_results['signal'] != 0]] *)
Definition df_trades (df_results : list (Z * Scored)) : list (Z * Scored) :=
  List.filter (fun ir => negb (signal (snd ir) =? 0)%Z) df_results.

Definition convert_to_trades (df_results : list (Z * Scored))
    (strategy_name : string) : list Trade :=
  flat_map (fun ir => convert_row strategy_name (fst ir) (snd ir))
           (df_trades df_results).

Definition default_strategy_name : string := "ML_Daily_XGBoost".

End Convert.

(** ** PnLAggregator: [compute_hourly_pnl] of the terminal report *)

Module Report.
Import Store.

(** An entry of [hourly_data].  The running PnL is kept as the binary64
    that the code accumulates. *)
Record HourData := mkHourData {
  num_trades : Z;
  buy_da_mw : Q;
  sell_da_mw : Q;
  buy_ida_mw : Q;
  sell_ida_mw : Q;
  pnl_eur : Binary64.ext Q
}.

(** [quantity * price] on two columns of a fetched row. *)
Definition value (t : Trade) : Binary64.ext Q :=
  Binary64.mul (Binary64.Finite (quantity t)) (Binary64.Finite (price t)).

(** Python's [pat in s] on strings. *)
Fixpoint contains (pat s : string) : bool :=
  if String.prefix pat s then true
  else match s with
       | EmptyString => false
       | String _ rest => contains pat rest
       end.

Fixpoint insert_by_hour (t : Trade) (l : list Trade) : list Trade :=
  match l with
  | [] => [t]
  | u :: rest =>
      if (delivery_hour t <=? delivery_hour u)%Z then t :: l
      else u :: insert_by_hour t rest
  end.

(** [ORDER BY delivery_hour]; the rows of one hour stay in table order. *)
Definition order_by_hour (l : list Trade) : list Trade :=
  fold_right insert_by_hour [] l.

(** The query: the trader's trades of the day, by hour. *)
Definition select_trades (table : list Trade) (trader : string)
    (day : string) : list Trade :=
  order_by_hour
    (List.filter (fun t => String.eqb (trader_id t) trader
                           && String.eqb (delivery_day t) day) table).

Definition zero_hour : HourData :=
  {| num_trades := 0; buy_da_mw := 0; sell_da_mw := 0;
     buy_ida_mw := 0; sell_ida_mw := 0; pnl_eur := Binary64.Finite 0%Q |}.

(** [for hour in range(24): hourly_data[hour] = {...}] *)
Definition init_hourly_data : gmap Z HourData :=
  fold_left (fun m h => <[ Z.of_nat h := zero_hour ]> m) (seq 0 24) ∅.

(** The updates made to [hour_data] for one fetched row. *)
Definition update_hour (hd : HourData) (t : Trade) : HourData :=
  let q := quantity t in
  let is_da := contains "_DA_" (trade_id t) in
  let is_ida := contains "_ID_" (trade_id t) in
  if String.eqb (side t) "buy" then
    {| num_trades := num_trades hd + 1;
       buy_da_mw := if is_da then buy_da_mw hd + q else buy_da_mw hd;
       sell_da_mw := sell_da_mw hd;
       buy_ida_mw := if is_da then buy_ida_mw hd
                     else if is_ida then buy_ida_mw hd + q
                          else buy_ida_mw hd;
       sell_ida_mw := sell_ida_mw hd;
       pnl_eur := Binary64.sub (pnl_eur hd) (value t) |}
  else
    {| num_trades := num_trades hd + 1;
       buy_da_mw := buy_da_mw hd;
       sell_da_mw := if is_da then sell_da_mw hd + q else sell_da_mw hd;
       buy_ida_mw := buy_ida_mw hd;
       sell_ida_mw := if is_da then sell_ida_mw hd
                      else if is_ida then sell_ida_mw hd + q
                           else sell_ida_mw hd;
       pnl_eur := Binary64.add (pnl_eur hd) (value t) |}.

(** [hour_data = hourly_data[delivery_hour]] raises [KeyError] on a
    missing key ([None]); the entry is then updated in place. *)
Definition process_trade (hourly_data : gmap Z HourData) (t : Trade)
  : option (gmap Z HourData) :=
  match hourly_data !! delivery_hour t with
  | None => None
  | Some hour_data =>
      Some (<[ delivery_hour t := update_hour hour_data t ]> hourly_data)
  end.

Fixpoint process_trades (hourly_data : gmap Z HourData) (rows : list Trade)
  : option (gmap Z HourData) :=
  match rows with
  | [] => Some hourly_data
  | t :: rest =>
      match process_trade hourly_data t with
      | None => None
      | Some hourly_data' => process_trades hourly_data' rest
      end
  end.

Definition compute_hourly_pnl (table : list Trade) (trader : string)
    (day : Z) : option (gmap Z HourData) :=
  process_trades init_hourly_data
    (select_trades table trader (Clock.date_isoformat day)).

End Report.

(** ** [compute_pnl] of task1.py *)

Module Task1.
Local Open Scope Q_scope.

(** The columns of the EPEX table that [compute_pnl] reads. *)
Record EpexRow := mkEpexRow {
  quantity : Q;
  price : Q;
  side : string;
  strategy : string
}.

(** [total = 0.0], then [total += qty * price if side == "sell" else
    -qty * price] row by row, in binary64. *)
Definition compute_pnl (table : list EpexRow) (strategy_id : string)
  : Binary64.ext Q :=
  fold_left
    (fun total r =>
       if String.eqb (side r) "sell"
       then Binary64.add total
              (Binary64.mul (Binary64.Finite (quantity r))
                 (Binary64.Finite (price r)))
       else Binary64.add total
              (Binary64.mul (Binary64.neg (Binary64.Finite (quantity r)))
                 (Binary64.Finite (price r))))
    (List.filter (fun r => String.eqb (strategy r) strategy_id) table)
    (Binary64.Finite 0%Q).

End Task1.

(** ** Drawdown statistic of [run_strategy] *)

Module Analysis.
Local Open Scope Q_scope.

Fixpoint scan (op : Q -> Q -> Q) (acc : Q) (l : list Q) : list Q :=
  match l with
  | [] => []
  | x :: rest => op acc x :: scan op (op acc x) rest
  end.

(** [Series.cumsum()] *)
Definition cumsum (l : list Q) : list Q :=
  match l with [] => [] | x :: rest => x :: scan Qplus x rest end.

(** [Series.cummax()] *)
Definition cummax (l : list Q) : list Q :=
  match l with [] => [] | x :: rest => x :: scan Qmax x rest end.

(** Element-wise difference of two aligned series. *)
Definition series_sub (a b : list Q) : list Q :=
  map (fun xy => fst xy - snd xy) (combine a b).

(** [Series.min()]; [None] is the NaN of an empty series. *)
Definition series_min (l : list Q) : option Q :=
  match l with [] => None | x :: rest => Some (fold_left Qmin rest x) end.

(** [(daily_pnl.cumsum() - daily_pnl.cumsum().cummax()).min()] *)
Definition max_drawdown (daily_pnl : list Q) : option Q :=
  series_min (series_sub (cumsum daily_pnl) (cummax (cumsum daily_pnl))).

(** The same statistic in the words of the specification:
    min over t of cumsum[t] - max (cumsum[0..t]), by position. *)
Definition sum_to (l : list Q) (t : nat) : Q :=
  fold_right Qplus 0 (firstn (S t) l).

(** max over s <= t of [sum_to l s] *)
Fixpoint peak_to (l : list Q) (t : nat) : Q :=
  match t with
  | O => sum_to l 0
  | S t' => Qmax (peak_to l t') (sum_to l t)
  end.

Definition drawdown_at (l : list Q) (t : nat) : Q :=
  sum_to l t - peak_to l t.

(** min over t <= n of [f t] *)
Fixpoint min_upto (f : nat -> Q) (n : nat) : Q :=
  match n with
  | O => f O
  | S n' => Qmin (min_upto f n') (f n)
  end.

Definition spec_max_drawdown (l : list Q) : Q :=
  min_upto (drawdown_at l) (length l - 1).

(** The drawdown series after a running sum [s] and a running peak [p]. *)
Fixpoint drawdowns_from (s p : Q) (l : list Q) : list Q :=
  match l with
  | [] => []
  | x :: rest =>
      (s + x - Qmax p (s + x))
        :: drawdowns_from (s + x) (Qmax p (s + x)) rest
  end.

End Analysis.

(** ** Vocabulary of the properties *)

Module Props.
Import Frame Store.

(** What each leg of a position shares with the signal row. *)
Definition leg_of (strategy_name : string) (r : Scored) (t : Trade) : Prop :=
  delivery_day t = Clock.date_isoformat (date (row r))
  /\ delivery_hour t = hour (row r)
  /\ strategy t = strategy_name
  /\ quantity t = Convert.position_size
  /\ trader_id t = "strategy_ml_daily"%string.

(** [l] is a day-ahead leg followed by an intraday leg, with the given
    sides, priced at [da_price] and [id_price_h]. *)
Definition pair_of (strategy_name : string) (r : Scored)
    (da_side id_side : string) (l : list Trade) : Prop :=
  exists da id : Trade,
    l = [da; id]
    /\ leg_of strategy_name r da /\ leg_of strategy_name r id
    /\ side da = da_side /\ price da = da_price (row r)
    /\ side id = id_side /\ price id = id_price_h (row r).

(** Number of rows whose signal is long or short. *)
Definition count_positions (df : list (Z * Scored)) : nat :=
  length (List.filter
            (fun ir => (signal (snd ir) =? 1)%Z || (signal (snd ir) =? -1)%Z)
            df).

(** The decision instant: one day before the observation. *)
Definition decision_instant (r : Scored) : Z :=
  (Frame.timestamp (row r) - Clock.timedelta 1 0)%Z.

(** Timing with both legs stamped one day before the observation and the
    intraday leg two hours after the day-ahead leg. *)
Definition timing_both_day_before (r : Scored) (l : list Trade) : Prop :=
  exists da id : Trade,
    l = [da; id]
    /\ Store.timestamp da = Clock.isoformat (decision_instant r)
    /\ Store.timestamp id = Clock.isoformat (decision_instant r)
    /\ Store.timestamp id =
         Clock.isoformat (decision_instant r + Clock.timedelta 0 2)%Z.

(** Timing as the converter stamps the legs. *)
Definition timing_offset (r : Scored) (l : list Trade) : Prop :=
  exists da id : Trade,
    l = [da; id]
    /\ Store.timestamp da = Clock.isoformat (decision_instant r)
    /\ Store.timestamp id =
         Clock.isoformat (decision_instant r + Clock.timedelta 0 2)%Z.

(** A long signal for 2021-06-15 13:15 and a short one an hour later. *)
Definition sample_long : Scored :=
  {| row := mkRow 1623762900 18793 13 50 60 10 [];
     signal := 1; prob := 0.6 |}.

Definition sample_short : Scored :=
  {| row := mkRow 1623766500 18793 14 70 65 (-5) [];
     signal := -1; prob := 0.3 |}.

Definition sample_flat : Scored :=
  {| row := mkRow 1623770100 18793 15 70 71 1 [];
     signal := 0; prob := 0.5 |}.

(** [c in s] for a single character. *)
Fixpoint occurs (c : ascii) (s : string) : bool :=
  match s with
  | EmptyString => false
  | String a rest => Ascii.eqb c a || occurs c rest
  end.

(** The characters an integer label or a zero-padded field is made of. *)
Definition numeric_char (c : ascii) : bool :=
  existsb (Ascii.eqb c)
    ["0"; "1"; "2"; "3"; "4"; "5"; "6"; "7"; "8"; "9"; "-"]%char.

(** The four f-strings of the converter have this shape. *)
Definition make_id (leg stamp label suffix : string) : string :=
  (leg ++ stamp ++ "_" ++ label ++ suffix)%string.

(** The four volume columns of an hourly entry. *)
Inductive Bucket := BuyDA | SellDA | BuyIDA | SellIDA.

Definition volume (b : Bucket) (hd : Report.HourData) : Q :=
  match b with
  | BuyDA => Report.buy_da_mw hd
  | SellDA => Report.sell_da_mw hd
  | BuyIDA => Report.buy_ida_mw hd
  | SellIDA => Report.sell_ida_mw hd
  end.

(** The aggregator adds the trade's quantity to column [b] and leaves the
    other three columns as they were. *)
Definition booked_in (b : Bucket) (t : Trade) : Prop :=
  forall hd : Report.HourData,
    volume b (Report.update_hour hd t) = (volume b hd + quantity t)%Q
    /\ forall b' : Bucket,
         b' <> b -> volume b' (Report.update_hour hd t) = volume b' hd.

(** The aggregator's two substring tests on a trade. *)
Definition markers (t : Trade) : bool * bool :=
  (Report.contains "_DA_" (trade_id t), Report.contains "_ID_" (trade_id t)).

(** Three signal rows under distinct labels: long, flat, short. *)
Definition sample_frame : list (Z * Scored) :=
  [(0%Z, sample_long); (1%Z, sample_flat); (2%Z, sample_short)].

(** The trader's trades of a day that deliver in hour [h], in table order. *)
Definition hour_rows (table : list Trade) (trader : string) (day : Z)
    (h : Z) : list Trade :=
  List.filter (fun t => (delivery_hour t =? h)%Z)
    (List.filter
       (fun t => String.eqb (trader_id t) trader
                 && String.eqb (delivery_day t) (Clock.date_isoformat day))
       table).

(** Sum of quantity x price over the rows of one side. *)
Definition side_total (side_name : string) (rows : list Trade) : Q :=
  fold_right Qplus 0%Q
    (map (fun t => quantity t * price t)%Q
         (List.filter (fun t => String.eqb (side t) side_name) rows)).

(** The running PnL of the rows, in row order and in binary64: a buy
    subtracts its rounded product, any other row adds it. *)
Definition running_pnl (rows : list Trade) : Binary64.ext Q :=
  fold_left
    (fun acc t =>
       if String.eqb (side t) "buy"
       then Binary64.sub acc (Report.value t)
       else Binary64.add acc (Report.value t))
    rows (Binary64.Finite 0%Q).

(** The day's PnL as the report totals it: the binary64 sum, over the
    hours 0..23 in which the trader has trades, of the hours' running
    PnL. *)
Definition day_pnl (table : list Trade) (trader : string) (day : Z)
  : Binary64.ext Q :=
  fold_left
    (fun acc h => Binary64.add acc (running_pnl (hour_rows table trader day h)))
    (List.filter
       (fun h => (Z.of_nat (length (hour_rows table trader day h)) >? 0)%Z)
       (map Z.of_nat (seq 0 24)))
    (Binary64.Finite 0%Q).

(** What a row adds to the PnL. *)
Definition signed_value (t : Trade) : Q :=
  if String.eqb (side t) "buy" then (- (quantity t * price t))%Q
  else (quantity t * price t)%Q.

(** No rounding occurs in the running PnL of [rows] started at [acc]:
    every product and every partial sum is a binary64. *)
Fixpoint exact_run (acc : Q) (rows : list Trade) : Prop :=
  match rows with
  | [] => True
  | t :: rest =>
      Binary64.exact (quantity t * price t)
      /\ Binary64.exact (acc + signed_value t)
      /\ exact_run (acc + signed_value t) rest
  end.

(** Every row satisfies the CHECK clauses of the schema. *)
Definition checked (table : list Trade) : Prop :=
  Forall (fun t => check_constraints t = true) table.

(** Buy 10 MW at 50 and sell 10 MW at 60, both for hour 13 of 2021-06-15. *)
Definition sample_table : list Trade :=
  [ {| trade_id := "T_1"; trader_id := "trader_1";
       delivery_day := "2021-06-15"; delivery_hour := 13;
       quantity := 10; price := 50; side := "buy";
       strategy := "s"; timestamp := "2021-06-14T13:00:00" |};
    {| trade_id := "T_2"; trader_id := "trader_1";
       delivery_day := "2021-06-15"; delivery_hour := 13;
       quantity := 10; price := 60; side := "sell";
       strategy := "s"; timestamp := "2021-06-14T15:00:00" |} ]%string.

(** One hour with a sell of 1 MW at 1e16, a sell of 1 MW at 1 and a buy
    of 1 MW at 1e16. *)
Definition rounding_table : list Trade :=
  [ {| trade_id := "T_1"; trader_id := "trader_1";
       delivery_day := "2021-06-15"; delivery_hour := 13;
       quantity := 1; price := 10000000000000000; side := "sell";
       strategy := "s"; timestamp := "2021-06-14T13:00:00" |};
    {| trade_id := "T_2"; trader_id := "trader_1";
       delivery_day := "2021-06-15"; delivery_hour := 13;
       quantity := 1; price := 1; side := "sell";
       strategy := "s"; timestamp := "2021-06-14T13:00:00" |};
    {| trade_id := "T_3"; trader_id := "trader_1";
       delivery_day := "2021-06-15"; delivery_hour := 13;
       quantity := 1; price := 10000000000000000; side := "buy";
       strategy := "s"; timestamp := "2021-06-14T13:00:00" |} ]%string.

Definition sample_epex : list Task1.EpexRow :=
  [ Task1.mkEpexRow 10 50 "buy" "s"; Task1.mkEpexRow 10 60 "sell" "s" ]%string.

(** The dict has exactly the keys 0..23. *)
Definition covers (m : gmap Z Report.HourData) : Prop :=
  forall h : Z, is_Some (m !! h) <-> (0 <= h <= 23)%Z.

(** The entry that the report holds for one hour of a day, if any. *)
Definition hour_entry (table : list Trade) (trader : string) (day : Z)
    (h : Z) : option Report.HourData :=
  match Report.compute_hourly_pnl table trader day with
  | Some hourly_data => hourly_data !! h
  | None => None
  end.

(** Rows of a result frame that belong to day [d]. *)
Definition on_day (d : Z) (ir : Z * Scored) : bool :=
  (date (row (snd ir)) =? d)%Z.

(** The signals a run emits for day [d]: none when the run raises. *)
Definition day_rows (d : Z) (res : Forecast.Raised + list (Z * Scored))
  : list (Z * Scored) :=
  match res with
  | inr rows => List.filter (on_day d) rows
  | inl _ => []
  end.

(** The run returns a frame. *)
Definition returns (res : Forecast.Raised + list (Z * Scored)) : Prop :=
  exists rows, res = inr rows.

(** [k] hourly feature rows of day [d]. *)
Definition day_block (k : nat) (d : nat) : list Row :=
  map (fun h => mkRow (Z.of_nat d * 86400 + Z.of_nat h * 3600) (Z.of_nat d)
                      (Z.of_nat h) 50 51 1 [])
      (seq 0 k).

(** [k] hourly feature rows of day [d], the spread positive in the even
    hours and negative in the odd ones. *)
Definition mixed_block (k : nat) (d : nat) : list Row :=
  map (fun h =>
         if Nat.even h
         then mkRow (Z.of_nat d * 86400 + Z.of_nat h * 3600) (Z.of_nat d)
                    (Z.of_nat h) 50 51 1 []
         else mkRow (Z.of_nat d * 86400 + Z.of_nat h * 3600) (Z.of_nat d)
                    (Z.of_nat h) 50 49 (-1) [])
      (seq 0 k).

(** Thirty days of four rows each: 120 rows, labels of both classes. *)
Definition history : list Row := flat_map (mixed_block 4) (seq 0 30).

(** Thirty-one days of three rows each: day 30 has 90 rows before it. *)
Definition sparse_table : list Row := flat_map (day_block 3) (seq 0 31).

(** A row of day 30. *)
Definition row_30 : Row := mkRow 2592000 30 0 50 51 1 [].

(** A row of day 31 and a replacement for it. *)
Definition row_31 : Row := mkRow 2678400 31 0 50 51 1 [].
Definition row_31_mutated : Row := mkRow 2682000 31 1 70 60 (-10) [].

(** A classifier that rejects labels of a single class, otherwise ignores
    its training set, and reads the hour. *)
Definition sample_fit (X : list (list Q)) (y : list Z)
    (w : list (Binary64.ext R)) : option unit :=
  if existsb (Z.eqb 0) y && existsb (Z.eqb 1) y then Some tt else None.

Definition hour_proba (model : unit) (x : list Q) : Q :=
  match x with
  | h :: _ => if Qeq_bool h 0 then 0.75 else 0.25
  | [] => 0.5
  end%Q.

(** A classifier whose every probability is the float32 nearest to 0.55. *)
Definition edge_proba (model : unit) (x : list Q) : Q :=
  Forecast.float32 0.55.




(** Two rows of later days placed ahead of the history, and the same head
    with its second row moved to the day of the first. *)
Definition late_head : list Row :=
  [mkRow 8640000 100 0 50 51 1 []; mkRow 8726400 101 0 50 51 1 []].

Definition late_head_mutated : list Row :=
  [mkRow 8640000 100 0 50 51 1 []; mkRow 8643600 100 1 50 51 1 []].

End Props.

(** ** The pipeline of [main] *)

Module Ledger.
Import Frame Store.
Local Open Scope Q_scope.

(** How a run of [main] can end early. *)
Inductive RunError :=
| StrategyError (e : Forecast.Raised)
| InsertionError (e : InsertError).

Section Classifier.
Variable Model : Type.
Variable fit : list (list Q) -> list Z -> list (Binary64.ext R) -> option Model.
Variable predict_proba : Model -> list Q -> Q.

(** [main] from the feature table on: strategy, conversion, insertion into
    the freshly initialised table. *)
Definition main_from_features (df_ml : list Row)
  : RunError + (list Trade * nat) :=
  match Forecast.apply_daily_ml_strategy Model fit predict_proba df_ml with
  | inl e => inl (StrategyError e)
  | inr df_results =>
      match insert_trades_to_db init_database
              (Convert.convert_to_trades df_results
                 Convert.default_strategy_name) with
      | inl e => inl (InsertionError e)
      | inr r => inr r
      end
  end.

End Classifier.


(** The hour column of every long or short row lies in 0..23. *)
Definition hours_in_range (df_results : list (Z * Scored)) : Prop :=
  forall ir, In ir df_results ->
    signal (snd ir) = 1%Z \/ signal (snd ir) = (-1)%Z ->
    (0 <= hour (row (snd ir)) <= 23)%Z.

(** The rows can be inserted: each passes the CHECK clauses, their keys
    are pairwise distinct and none is in the table yet. *)
Definition insertable (table trades : list Trade) : Prop :=
  forallb check_constraints trades = true
  /\ List.NoDup (map trade_id trades)
  /\ forall t, In t trades -> ~ In (trade_id t) (map trade_id table).

End Ledger.

(** ** Terminal report: [display_pnl_report] of task3_report.py *)

Module Terminal.
Import Store Report.

(** The running totals of the loop over the hours, with the rows appended
    to [table_data]; a row is kept as its hour label and trade count (the
    other cells are the same numbers formatted to two decimals). *)
Record Totals := mkTotals {
  table_data : list (string * Z);
  total_trades : Z;
  total_buy_da : Q;
  total_sell_da : Q;
  total_buy_ida : Q;
  total_sell_ida : Q;
  total_pnl : Binary64.ext Q
}.

Definition zero_totals : Totals :=
  {| table_data := []; total_trades := 0; total_buy_da := 0;
     total_sell_da := 0; total_buy_ida := 0; total_sell_ida := 0;
     total_pnl := Binary64.Finite 0%Q |}.

(** [f"{hour:02d} - {hour+1:02d}"] *)
Definition hour_label (hour : Z) : string :=
  (Clock.pad2 hour ++ " - " ++ Clock.pad2 (hour + 1))%string.

(** The body of the loop for one hour: only hours with trades are shown
    and added. *)
Definition add_hour (acc : Totals) (hour : Z) (data : HourData) : Totals :=
  if (num_trades data >? 0)%Z then
    {| table_data := table_data acc ++ [(hour_label hour, num_trades data)];
       total_trades := total_trades acc + num_trades data;
       total_buy_da := total_buy_da acc + buy_da_mw data;
       total_sell_da := total_sell_da acc + sell_da_mw data;
       total_buy_ida := total_buy_ida acc + buy_ida_mw data;
       total_sell_ida := total_sell_ida acc + sell_ida_mw data;
       total_pnl := Binary64.add (total_pnl acc) (pnl_eur data) |}
  else acc.

(** [for hour in range(24): data = hourly_data[hour] ...]; [None] is the
    [KeyError] of a missing hour. *)
Fixpoint totals_loop (hourly_data : gmap Z HourData) (hours : list Z)
    (acc : Totals) : option Totals :=
  match hours with
  | [] => Some acc
  | hour :: rest =>
      match hourly_data !! hour with
      | None => None
      | Some data => totals_loop hourly_data rest (add_hour acc hour data)
      end
  end.

Inductive Verdict := Profit | Loss | BreakEven.

Inductive Display :=
| ErrorExit
| UncaughtKeyError
| NoTradesFound
| Printed (totals : Totals) (net_position : Q) (result : Verdict).

(** [total_pnl > 0], [total_pnl < 0], else: the comparisons of a
    binary64, both false on NaN. *)
Definition verdict (pnl : Binary64.ext Q) : Verdict :=
  if Binary64.ltb (Binary64.Finite 0%Q) pnl then Profit
  else if Binary64.ltb pnl (Binary64.Finite 0%Q) then Loss else BreakEven.

(** [display_pnl_report]: an exception of [compute_hourly_pnl] is caught
    and ends in [sys.exit(1)]. *)
Definition display_pnl_report (table : list Trade) (trader : string)
    (day : Z) : Display :=
  match compute_hourly_pnl table trader day with
  | None => ErrorExit
  | Some hourly_data =>
      match totals_loop hourly_data (map Z.of_nat (seq 0 24)) zero_totals with
      | None => UncaughtKeyError
      | Some totals =>
          match table_data totals with
          | [] => NoTradesFound
          | _ =>
              Printed totals
                ((total_sell_da totals + total_sell_ida totals)
                 - (total_buy_da totals + total_buy_ida totals))%Q
                (verdict (total_pnl totals))
          end
      end
  end.

(** The trader's trades of a day, in table order. *)
Definition day_trades (table : list Trade) (trader : string) (day : Z)
  : list Trade :=
  List.filter
    (fun t => String.eqb (trader_id t) trader
              && String.eqb (delivery_day t) (Clock.date_isoformat day))
    table.

(** Sum of the quantities of the rows selected by [p]. *)
Definition volume_where (p : Trade -> bool) (rows : list Trade) : Q :=
  fold_right Qplus 0%Q (map quantity (List.filter p rows)).

Definition is_buy (t : Trade) : bool := String.eqb (side t) "buy".
Definition is_sell (t : Trade) : bool := String.eqb (side t) "sell".
Definition has_da (t : Trade) : bool := contains "_DA_" (trade_id t).
Definition has_id (t : Trade) : bool := contains "_ID_" (trade_id t).

End Terminal.

(** ** Dashboard: [load_trader_data] and [compute_hourly_metrics] of
    task4_dashboard.py *)

Module Dashboard.
Import Store Report Terminal.



(** [ORDER BY delivery_hour, timestamp], the text column compared
    bytewise. *)
Definition before (t u : Trade) : bool :=
  (delivery_hour t <? delivery_hour u)%Z
  || ((delivery_hour t =? delivery_hour u)%Z
      && String.leb (timestamp t) (timestamp u)).

Fixpoint insert_sorted (t : Trade) (l : list Trade) : list Trade :=
  match l with
  | [] => [t]
  | u :: rest =>
      if before t u then t :: l else u :: insert_sorted t rest
  end.

(** The query of [load_trader_data]; a row keeps all its columns. *)
Definition read_sql_query (table : list Trade) (trader : string)
    (day : Z) : list Trade :=
  fold_right insert_sorted []
    (List.filter
       (fun t => String.eqb (trader_id t) trader
                 && String.eqb (delivery_day t) (Clock.date_isoformat day))
       table).

(** [@st.cache_data(ttl=60)]: the frames that the calls of the last 60
    seconds returned, by arguments.  Time is not modelled: an entry is in
    the cache or has expired. *)
Definition Cache : Type := list (string * Z * list Trade).

Definition cached (cache : Cache) (trader : string) (day : Z)
  : option (list Trade) :=
  match List.find
          (fun e => String.eqb (fst (fst e)) trader && (snd (fst e) =? day)%Z)
          cache with
  | Some e => Some (snd e)
  | None => None
  end.

(** [load_trader_data]: a cached frame is returned as it is, whatever the
    table holds by now; otherwise the query runs and its frame is cached. *)
Definition load_trader_data (cache : Cache) (table : list Trade)
    (trader : string) (day : Z) : list Trade * Cache :=
  match cached cache trader day with
  | Some df => (df, cache)
  | None =>
      let df := read_sql_query table trader day in
      (df, (trader, day, df) :: cache)
  end.






End Dashboard.

(** ** Trade API: the handlers of task1_api.py

    A handler is modelled for a request that passed [verify_credentials]
    and the validation of its body; the database is the list of the rows
    of [trades], and every handler returns its reply (with the new table
    where it writes). *)

Module Api.
Local Open Scope Z_scope.

(** A naive [datetime]: whole seconds since the epoch and the microsecond
    field. The formats below are those of years 1000..9999. *)
Record DateTime := mkDateTime { seconds : Z; microsecond : Z }.

(** [%f]: six digits. *)
Definition pad6 (n : Z) : string :=
  String (Clock.digit (n / 100000))
    (String (Clock.digit (n / 10000)) (Clock.pad4 n)).

(** [timestamp.strftime('%Y%m%d_%H%M%S_%f')] *)
Definition strftime (t : DateTime) : string :=
  (Clock.strftime (seconds t) ++ "_" ++ pad6 (microsecond t))%string.

(** [datetime.isoformat()]: the fraction is printed unless it is zero. *)
Definition isoformat (t : DateTime) : string :=
  (Clock.isoformat (seconds t)
   ++ (if (microsecond t =? 0)%Z then ""
       else "." ++ pad6 (microsecond t)))%string.

Definition generate_trade_id (trader_id : string) (timestamp : DateTime)
  : string :=
  (trader_id ++ "_" ++ strftime timestamp)%string.

(** The request model [Trade]. *)
Module Body.
Record Trade := mkTrade {
  trade_id : option string;
  trader_id : string;
  delivery_day : Z;
  delivery_hour : Z;
  quantity : Q;
  price : Q;
  side : string;
  strategy : option string;
  timestamp : option DateTime
}.
End Body.

(** A row of the table [trades] of [init_db]. *)
Record Row := mkRow {
  trade_id : string;
  trader_id : string;
  delivery_day : string;
  delivery_hour : Z;
  quantity : Q;
  price : Q;
  side : string;
  strategy : option string;
  timestamp : string
}.

(** [TradeResponse] of [create_trade]: the body with the id and the
    timestamp that were used. *)
Record TradeResponse := mkTradeResponse {
  response_trade_id : string;
  response_trade : Body.Trade;
  response_timestamp : DateTime
}.

Inductive Reply (A : Type) :=
| Success (a : A)
| HTTPException (status_code : Z).
Arguments Success {A} a.
Arguments HTTPException {A} status_code.

(** The two CHECK clauses of [init_db]. *)
Definition check_constraints (r : Row) : bool :=
  (String.eqb (side r) "buy" || String.eqb (side r) "sell")
  && (0 <=? delivery_hour r) && (delivery_hour r <=? 23).

Definition has_key (table : list Row) (id : string) : bool :=
  existsb (fun r => String.eqb (trade_id r) id) table.

(** [trade.trade_id or generate_trade_id(...)]: [None] and the empty
    string are both false. *)
Definition or_generated (given : option string) (generated : string)
  : string :=
  match given with
  | Some (String c s) => String c s
  | _ => generated
  end.

(** [trade.timestamp or datetime.now()]: a datetime is never false. *)
Definition or_now (given : option DateTime) (now : DateTime) : DateTime :=
  match given with
  | Some t => t
  | None => now
  end.

(** The row that [create_trade] inserts. *)
Definition new_row (now : DateTime) (trade : Body.Trade) : Row :=
  let timestamp := or_now (Body.timestamp trade) now in
  let trade_id :=
    or_generated (Body.trade_id trade)
      (generate_trade_id (Body.trader_id trade) timestamp) in
  {| trade_id := trade_id;
     trader_id := Body.trader_id trade;
     delivery_day := Clock.date_isoformat (Body.delivery_day trade);
     delivery_hour := Body.delivery_hour trade;
     quantity := Body.quantity trade;
     price := Body.price trade;
     side := Body.side trade;
     strategy := Body.strategy trade;
     timestamp := isoformat timestamp |}.

(** The database as a handler finds it: the committed rows, and whether
    a connection that an earlier handler left open still holds the write
    lock.  Such a connection is closed, and its transaction rolled back,
    only when the garbage collector frees it. *)
Record Db := mkDb { rows : list Row; locked : bool }.

(** [create_trade].  While the write lock is held the INSERT fails with
    [sqlite3.OperationalError] (database is locked), which the handler
    turns into status 500.  Otherwise any [sqlite3.IntegrityError] of the
    INSERT (a failed CHECK or a taken primary key) becomes status 409; on
    that path the handler neither commits nor closes its connection, whose
    open transaction keeps the write lock.  [now] is the value of
    [datetime.now()]. *)
Definition create_trade (db : Db) (now : DateTime) (trade : Body.Trade)
  : Reply TradeResponse * Db :=
  if locked db then (HTTPException 500, db)
  else
    let row := new_row now trade in
    if negb (check_constraints row) || has_key (rows db) (trade_id row) then
      (HTTPException 409, {| rows := rows db; locked := true |})
    else
      (Success {| response_trade_id := trade_id row;
                  response_trade := trade;
                  response_timestamp := or_now (Body.timestamp trade) now |},
       {| rows := (rows db ++ [row])%list; locked := false |}).

(** [get_trade]: a read, which the write lock of another connection does
    not block; the reply is kept as the fetched row (its two text columns
    are parsed back with [fromisoformat] in the source). *)
Definition get_trade (db : Db) (id : string) : Reply Row :=
  match List.find (fun r => String.eqb (trade_id r) id) (rows db) with
  | Some row => Success row
  | None => HTTPException 404
  end.

(** [delete_trade]: status 500 while the write lock is held;
    [cursor.rowcount] is the number of deleted rows, and the handler
    closes its connection before it answers 404. *)
Definition delete_trade (db : Db) (id : string) : Reply string * Db :=
  if locked db then (HTTPException 500, db)
  else
    let kept :=
      List.filter (fun r => negb (String.eqb (trade_id r) id)) (rows db) in
    let rowcount := (length (rows db) - length kept)%nat in
    if (rowcount =? 0)%nat then (HTTPException 404, db)
    else (Success id, {| rows := kept; locked := false |}).

(** What changes the database: the two writing requests, and a run of the
    garbage collector, which closes the connections left open. *)
Inductive Event :=
| Post (now : DateTime) (trade : Body.Trade)
| Delete (id : string)
| Collect.

Definition handle (db : Db) (ev : Event) : Db :=
  match ev with
  | Post now trade => snd (create_trade db now trade)
  | Delete id => snd (delete_trade db id)
  | Collect => {| rows := rows db; locked := false |}
  end.

(** The database after a sequence of events. *)
Definition serve (db : Db) (events : list Event) : Db :=
  fold_left handle events db.

(** A database just initialised by [init_db]. *)
Definition fresh : Db := {| rows := []; locked := false |}.


(** The primary key and the CHECK clauses hold in a table. *)
Definition schema_ok (table : list Row) : Prop :=
  List.NoDup (map trade_id table)
  /\ Forall (fun r => check_constraints r = true) table.

Definition sample_body : Body.Trade :=
  {| Body.trade_id := None; Body.trader_id := "trader1";
     Body.delivery_day := 18793; Body.delivery_hour := 13;
     Body.quantity := 10; Body.price := 50; Body.side := "buy";
     Body.strategy := None; Body.timestamp := None |}.

Definition sample_now : DateTime := mkDateTime 1623675600 250000.

End Api.

(** ** Battery revenue and the directional strategy of task2_analysis.py *)

Module Task2.
Local Open Scope Q_scope.

(** The columns of the quarter-hourly frame that the two functions read;
    every cell holds a number. *)
Record Quarter := mkQuarter {
  date : Z;
  hour : Z;
  wind_da : Q;
  wind_id : Q;
  pv_da : Q;
  pv_id : Q;
  da_price : Q;
  id_price_h : Q
}.

Section Sorting.
Context {A : Type} (leb : A -> A -> bool).

Fixpoint insert (x : A) (l : list A) : list A :=
  match l with
  | [] => [x]
  | y :: rest => if leb x y then x :: l else y :: insert x rest
  end.

Definition sort (l : list A) : list A := fold_right insert [] l.

End Sorting.

Definition pair_leb (a b : Z * Z) : bool :=
  (fst a <? fst b)%Z || ((fst a =? fst b)%Z && (snd a <=? snd b)%Z).

Definition pair_eq_dec (a b : Z * Z) : {a = b} + {a <> b}.
Proof. decide equality; apply Z.eq_dec. Defined.

Definition sum (l : list Q) : Q := fold_right Qplus 0 l.

(** [Series.mean()] of a non-empty group. *)
Definition mean (l : list Q) : Q := sum l / inject_Z (Z.of_nat (length l)).

(** The group keys of [groupby(["date", "hour"])], ascending. *)
Definition hour_keys (df : list Quarter) : list (Z * Z) :=
  sort pair_leb (nodup pair_eq_dec (map (fun r => (date r, hour r)) df)).

Definition hour_group (df : list Quarter) (k : Z * Z) : list Quarter :=
  List.filter (fun r => (date r =? fst k)%Z && (hour r =? snd k)%Z) df.

(** The group keys of [groupby("date")], ascending. *)
Definition date_keys (dates : list Z) : list Z :=
  sort Z.leb (nodup Z.eq_dec dates).

(** *** [task2_6_battery_revenue] *)

Record PriceRow := mkPriceRow {
  price_date : Z;
  price_hour : Z;
  price : Q
}.

(** [df.groupby(["date", "hour"])["da_price"].mean().reset_index()] *)
Definition hourly_prices (df : list Quarter) : list PriceRow :=
  map (fun k => {| price_date := fst k; price_hour := snd k;
                   price := mean (map da_price (hour_group df k)) |})
      (hour_keys df).

(** Position of the first least (greatest) element after a scan that has
    reached position [i] with the candidate [best] at [best_i]. *)
Fixpoint idxmin_from (best_i : nat) (best : Q) (i : nat) (l : list Q)
  : nat :=
  match l with
  | [] => best_i
  | x :: rest =>
      if Qlt_le_dec x best then idxmin_from i x (S i) rest
      else idxmin_from best_i best (S i) rest
  end.

Fixpoint idxmax_from (best_i : nat) (best : Q) (i : nat) (l : list Q)
  : nat :=
  match l with
  | [] => best_i
  | x :: rest =>
      if Qlt_le_dec best x then idxmax_from i x (S i) rest
      else idxmax_from best_i best (S i) rest
  end.

Inductive Error := ValueError | KeyError | ZeroDivisionError.

(** [Series.idxmin()] on the default index; an empty series raises. *)
Definition idxmin (prices : list Q) : Error + nat :=
  match prices with
  | [] => inl ValueError
  | x :: rest => inr (idxmin_from 0 x 1 rest)
  end.

(** [prices[start:].idxmax()]: the label of the first greatest element of
    the slice, labels being the positions in [prices]. *)
Definition idxmax_after (prices : list Q) (start : nat) : Error + nat :=
  match skipn start prices with
  | [] => inl ValueError
  | x :: rest => inr (idxmax_from start x (S start) rest)
  end.

(** [prices.loc[i]] *)
Definition loc (prices : list Q) (i : nat) : Error + Q :=
  match nth_error prices i with
  | Some x => inr x
  | None => inl KeyError
  end.

(** The body of the loop over the days. *)
Definition day_revenue (prices : list Q) (capacity_mwh : Q) : Error + Q :=
  match idxmin prices with
  | inl e => inl e
  | inr min_idx =>
      match idxmax_after prices min_idx with
      | inl e => inl e
      | inr max_after_min_idx =>
          match loc prices min_idx with
          | inl e => inl e
          | inr buy =>
              match loc prices max_after_min_idx with
              | inl e => inl e
              | inr sell => inr ((sell - buy) * capacity_mwh)
              end
          end
      end
  end.

(** [group.sort_values("hour")["da_price"].reset_index(drop=True)] for the
    group of one date. *)
Definition day_prices (hourly : list PriceRow) (d : Z) : list Q :=
  map price
    (sort (fun a b => (price_hour a <=? price_hour b)%Z)
       (List.filter (fun r => (price_date r =? d)%Z) hourly)).

Fixpoint revenues_loop (hourly : list PriceRow) (days : list Z)
    (capacity_mwh : Q) : Error + list Q :=
  match days with
  | [] => inr []
  | d :: rest =>
      match day_revenue (day_prices hourly d) capacity_mwh with
      | inl e => inl e
      | inr r =>
          match revenues_loop hourly rest capacity_mwh with
          | inl e => inl e
          | inr rs => inr (r :: rs)
          end
      end
  end.

(** The result: [(total_revenue_eur, avg_per_day_eur)]. *)
Definition task2_6_battery_revenue (df : list Quarter) (capacity_mwh : Q)
  : Error + (Q * Q) :=
  let hourly := hourly_prices df in
  match revenues_loop hourly (date_keys (map price_date hourly))
          capacity_mwh with
  | inl e => inl e
  | inr revenues =>
      let total := sum revenues in
      match revenues with
      | [] => inl ZeroDivisionError
      | _ => inr (total, total / inject_Z (Z.of_nat (length revenues)))
      end
  end.

(** *** [_prepare_hourly] and [run_strategy] *)

Record Hourly := mkHourly {
  h_date : Z;
  h_hour : Z;
  wind_delta : Q;
  pv_delta : Q;
  res_delta : Q;
  price_diff : Q
}.


(** [lambda x: -1 if x > threshold else (1 if x < -threshold else 0)] *)
Definition position_of (threshold x : Q) : Z :=
  if Qlt_le_dec threshold x then (-1)%Z
  else if Qlt_le_dec x (- threshold) then 1%Z else 0%Z.

Section Strategy.
Variables (position_mw threshold wind_weight pv_weight : Q).

Definition signal (h : Hourly) : Q :=
  wind_weight * wind_delta h + pv_weight * pv_delta h.

Definition position (h : Hourly) : Z := position_of threshold (signal h).

(** [hourly["pnl"]] *)
Definition pnl (h : Hourly) : Q :=
  inject_Z (position h) * price_diff h * position_mw.

(** [hourly.groupby("date")["pnl"].sum()], as (date, sum) pairs. *)
Definition daily_pnl (hourly : list Hourly) : list (Z * Q) :=
  map (fun d =>
         (d, sum (map pnl (List.filter (fun h => (h_date h =? d)%Z) hourly))))
      (date_keys (map h_date hourly)).


End Strategy.

Definition sample_quarters : list Quarter :=
  [ mkQuarter 0 0 10 12 0 0 50 55;
    mkQuarter 0 1 10 9 0 0 30 28;
    mkQuarter 0 2 10 10 0 0 70 71;
    mkQuarter 1 0 10 8 5 6 40 45 ].

End Task2.

(** ** Sample data: [generate_sample_trades] of generate_sample_data.py *)

Module Sample.
Import Store.
Local Open Scope Z_scope.

(** The outcomes of the calls to [random] made for one trade. *)
Record Draw := mkDraw {
  hour_draw : Z;           (* random.randint(0, 23) *)
  peak_draw : option Z;    (* random.choice([7, 8, 9, 17, 18, 19]) when
                              random.random() < 0.3 *)
  side_draw : string;      (* random.choices(['buy', 'sell'], ...)[0] *)
  quantity_draw : Q;       (* round(random.uniform(10, 200), 2) *)
  price_draw : Q;          (* round(random.uniform(lo, hi), 2), the
                              bounds chosen by the hour *)
  strategy_draw : string;  (* random.choice(strategies) *)
  hours_draw : Z;          (* random.randint(0, 23) *)
  minutes_draw : Z;        (* random.randint(0, 59) *)
  seconds_draw : Z         (* random.randint(0, 59) *)
}.

Definition delivery_hour_of (d : Draw) : Z :=
  match peak_draw d with
  | Some c => c
  | None => hour_draw d
  end.

(** [datetime.combine(delivery_day - timedelta(days=1),
    datetime.min.time()) + timedelta(hours=.., minutes=.., seconds=..)] *)
Definition trade_time (delivery_day : Z) (d : Draw) : Api.DateTime :=
  Api.mkDateTime
    ((delivery_day - 1) * 86400
     + (hours_draw d * 3600 + minutes_draw d * 60 + seconds_draw d))
    0.

(** The row inserted for one trade. *)
Definition sample_trade (delivery_day : Z) (trader : string) (d : Draw)
  : Trade :=
  {| trade_id := (trader ++ "_"
                  ++ Api.strftime (trade_time delivery_day d))%string;
     trader_id := trader;
     delivery_day := Clock.date_isoformat delivery_day;
     delivery_hour := delivery_hour_of d;
     quantity := quantity_draw d;
     price := price_draw d;
     side := side_draw d;
     strategy := strategy_draw d;
     timestamp := Api.isoformat (trade_time delivery_day d) |}.

(** The rows in the order of the three nested loops; [draws o trader]
    holds the draws of the trades of [trader] on the day at offset [o]
    (as many as [num_trades_today]). *)
Definition sample_rows (today : Z) (num_days : nat) (traders : list string)
    (draws : nat -> string -> list Draw) : list Trade :=
  flat_map
    (fun day_offset =>
       flat_map
         (fun trader =>
            map (sample_trade (today - Z.of_nat num_days
                               + Z.of_nat day_offset) trader)
                (draws day_offset trader))
         traders)
    (seq 0 num_days).

(** [generate_sample_trades]: the table is emptied and filled in one
    transaction; an exception of an INSERT leaves it uncommitted. *)
Definition generate_sample_trades (table : list Trade) (today : Z)
    (num_days : nat) (traders : list string)
    (draws : nat -> string -> list Draw)
  : option InsertError * list Trade :=
  match insert_rows [] (sample_rows today num_days traders draws) with
  | inl e => (Some e, table)
  | inr table' => (None, table')
  end.

(** The draws lie in the ranges of their calls. *)
Definition well_drawn (d : Draw) : Prop :=
  0 <= hour_draw d <= 23
  /\ (forall c, peak_draw d = Some c -> In c [7; 8; 9; 17; 18; 19])
  /\ (side_draw d = "buy"%string \/ side_draw d = "sell"%string)
  /\ 0 <= hours_draw d <= 23
  /\ 0 <= minutes_draw d <= 59
  /\ 0 <= seconds_draw d <= 59.

Definition all_well_drawn (draws : nat -> string -> list Draw) : Prop :=
  forall (o : nat) (trader : string) (d : Draw),
    In d (draws o trader) -> well_drawn d.

Definition sample_draw : Draw :=
  mkDraw 3 (Some 17) "sell" 120 95 "Arbitrage" 13 30 5.

Definition sample_draws (o : nat) (trader : string) : list Draw :=
  [sample_draw].

End Sample.

(** ** Hour-of-day statistics of [create_strategy_features] *)

Module Features.
Local Open Scope Q_scope.

(** The columns of the frame of [load_and_prepare_data] that the
    hour-of-day means read; every cell holds a number. The rows are in
    frame order, which is the order of time. *)
Record Raw := mkRaw {
  hour : Z;
  da_price : Q;
  id_price_h : Q
}.

(** [df['spread'] = df['id_price_h'] - df['da_price']] *)
Definition spread (r : Raw) : Q := id_price_h r - da_price r.

(** One mean of [df_ml.groupby('hour').agg(...)], for the group of [h]. *)
Definition hour_mean (col : Raw -> Q) (df_ml : list Raw) (h : Z) : Q :=
  Task2.mean (map col (List.filter (fun r => (hour r =? h)%Z) df_ml)).

(** The three mean columns that the merge adds to a row. *)
Record HourStats := mkHourStats {
  da_price_hour_mean : Q;
  id_price_hour_mean : Q;
  spread_hour_mean : Q
}.

(** [df_ml.merge(hourly_stats, on='hour', how='left')]: every row of the
    frame, in order, with the statistics of its hour. *)
Definition merge_hourly_stats (df_ml : list Raw) : list (Raw * HourStats) :=
  map (fun r =>
         (r, {| da_price_hour_mean := hour_mean da_price df_ml (hour r);
                id_price_hour_mean := hour_mean id_price_h df_ml (hour r);
                spread_hour_mean := hour_mean spread df_ml (hour r) |}))
      df_ml.

(** The row [r] with its day-ahead price raised by [delta]. *)
Definition bump (r : Raw) (delta : Q) : Raw :=
  {| hour := hour r; da_price := da_price r + delta;
     id_price_h := id_price_h r |}.

End Features.

(** * Properties *)

(** ** Signal thresholds *)

Section SignalFacts.
Import Binary64 Frame Forecast Props.
Local Open Scope Q_scope.

(** The two thresholds as numpy compares them: 0.550000011920929 and
    0.449999988079071. *)
Lemma float32_long : float32 0.55 = 9227469 # 16777216.
Proof. vm_compute. reflexivity. Qed.

Lemma float32_short : float32 0.45 = 7549747 # 16777216.
Proof. vm_compute. reflexivity. Qed.

Lemma signal_of_long (p : Q) : signal_of p = 1%Z <-> float32 0.55 < p.
Proof.
  unfold signal_of. rewrite float32_long, float32_short.
  destruct (Qlt_le_dec (9227469 # 16777216) p) as [Hhi|Hhi];
    destruct (Qlt_le_dec p (7549747 # 16777216)) as [Hlo|Hlo];
    split; intros H; try discriminate; try reflexivity;
    try lra; exfalso; lra.
Qed.

Lemma signal_of_short (p : Q) : signal_of p = (-1)%Z <-> p < float32 0.45.
Proof.
  unfold signal_of. rewrite float32_long, float32_short.
  destruct (Qlt_le_dec (9227469 # 16777216) p) as [Hhi|Hhi];
    destruct (Qlt_le_dec p (7549747 # 16777216)) as [Hlo|Hlo];
    split; intros H; try discriminate; try reflexivity;
    try lra; exfalso; lra.
Qed.

Lemma signal_of_flat (p : Q) :
  signal_of p = 0%Z <-> float32 0.45 <= p <= float32 0.55.
Proof.
  unfold signal_of. rewrite float32_long, float32_short.
  destruct (Qlt_le_dec (9227469 # 16777216) p) as [Hhi|Hhi];
    destruct (Qlt_le_dec p (7549747 # 16777216)) as [Hlo|Hlo];
    split; intros H; try discriminate; try reflexivity;
    try lra; exfalso; lra.
Qed.

Lemma signal_of_range (p : Q) :
  signal_of p = 1%Z \/ signal_of p = (-1)%Z \/ signal_of p = 0%Z.
Proof.
  unfold signal_of.
  destruct (Qlt_le_dec (float32 0.55) p);
    destruct (Qlt_le_dec p (float32 0.45)); auto.
Qed.

(** C4 (amended).  A scored row keeps its feature row and carries the
    class-1 probability that [predict_proba] gives for it, and its
    direction is fixed by that probability against the float32 thresholds:
    long (1) exactly when it is above float32(0.55) = 9227469 / 2^24, short
    (-1) exactly when it is below float32(0.45) = 7549747 / 2^24, flat (0)
    exactly in between, both bounds included.  Hence long needs a
    probability above 0.55 and short one below 0.45, and every probability
    from 0.45 to 0.55 is flat.  The float32 values of 0.56, 0.44, 0.50, 0.55
    and 0.45 are long, short, flat, flat and flat. *)
Theorem signal_trichotomy :
  forall (Model : Type) (predict_proba : Model -> list Q -> Q)
         (model : Model) (r : Row),
    let p := predict_proba model (feature_columns r) in
    let s := score Model predict_proba model r in
    row s = r
    /\ prob s = p
    /\ (signal s = 1%Z <-> float32 0.55 < p)
    /\ (signal s = (-1)%Z <-> p < float32 0.45)
    /\ (signal s = 0%Z <-> float32 0.45 <= p <= float32 0.55)
    /\ float32 0.55 = 9227469 # 16777216
    /\ float32 0.45 = 7549747 # 16777216
    /\ (signal s = 1%Z -> 0.55 < p)
    /\ (signal s = (-1)%Z -> p < 0.45)
    /\ (0.45 <= p <= 0.55 -> signal s = 0%Z)
    /\ signal_of (float32 0.56) = 1%Z
    /\ signal_of (float32 0.44) = (-1)%Z
    /\ signal_of (float32 0.50) = 0%Z
    /\ signal_of (float32 0.55) = 0%Z
    /\ signal_of (float32 0.45) = 0%Z.
Proof.
  intros Model predict_proba model r p s. subst s.
  cbn [score signal prob row]. fold p.
  split; [reflexivity|]. split; [reflexivity|].
  split; [apply signal_of_long|].
  split; [apply signal_of_short|].
  split; [apply signal_of_flat|].
  split; [exact float32_long|]. split; [exact float32_short|].
  split; [|split; [|split]].
  - intros H. apply signal_of_long in H. rewrite float32_long in H. lra.
  - intros H. apply signal_of_short in H. rewrite float32_short in H. lra.
  - intros H. apply signal_of_flat.
    rewrite float32_long, float32_short. lra.
  - repeat split; vm_compute; reflexivity.
Qed.

(** The float32 nearest to 0.55 is a probability above 0.55 whose row is
    flat. *)
Lemma long_above_decimal_fails :
  round32 (prob (score unit edge_proba tt row_30))
  = Finite (prob (score unit edge_proba tt row_30))
  /\ 0.55 < prob (score unit edge_proba tt row_30)
  /\ signal (score unit edge_proba tt row_30) = 0%Z.
Proof.
  split; [vm_compute; reflexivity|].
  split; [vm_compute; reflexivity|vm_compute; reflexivity].
Qed.

End SignalFacts.

(** ** Signal conversion: pairing and timing *)

Section ConverterFacts.
Import Frame Store Convert Props.

Lemma convert_to_trades_app (a b : list (Z * Scored)) (name : string) :
  convert_to_trades (a ++ b) name
  = convert_to_trades a name ++ convert_to_trades b name.
Proof.
  unfold convert_to_trades, df_trades.
  now rewrite List.filter_app, List.flat_map_app.
Qed.

Lemma convert_to_trades_one (idx : Z) (r : Scored) (name : string) :
  convert_to_trades [(idx, r)] name = convert_row name idx r.
Proof.
  unfold convert_to_trades, df_trades, convert_row. cbn.
  destruct (signal r =? 0)%Z eqn:E0; cbn.
  - apply Z.eqb_eq in E0. rewrite E0. reflexivity.
  - now rewrite app_nil_r.
Qed.

Lemma convert_to_trades_cons (ir : Z * Scored) (df : list (Z * Scored))
    (name : string) :
  convert_to_trades (ir :: df) name
  = convert_row name (fst ir) (snd ir) ++ convert_to_trades df name.
Proof.
  change (ir :: df) with ([ir] ++ df). rewrite convert_to_trades_app.
  destruct ir as [idx r]. now rewrite convert_to_trades_one.
Qed.

Lemma convert_row_length (name : string) (idx : Z) (r : Scored) :
  length (convert_row name idx r)
  = if ((signal r =? 1)%Z || (signal r =? -1)%Z)%bool then 2%nat else 0%nat.
Proof.
  unfold convert_row.
  destruct (signal r =? 1)%Z; [reflexivity|].
  destruct (signal r =? -1)%Z; reflexivity.
Qed.

Lemma convert_to_trades_length (df : list (Z * Scored)) (name : string) :
  length (convert_to_trades df name) = (2 * count_positions df)%nat.
Proof.
  induction df as [|ir df IH]; [reflexivity|].
  rewrite convert_to_trades_cons, List.length_app, IH, convert_row_length.
  unfold count_positions. cbn [List.filter].
  destruct ((signal (snd ir) =? 1)%Z || (signal (snd ir) =? -1)%Z)%bool;
    cbn [length]; lia.
Qed.

Lemma convert_to_trades_middle (before after : list (Z * Scored)) (idx : Z)
    (r : Scored) (name : string) :
  convert_to_trades (before ++ (idx, r) :: after) name
  = convert_to_trades before name
      ++ convert_row name idx r ++ convert_to_trades after name.
Proof. now rewrite convert_to_trades_app, convert_to_trades_cons. Qed.

Lemma convert_row_long (name : string) (idx : Z) (r : Scored) :
  signal r = 1%Z -> pair_of name r "buy" "sell" (convert_row name idx r).
Proof.
  intros H. unfold convert_row. rewrite H. cbn [Z.eqb Pos.eqb].
  eexists _, _. split; [reflexivity|]. cbn. unfold leg_of. cbn. tauto.
Qed.

Lemma convert_row_short (name : string) (idx : Z) (r : Scored) :
  signal r = (-1)%Z -> pair_of name r "sell" "buy" (convert_row name idx r).
Proof.
  intros H. unfold convert_row. rewrite H. cbn [Z.eqb Pos.eqb].
  eexists _, _. split; [reflexivity|]. cbn. unfold leg_of. cbn. tauto.
Qed.

Lemma convert_row_timing (name : string) (idx : Z) (r : Scored) :
  signal r = 1%Z \/ signal r = (-1)%Z ->
  timing_offset r (convert_row name idx r).
Proof.
  intros H. unfold convert_row, timing_offset, decision_instant.
  destruct H as [H|H]; rewrite H; cbn [Z.eqb Pos.eqb];
    eexists _, _; (split; [reflexivity|]); cbn; split; reflexivity.
Qed.

(** C2.  In any frame of signal rows the trades of the frame are, in row
    order, the trades of the rows before a row, the row's own trades and
    the trades of the rows after it.  The own trades of a long row are a
    day-ahead buy at [da_price] and an intraday sell at [id_price_h], those
    of a short row a day-ahead sell and an intraday buy; both legs carry
    the row's delivery day and hour, the strategy label and the position
    size.  A flat row has no trades of its own, and the frame yields two
    trades per long or short row. *)
Theorem trade_pairing :
  forall (name : string) (before after : list (Z * Scored)) (idx : Z)
         (r : Scored),
    exists legs : list Trade,
      convert_to_trades (before ++ (idx, r) :: after) name
      = convert_to_trades before name
          ++ legs ++ convert_to_trades after name
      /\ (signal r = 1%Z -> pair_of name r "buy" "sell" legs)
      /\ (signal r = (-1)%Z -> pair_of name r "sell" "buy" legs)
      /\ (signal r = 0%Z -> legs = [])
      /\ length (convert_to_trades (before ++ (idx, r) :: after) name)
         = (2 * count_positions (before ++ (idx, r) :: after))%nat.
Proof.
  intros name before after idx r. exists (convert_row name idx r).
  split; [apply convert_to_trades_middle|].
  split; [apply convert_row_long|]. split; [apply convert_row_short|].
  split; [|apply convert_to_trades_length].
  intros H. unfold convert_row. rewrite H. reflexivity.
Qed.

Lemma trade_pairing_witness :
  exists legs : list Trade,
    convert_to_trades sample_frame "ML_Daily_XGBoost"
    = legs ++ convert_to_trades [(1%Z, sample_flat); (2%Z, sample_short)]
                "ML_Daily_XGBoost"
    /\ pair_of "ML_Daily_XGBoost" sample_long "buy" "sell" legs.
Proof.
  destruct (trade_pairing "ML_Daily_XGBoost" []
              [(1%Z, sample_flat); (2%Z, sample_short)] 0%Z sample_long)
    as (legs & Hl & Hlong & _).
  exists legs. split; [exact Hl|]. apply Hlong. reflexivity.
Defined.

(** The two legs are not both stamped one day before the observation: the
    intraday leg of the long sample is stamped 2021-06-14T15:15:00, two
    hours after the decision instant. *)
Lemma timing_both_day_before_fails :
  ~ timing_both_day_before sample_long
      (convert_to_trades [(7%Z, sample_long)] "ML_Daily_XGBoost").
Proof.
  intros (da & id & Hl & _ & Hid & _).
  vm_compute in Hl. injection Hl as <- <-.
  vm_compute in Hid. discriminate Hid.
Qed.

(** C3 (amended).  In any frame of signal rows the own trades of a long
    or short row, which stand between the trades of the rows before it and
    those of the rows after it, are stamped as follows: the day-ahead leg
    exactly one day before the observation and the intraday leg exactly two
    hours after the day-ahead leg, that is 22 hours before the
    observation. *)
Theorem timing_invariant :
  forall (name : string) (before after : list (Z * Scored)) (idx : Z)
         (r : Scored),
    signal r = 1%Z \/ signal r = (-1)%Z ->
    exists legs : list Trade,
      convert_to_trades (before ++ (idx, r) :: after) name
      = convert_to_trades before name
          ++ legs ++ convert_to_trades after name
      /\ timing_offset r legs
      /\ (decision_instant r = Frame.timestamp (row r) - 86400)%Z
      /\ (decision_instant r + Clock.timedelta 0 2
          = Frame.timestamp (row r) - 79200)%Z.
Proof.
  intros name before after idx r H. exists (convert_row name idx r).
  split; [apply convert_to_trades_middle|].
  split; [now apply convert_row_timing|].
  unfold decision_instant, Clock.timedelta. lia.
Qed.

Lemma timing_invariant_witness :
  exists legs : list Trade,
    convert_to_trades sample_frame "ML_Daily_XGBoost"
    = convert_to_trades [(0%Z, sample_long); (1%Z, sample_flat)]
        "ML_Daily_XGBoost" ++ legs
    /\ timing_offset sample_short legs.
Proof.
  destruct (timing_invariant "ML_Daily_XGBoost"
              [(0%Z, sample_long); (1%Z, sample_flat)] [] 2%Z sample_short
              (or_intror eq_refl))
    as (legs & Hl & Ht & _).
  exists legs. split; [|exact Ht].
  change sample_frame
    with ([(0%Z, sample_long); (1%Z, sample_flat)] ++ [(2%Z, sample_short)]).
  rewrite Hl. f_equal. apply List.app_nil_r.
Defined.

End ConverterFacts.

(** ** Strings: characters, substrings, identifiers *)

Section StringFacts.
Import Props.
Local Open Scope string_scope.

Lemma app_cons (c : ascii) (a b : string) :
  String c a ++ b = String c (a ++ b).
Proof. reflexivity. Qed.

Lemma app_empty (b : string) : "" ++ b = b.
Proof. reflexivity. Qed.

Lemma string_length_app (a b : string) :
  String.length (a ++ b) = (String.length a + String.length b)%nat.
Proof.
  induction a as [|c a IH]; [reflexivity|].
  rewrite app_cons. cbn. now rewrite IH.
Qed.

Lemma occurs_app (c : ascii) (a b : string) :
  occurs c (a ++ b) = occurs c a || occurs c b.
Proof.
  induction a as [|x a IH]; [reflexivity|].
  rewrite app_cons. cbn. now rewrite IH, orb_assoc.
Qed.

Lemma prefix_empty (s : string) : String.prefix "" s = true.
Proof. destruct s; reflexivity. Qed.

Lemma prefix_app (p s : string) : String.prefix p (p ++ s) = true.
Proof.
  induction p as [|c p IH]; [apply prefix_empty|].
  rewrite app_cons. cbn.
  destruct (ascii_dec c c) as [_|Hne]; [exact IH|contradiction].
Qed.

Lemma prefix_occurs (c : ascii) (p s : string) :
  String.prefix p s = true -> occurs c p = true -> occurs c s = true.
Proof.
  revert s. induction p as [|x p IH]; intros s Hp Hc; [discriminate Hc|].
  destruct s as [|y s]; [discriminate Hp|]. cbn in Hp, Hc |- *.
  destruct (ascii_dec x y) as [->|_]; [|discriminate Hp].
  apply orb_true_iff in Hc as [Hc|Hc]; apply orb_true_iff; auto.
Qed.

Lemma contains_eq (p s : string) :
  Report.contains p s
  = if String.prefix p s then true
    else match s with
         | EmptyString => false
         | String _ rest => Report.contains p rest
         end.
Proof. destruct s; reflexivity. Qed.

Lemma contains_occurs (c : ascii) (p s : string) :
  Report.contains p s = true -> occurs c p = true -> occurs c s = true.
Proof.
  intros Hp Hc. induction s as [|y s IH]; rewrite contains_eq in Hp.
  - destruct (String.prefix p "") eqn:E; [|discriminate Hp].
    now apply (prefix_occurs c p "").
  - destruct (String.prefix p (String y s)) eqn:E.
    + now apply (prefix_occurs c p).
    + cbn. rewrite (IH Hp). apply orb_true_r.
Qed.

Lemma contains_absent (c : ascii) (p s : string) :
  occurs c p = true -> occurs c s = false -> Report.contains p s = false.
Proof.
  intros Hc Hs. destruct (Report.contains p s) eqn:E; [|reflexivity].
  rewrite (contains_occurs c p s E Hc) in Hs. discriminate Hs.
Qed.

Lemma contains_here (p s : string) : Report.contains p (p ++ s) = true.
Proof. rewrite contains_eq. now rewrite prefix_app. Qed.

Lemma contains_skip (p a s : string) :
  Report.contains p s = true -> Report.contains p (a ++ s) = true.
Proof.
  intros H. induction a as [|x a IH]; [exact H|].
  rewrite app_cons, contains_eq, IH.
  now destruct (String.prefix p (String x (a ++ s))).
Qed.

Lemma app_inj_length (a a' b b' : string) :
  String.length a = String.length a' ->
  a ++ b = a' ++ b' -> a = a' /\ b = b'.
Proof.
  revert a'. induction a as [|x a IH]; intros [|x' a'] Hl He;
    try discriminate Hl.
  - now split.
  - rewrite !app_cons in He. cbn in Hl. injection Hl as Hl.
    injection He as -> He.
    destruct (IH a' Hl He) as [-> ->]. now split.
Qed.

Lemma split_at_char (c : ascii) (a a' b b' : string) :
  occurs c a = false -> occurs c a' = false ->
  a ++ String c b = a' ++ String c b' -> a = a' /\ b = b'.
Proof.
  revert a'. induction a as [|x a IH]; intros [|x' a'] Ha Ha' He;
    rewrite ?app_cons, ?app_empty in He; cbn in Ha, Ha'.
  - injection He as ->. now split.
  - injection He as -> _. rewrite Ascii.eqb_refl in Ha'. discriminate Ha'.
  - injection He as -> _. rewrite Ascii.eqb_refl in Ha. discriminate Ha.
  - injection He as -> He.
    apply orb_false_iff in Ha as [_ Ha]. apply orb_false_iff in Ha' as [_ Ha'].
    destruct (IH a' Ha Ha' He) as [-> ->]. now split.
Qed.

Lemma digit_numeric (n : Z) : numeric_char (Clock.digit n) = true.
Proof.
  unfold Clock.digit. destruct (n mod 10)%Z as [|p|p]; try reflexivity.
  repeat (destruct p as [p|p|]; try reflexivity).
Qed.

Lemma numeric_char_eqb (c d : ascii) :
  numeric_char c = false -> numeric_char d = true -> Ascii.eqb c d = false.
Proof.
  intros Hc Hd. destruct (Ascii.eqb c d) eqn:E; [|reflexivity].
  apply Ascii.eqb_eq in E. subst d. congruence.
Qed.

Lemma occurs_pad2 (c : ascii) (n : Z) :
  numeric_char c = false -> occurs c (Clock.pad2 n) = false.
Proof.
  intros Hc. unfold Clock.pad2. cbn.
  now rewrite !(numeric_char_eqb c _ Hc (digit_numeric _)).
Qed.

Lemma occurs_pad4 (c : ascii) (n : Z) :
  numeric_char c = false -> occurs c (Clock.pad4 n) = false.
Proof.
  intros Hc. unfold Clock.pad4. cbn [occurs].
  rewrite !(numeric_char_eqb c _ Hc (digit_numeric _)).
  now rewrite occurs_pad2.
Qed.

Lemma occurs_strftime (c : ascii) (ts : Z) :
  numeric_char c = false -> Ascii.eqb c "_" = false ->
  occurs c (Clock.strftime ts) = false.
Proof.
  intros Hc Hu. unfold Clock.strftime.
  destruct (Clock.civil_from_days (Clock.date_of ts)) as [[y m] d].
  rewrite !occurs_app, occurs_pad4, !occurs_pad2 by assumption.
  cbn. now rewrite Hu.
Qed.

Lemma length_strftime (ts : Z) : String.length (Clock.strftime ts) = 15%nat.
Proof.
  unfold Clock.strftime.
  destruct (Clock.civil_from_days (Clock.date_of ts)) as [[y m] d].
  reflexivity.
Qed.

Lemma occurs_uint (c : ascii) (d : Decimal.uint) :
  numeric_char c = false -> occurs c (NilEmpty.string_of_uint d) = false.
Proof.
  intros Hc. induction d; cbn [NilEmpty.string_of_uint occurs];
    rewrite ?IHd; try reflexivity;
    match goal with
    | |- context [Ascii.eqb c ?d] =>
        now rewrite (numeric_char_eqb c d Hc eq_refl)
    end.
Qed.

Lemma occurs_str (c : ascii) (idx : Z) :
  numeric_char c = false -> occurs c (Convert.str idx) = false.
Proof.
  intros Hc. unfold Convert.str, NilZero.string_of_int, NilZero.string_of_uint.
  pose proof (numeric_char_eqb c "0" Hc eq_refl) as H0.
  pose proof (numeric_char_eqb c "-" Hc eq_refl) as Hm.
  destruct (Z.to_int idx) as [d|d]; destruct d; cbn [occurs];
    rewrite ?H0, ?Hm; try reflexivity; cbn [orb];
    now apply (occurs_uint c).
Qed.

Lemma to_int_proper (z : Z) :
  Z.to_int z <> Decimal.Pos Decimal.Nil /\ Z.to_int z <> Decimal.Neg Decimal.Nil.
Proof.
  destruct z as [|p|p]; cbn; split; try discriminate;
    intros [= H]; now apply (Unsigned.to_uint_nonnil p).
Qed.

Lemma str_inj (a b : Z) : Convert.str a = Convert.str b -> a = b.
Proof.
  unfold Convert.str. intros H.
  apply (f_equal NilZero.int_of_string) in H.
  destruct (to_int_proper a) as [Ha1 Ha2], (to_int_proper b) as [Hb1 Hb2].
  rewrite !NilZero.isi in H by assumption.
  injection H as H. now apply DecimalZ.to_int_inj.
Qed.

(** An identifier determines its leg prefix and its row label. *)
Lemma make_id_inj (leg leg' suffix suffix' : string) (ts ts' idx idx' : Z) :
  String.length leg = String.length leg' ->
  make_id leg (Clock.strftime ts) (Convert.str idx) (String "_" suffix)
  = make_id leg' (Clock.strftime ts') (Convert.str idx') (String "_" suffix') ->
  leg = leg' /\ idx = idx'.
Proof.
  unfold make_id. intros Hl H.
  apply app_inj_length in H as [Hleg H]; [|exact Hl].
  apply app_inj_length in H as [_ H];
    [|now rewrite !length_strftime].
  rewrite !app_cons, !app_empty in H. injection H as H.
  apply split_at_char in H as [H _];
    try (apply occurs_str; reflexivity).
  split; [exact Hleg|now apply str_inj].
Qed.

End StringFacts.

(** ** Leg markers and identifiers of the converter's trades *)

Section IdentifierFacts.
Import Frame Store Convert Props.
Local Open Scope string_scope.

Lemma markers_da (ts idx : Z) (suffix : string) :
  occurs "I" suffix = false ->
  Report.contains "_DA_"
    (make_id "ML_DA_" (Clock.strftime ts) (str idx) suffix) = true
  /\ Report.contains "_ID_"
    (make_id "ML_DA_" (Clock.strftime ts) (str idx) suffix) = false.
Proof.
  intros Hs. unfold make_id. split.
  - change ("ML_DA_" ++ ?x) with ("ML" ++ "_DA_" ++ x).
    apply contains_skip, contains_here.
  - apply (contains_absent "I"); [reflexivity|].
    rewrite !occurs_app, occurs_strftime, occurs_str, Hs by reflexivity.
    reflexivity.
Qed.

Lemma markers_id (ts idx : Z) (suffix : string) :
  occurs "A" suffix = false ->
  Report.contains "_DA_"
    (make_id "ML_ID_" (Clock.strftime ts) (str idx) suffix) = false
  /\ Report.contains "_ID_"
    (make_id "ML_ID_" (Clock.strftime ts) (str idx) suffix) = true.
Proof.
  intros Hs. unfold make_id. split.
  - apply (contains_absent "A"); [reflexivity|].
    rewrite !occurs_app, occurs_strftime, occurs_str, Hs by reflexivity.
    reflexivity.
  - change ("ML_ID_" ++ ?x) with ("ML" ++ "_ID_" ++ x).
    apply contains_skip, contains_here.
Qed.

Lemma booked_by_markers (t : Trade) :
  (side t = "buy" \/ side t = "sell") ->
  (markers t = (true, false) ->
     booked_in (if String.eqb (side t) "buy" then BuyDA else SellDA) t)
  /\ (markers t = (false, true) ->
     booked_in (if String.eqb (side t) "buy" then BuyIDA else SellIDA) t).
Proof.
  intros Hs. unfold markers, booked_in, Report.update_hour.
  split; intros [= Hda Hid] hd; rewrite Hda, ?Hid;
    destruct Hs as [-> | ->]; cbn; (split; [reflexivity|]);
    intros [] Hb; try reflexivity; contradiction.
Qed.

Lemma markers_of_da (t : Trade) (ts idx : Z) (suffix : string) :
  trade_id t = make_id "ML_DA_" (Clock.strftime ts) (str idx) suffix ->
  occurs "I" suffix = false -> markers t = (true, false).
Proof.
  intros Ht Hs. unfold markers. rewrite Ht.
  now destruct (markers_da ts idx suffix Hs) as [-> ->].
Qed.

Lemma markers_of_id (t : Trade) (ts idx : Z) (suffix : string) :
  trade_id t = make_id "ML_ID_" (Clock.strftime ts) (str idx) suffix ->
  occurs "A" suffix = false -> markers t = (false, true).
Proof.
  intros Ht Hs. unfold markers. rewrite Ht.
  now destruct (markers_id ts idx suffix Hs) as [-> ->].
Qed.

(** The two trades of a long or short row: the day-ahead leg first, told
    apart by the markers, each booked in the column of its side and
    market. *)
Lemma convert_row_legs (name : string) (idx : Z) (r : Scored) :
  signal r = 1%Z \/ signal r = (-1)%Z ->
  exists da id : Trade,
    convert_row name idx r = [da; id]
    /\ markers da = (true, false)
    /\ markers id = (false, true)
    /\ booked_in (if String.eqb (side da) "buy" then BuyDA else SellDA) da
    /\ booked_in (if String.eqb (side id) "buy" then BuyIDA else SellIDA) id
    /\ ~ (quantity da == 0)%Q /\ ~ (quantity id == 0)%Q.
Proof.
  intros H. unfold convert_row.
  destruct H as [H|H]; rewrite H; cbn [Z.eqb Pos.eqb];
    eexists _, _; (split; [reflexivity|]).
  - match goal with
    | |- markers ?da = _ /\ markers ?id = _ /\ _ =>
        assert (Hda : markers da = (true, false))
          by (exact (markers_of_da da _ idx "_BUY" eq_refl eq_refl));
        assert (Hid : markers id = (false, true))
          by (exact (markers_of_id id _ idx "_SELL" eq_refl eq_refl))
    end.
    split; [exact Hda|]. split; [exact Hid|].
    split; [apply booked_by_markers; [left; reflexivity|exact Hda]|].
    split; [apply booked_by_markers; [right; reflexivity|exact Hid]|].
    split; discriminate.
  - match goal with
    | |- markers ?da = _ /\ markers ?id = _ /\ _ =>
        assert (Hda : markers da = (true, false))
          by (exact (markers_of_da da _ idx "_SELL" eq_refl eq_refl));
        assert (Hid : markers id = (false, true))
          by (exact (markers_of_id id _ idx "_BUY" eq_refl eq_refl))
    end.
    split; [exact Hda|]. split; [exact Hid|].
    split; [apply booked_by_markers; [right; reflexivity|exact Hda]|].
    split; [apply booked_by_markers; [left; reflexivity|exact Hid]|].
    split; discriminate.
Qed.

(** Every trade of the converter carries exactly one marker and a side. *)
Lemma convert_row_shape (name : string) (idx : Z) (r : Scored) (t : Trade) :
  In t (convert_row name idx r) ->
  (markers t = (true, false) \/ markers t = (false, true))
  /\ (side t = "buy" \/ side t = "sell").
Proof.
  intros Ht.
  destruct (Z.eq_dec (signal r) 1%Z) as [H1|H1];
    [|destruct (Z.eq_dec (signal r) (-1)%Z) as [H2|H2]].
  - destruct (convert_row_legs name idx r (or_introl H1))
      as (da & id & Hl & Hda & Hid & _).
    unfold convert_row in Hl, Ht. rewrite H1 in Hl, Ht.
    cbn [Z.eqb Pos.eqb] in Hl, Ht. injection Hl as <- <-.
    destruct Ht as [<-|[<-|[]]]; cbn [side]; auto.
  - destruct (convert_row_legs name idx r (or_intror H2))
      as (da & id & Hl & Hda & Hid & _).
    unfold convert_row in Hl, Ht. rewrite H2 in Hl, Ht.
    cbn [Z.eqb Pos.eqb] in Hl, Ht. injection Hl as <- <-.
    destruct Ht as [<-|[<-|[]]]; cbn [side]; auto.
  - unfold convert_row in Ht.
    destruct (Z.eqb_spec (signal r) 1%Z); [contradiction|].
    destruct (Z.eqb_spec (signal r) (-1)%Z); [contradiction|].
    destruct Ht.
Qed.

End IdentifierFacts.

(** ** Uniqueness of the generated identifiers *)

Section UniquenessFacts.
Import Frame Store Convert Props.
Local Open Scope string_scope.

(** The identifier of a generated trade, read off the converter. *)
Lemma convert_row_id (name : string) (idx : Z) (r : Scored) (t : Trade) :
  In t (convert_row name idx r) ->
  exists leg suffix : string,
    (leg = "ML_DA_" \/ leg = "ML_ID_")
    /\ trade_id t
       = make_id leg (Clock.strftime (decision_instant r)) (str idx)
           (String "_" suffix).
Proof.
  unfold convert_row, decision_instant.
  destruct (signal r =? 1)%Z; [|destruct (signal r =? -1)%Z];
    cbn [In]; intros Ht; [| |contradiction];
    destruct Ht as [<-|[<-|[]]]; cbn [trade_id].
  - exists "ML_DA_", "BUY". auto.
  - exists "ML_ID_", "SELL". auto.
  - exists "ML_DA_", "SELL". auto.
  - exists "ML_ID_", "BUY". auto.
Qed.

Lemma convert_row_ids_differ (name name' : string) (idx idx' : Z)
    (r r' : Scored) (t t' : Trade) :
  In t (convert_row name idx r) -> In t' (convert_row name' idx' r') ->
  trade_id t = trade_id t' -> idx = idx'.
Proof.
  intros Ht Ht' He.
  destruct (convert_row_id _ _ _ _ Ht) as (leg & sfx & Hleg & Hid).
  destruct (convert_row_id _ _ _ _ Ht') as (leg' & sfx' & Hleg' & Hid').
  rewrite Hid, Hid' in He.
  apply make_id_inj in He; [tauto|].
  destruct Hleg as [-> | ->], Hleg' as [-> | ->]; reflexivity.
Qed.

Lemma convert_row_ids_nodup (name : string) (idx : Z) (r : Scored) :
  List.NoDup (map trade_id (convert_row name idx r)).
Proof.
  unfold convert_row.
  destruct (signal r =? 1)%Z; [|destruct (signal r =? -1)%Z];
    cbn [map trade_id]; repeat constructor; cbn [In];
    try tauto; intros [H|[]]; rewrite !app_cons in H; discriminate H.
Qed.

Lemma in_convert_to_trades (df : list (Z * Scored)) (name : string)
    (t : Trade) :
  In t (convert_to_trades df name) ->
  exists idx r, In (idx, r) df /\ In t (convert_row name idx r).
Proof.
  unfold convert_to_trades, df_trades. intros H.
  apply List.in_flat_map in H as ([idx r] & Hin & Ht).
  apply List.filter_In in Hin as [Hin _]. now exists idx, r.
Qed.

Lemma convert_to_trades_ids_nodup (df : list (Z * Scored)) (name : string) :
  List.NoDup (map fst df) ->
  List.NoDup (map trade_id (convert_to_trades df name)).
Proof.
  induction df as [|[idx r] df IH]; intros Hnd; [constructor|].
  cbn [map fst] in Hnd. apply List.NoDup_cons_iff in Hnd as [Hfresh Hnd].
  rewrite convert_to_trades_cons, List.map_app. cbn [fst snd].
  apply List.NoDup_app; [apply convert_row_ids_nodup|now apply IH|].
  intros id Hl Hr.
  apply List.in_map_iff in Hl as (t & <- & Ht).
  apply List.in_map_iff in Hr as (t' & He & Ht').
  apply in_convert_to_trades in Ht' as (idx' & r' & Hin & Ht').
  apply Hfresh.
  rewrite (convert_row_ids_differ _ _ _ _ _ _ _ _ Ht Ht' (eq_sym He)).
  apply List.in_map_iff. now exists (idx', r').
Qed.

Lemma has_key_false (table : list Trade) (id : string) :
  ~ In id (map trade_id table) -> has_key table id = false.
Proof.
  intros H. unfold has_key.
  destruct (existsb _ table) eqn:E; [|reflexivity].
  apply List.existsb_exists in E as (u & Hu & He).
  apply String.eqb_eq in He. exfalso. apply H.
  apply List.in_map_iff. now exists u.
Qed.

(** With distinct keys an insertion can only be refused by a CHECK
    clause; without such a refusal every row is stored. *)
Lemma insert_rows_distinct (trades table : list Trade) :
  List.NoDup (map trade_id (table ++ trades)%list) ->
  (forall id, insert_rows table trades <> inl (PrimaryKeyCollision id))
  /\ (forallb check_constraints trades = true ->
      insert_rows table trades = inr (table ++ trades)%list).
Proof.
  revert table. induction trades as [|t rest IH]; intros table Hnd.
  - cbn. split; [discriminate|]. now rewrite List.app_nil_r.
  - cbn [insert_rows forallb]. unfold insert_row.
    assert (Hkey : has_key table (trade_id t) = false).
    { apply has_key_false. rewrite List.map_app in Hnd. cbn [map] in Hnd.
      apply List.NoDup_remove_2 in Hnd. intros Hin. apply Hnd.
      apply List.in_or_app. now left. }
    assert (Hnd' : List.NoDup (map trade_id ((table ++ [t]) ++ rest)%list))
      by now rewrite <- List.app_assoc.
    destruct (IH _ Hnd') as [IH1 IH2].
    destruct (check_constraints t); cbn [negb andb].
    + rewrite Hkey. split; [exact IH1|].
      intros H. rewrite (IH2 H). now rewrite <- List.app_assoc.
    + split; discriminate.
Qed.

Lemma reset_index_labels {A} (start : nat) (l : list A) :
  map fst (reset_index_from start l)
  = map Z.of_nat (seq start (length l)).
Proof.
  unfold reset_index_from. revert start.
  induction l as [|x l IH]; intros start; [reflexivity|].
  cbn. now rewrite IH.
Qed.

Lemma reset_index_nodup {A} (l : list A) :
  List.NoDup (map fst (reset_index l)).
Proof.
  unfold reset_index. rewrite reset_index_labels.
  apply List.NoDup_map_NoDup_ForallPairs; [|apply List.seq_NoDup].
  intros a b _ _ H. lia.
Qed.

Lemma insert_trades_result (table trades table' : list Trade) :
  insert_rows table trades = inr table' ->
  insert_trades_to_db table trades
  = match table' with
    | [] => inl FormatTypeError
    | _ => inr (table', length table')
    end.
Proof.
  intros H. unfold insert_trades_to_db. rewrite H.
  now destruct table'.
Qed.

Lemma convert_to_trades_nil (df : list (Z * Scored)) (name : string) :
  convert_to_trades df name = [] <-> count_positions df = 0%nat.
Proof.
  pose proof (convert_to_trades_length df name) as Hl. split.
  - intros E. rewrite E in Hl. cbn in Hl. lia.
  - intros E. rewrite E in Hl.
    destruct (convert_to_trades df name); [reflexivity|discriminate Hl].
Qed.

(** C9.  Signal rows under pairwise distinct labels yield pairwise
    distinct trade identifiers, two per long or short row, and inserting
    them into the freshly initialised table never hits the primary-key
    collision; when the delivery hours lie in 0..23 all of them are stored
    and counted, unless there is none: then the statistics block raises
    [TypeError].  The labels set by [pd.concat(..., ignore_index=True)] are
    distinct. *)
Theorem trade_id_unique :
  forall (df : list (Z * Scored)) (name : string),
    List.NoDup (map fst df) ->
    List.NoDup (map trade_id (convert_to_trades df name))
    /\ length (convert_to_trades df name) = (2 * count_positions df)%nat
    /\ (forall id,
          insert_trades_to_db init_database (convert_to_trades df name)
          <> inl (PrimaryKeyCollision id))
    /\ (forallb check_constraints (convert_to_trades df name) = true ->
        (0 < count_positions df)%nat ->
        insert_trades_to_db init_database (convert_to_trades df name)
        = inr (convert_to_trades df name, (2 * count_positions df)%nat))
    /\ (forallb check_constraints (convert_to_trades df name) = true ->
        count_positions df = 0%nat ->
        insert_trades_to_db init_database (convert_to_trades df name)
        = inl FormatTypeError)
    /\ (forall rows : list Scored, List.NoDup (map fst (reset_index rows))).
Proof.
  intros df name Hnd.
  pose proof (convert_to_trades_ids_nodup df name Hnd) as Hids.
  destruct (insert_rows_distinct (convert_to_trades df name) init_database)
    as [Hpk Hok]; [exact Hids|].
  split; [exact Hids|]. split; [apply convert_to_trades_length|].
  split; [|split; [|split]].
  - intros id. specialize (Hpk id). unfold insert_trades_to_db.
    destruct (insert_rows init_database (convert_to_trades df name))
      as [e|table'] eqn:E; [congruence|].
    destruct (statistics table'); discriminate.
  - intros H Hpos. rewrite (insert_trades_result _ _ _ (Hok H)).
    cbn [init_database List.app].
    destruct (convert_to_trades df name) as [|t rest] eqn:E.
    + apply convert_to_trades_nil in E. lia.
    + now rewrite <- E, convert_to_trades_length.
  - intros H Hzero. rewrite (insert_trades_result _ _ _ (Hok H)).
    cbn [init_database List.app].
    apply (convert_to_trades_nil df name) in Hzero. now rewrite Hzero.
  - intros rows. apply reset_index_nodup.
Qed.

Lemma trade_id_unique_witness :
  List.NoDup (map trade_id (convert_to_trades sample_frame "ML_Daily_XGBoost"))
  /\ length (convert_to_trades sample_frame "ML_Daily_XGBoost") = 4%nat.
Proof.
  assert (Hnd : List.NoDup (map fst sample_frame)).
  { cbn. repeat constructor; cbn; intuition discriminate. }
  destruct (trade_id_unique sample_frame "ML_Daily_XGBoost" Hnd)
    as (H1 & H2 & _).
  split; [exact H1|exact H2].
Defined.

End UniquenessFacts.

(** ** Recency weights *)

Section WeightFacts.
Import Binary64 Forecast Props.
Local Open Scope R_scope.


























End WeightFacts.

(** ** Maximum drawdown *)

Section DrawdownFacts.
Import Analysis.
Local Open Scope Q_scope.

Lemma series_sub_scans (s p : Q) (l : list Q) :
  series_sub (scan Qplus s l) (scan Qmax p (scan Qplus s l))
  = drawdowns_from s p l.
Proof.
  revert s p. induction l as [|x rest IH]; intros s p; [reflexivity|].
  cbn. unfold series_sub in IH. now rewrite IH.
Qed.

Lemma max_drawdown_cons (x : Q) (rest : list Q) :
  max_drawdown (x :: rest)
  = Some (fold_left Qmin (drawdowns_from x x rest) (x - x)).
Proof.
  unfold max_drawdown. cbn [cumsum cummax].
  change (series_sub (x :: ?a) (x :: ?b)) with ((x - x) :: series_sub a b).
  now rewrite series_sub_scans.
Qed.

Lemma sum_to_succ (l : list Q) (t : nat) (y : Q) :
  nth_error l (S t) = Some y -> sum_to l (S t) == sum_to l t + y.
Proof.
  revert l. unfold sum_to. induction t as [|t IH]; intros l Hy.
  - destruct l as [|x [|z r]]; try discriminate Hy.
    injection Hy as ->. cbv [firstn fold_right]. ring.
  - destruct l as [|x l]; [discriminate Hy|].
    cbn [nth_error] in Hy. specialize (IH l Hy).
    change (firstn (S (S (S t))) (x :: l)) with (x :: firstn (S (S t)) l).
    change (firstn (S (S t)) (x :: l)) with (x :: firstn (S t) l).
    cbn [fold_right]. rewrite IH. ring.
Qed.

Lemma skipn_cons_inv (l : list Q) (k : nat) (y : Q) (r : list Q) :
  skipn k l = y :: r -> nth_error l k = Some y /\ skipn (S k) l = r.
Proof.
  revert l. induction k as [|k IH]; intros l H.
  - change (l = y :: r) in H. subst l. now split.
  - destruct l as [|x l]; [discriminate H|].
    change (skipn k l = y :: r) in H. exact (IH l H).
Qed.

(** The loop invariant: running sum, running peak and running minimum
    agree with the positional definitions. *)
Lemma fold_drawdowns (l rest : list Q) (k : nat) (s p a : Q) :
  skipn (S k) l = rest ->
  s == sum_to l k -> p == peak_to l k ->
  a == min_upto (drawdown_at l) k ->
  fold_left Qmin (drawdowns_from s p rest) a
  == min_upto (drawdown_at l) (k + length rest).
Proof.
  revert k s p a. induction rest as [|y r IH]; intros k s p a Hsk Hs Hp Ha.
  - cbn. now rewrite Nat.add_0_r.
  - apply skipn_cons_inv in Hsk as [Hy Hsk].
    pose proof (sum_to_succ l k y Hy) as Hsum.
    cbn [drawdowns_from fold_left length].
    replace (k + S (length r))%nat with (S k + length r)%nat by lia.
    apply IH; [exact Hsk| | |].
    + rewrite Hsum, Hs. reflexivity.
    + cbn [peak_to]. rewrite Hsum, Hs, Hp. reflexivity.
    + cbn [min_upto]. unfold drawdown_at at 2. cbn [peak_to].
      rewrite Hsum, Hs, Hp, Ha. reflexivity.
Qed.

Lemma max_drawdown_refines (x : Q) (rest : list Q) :
  fold_left Qmin (drawdowns_from x x rest) (x - x)
  == spec_max_drawdown (x :: rest).
Proof.
  unfold spec_max_drawdown.
  replace (length (x :: rest) - 1)%nat with (0 + length rest)%nat
    by (cbn [length]; lia).
  apply (fold_drawdowns (x :: rest) rest 0); [reflexivity| | |].
  - unfold sum_to. cbv [firstn fold_right]. ring.
  - unfold peak_to, sum_to. cbv [firstn fold_right]. ring.
  - unfold min_upto, drawdown_at, peak_to, sum_to.
    cbv [firstn fold_right]. ring.
Qed.

Lemma fold_min_le (l : list Q) (a : Q) : fold_left Qmin l a <= a.
Proof.
  revert a. induction l as [|x l IH]; intros a; cbn [fold_left]; [lra|].
  pose proof (IH (Qmin a x)). pose proof (Q.le_min_l a x). lra.
Qed.

Lemma fold_drawdowns_flat (rest : list Q) (s p a : Q) :
  p == s -> a == 0 -> (forall y, In y rest -> 0 <= y) ->
  fold_left Qmin (drawdowns_from s p rest) a == 0.
Proof.
  revert s p a. induction rest as [|y r IH]; intros s p a Hp Ha Hpos.
  - exact Ha.
  - cbn [drawdowns_from fold_left].
    assert (Hy : 0 <= y) by (apply Hpos; now left).
    assert (Hmax : Qmax p (s + y) == s + y) by (apply Q.max_r; lra).
    apply IH.
    + exact Hmax.
    + assert (Hd : s + y - Qmax p (s + y) == 0) by (rewrite Hmax; ring).
      rewrite Hd, Ha. apply Q.min_l. lra.
    + intros z Hz. apply Hpos. now right.
Qed.

(** C7.  For a non-empty daily PnL series the reported maximum drawdown is
    the minimum over t of cumsum[t] minus the maximum of cumsum[0..t]; it
    is never positive, it is zero when the cumulative PnL never decreases,
    in particular when every daily PnL is non-negative, and it is -100 for
    the series 100, -50, 30, -80, 200. *)
Theorem max_drawdown_spec :
  forall daily_pnl : list Q,
    daily_pnl <> [] ->
    exists m : Q,
      max_drawdown daily_pnl = Some m
      /\ m == spec_max_drawdown daily_pnl
      /\ m <= 0
      /\ ((forall y, In y (tl daily_pnl) -> 0 <= y) -> m == 0)
      /\ ((forall y, In y daily_pnl -> 0 <= y) -> m == 0)
      /\ max_drawdown [100; -50; 30; -80; 200] = Some (-100).
Proof.
  intros [|x rest] Hne; [contradiction|].
  eexists. split; [apply max_drawdown_cons|].
  assert (Hflat : (forall y, In y rest -> 0 <= y) ->
                  fold_left Qmin (drawdowns_from x x rest) (x - x) == 0)
    by (intros H; apply fold_drawdowns_flat; [reflexivity|ring|exact H]).
  split; [apply max_drawdown_refines|].
  split; [pose proof (fold_min_le (drawdowns_from x x rest) (x - x)); lra|].
  split; [exact Hflat|].
  split; [|reflexivity].
  intros H. apply Hflat. intros y Hy. apply H. now right.
Qed.

Lemma max_drawdown_spec_witness :
  exists m : Q,
    max_drawdown [100; -50; 30; -80; 200] = Some m
    /\ m == spec_max_drawdown [100; -50; 30; -80; 200] /\ m <= 0.
Proof.
  destruct (max_drawdown_spec [100; -50; 30; -80; 200] ltac:(discriminate))
    as (m & H1 & H2 & H3 & _).
  exists m. auto.
Defined.

End DrawdownFacts.

(** ** Hourly PnL aggregation *)

Section AggregationFacts.
Import Store Report Props.
Local Open Scope Z_scope.

Lemma filter_insert_by_hour (h : Z) (t : Trade) (l : list Trade) :
  List.filter (fun u => delivery_hour u =? h) (insert_by_hour t l)
  = List.filter (fun u => delivery_hour u =? h) (t :: l).
Proof.
  induction l as [|u rest IH]; [reflexivity|].
  cbn [insert_by_hour].
  destruct (delivery_hour t <=? delivery_hour u) eqn:E; [reflexivity|].
  apply Z.leb_gt in E.
  cbn [List.filter] in IH |- *. rewrite IH.
  destruct (delivery_hour t =? h) eqn:Et;
    destruct (delivery_hour u =? h) eqn:Eu; try reflexivity.
  apply Z.eqb_eq in Et, Eu. lia.
Qed.

(** Sorting by hour keeps the rows of each hour, in table order. *)
Lemma filter_order_by_hour (h : Z) (l : list Trade) :
  List.filter (fun u => delivery_hour u =? h) (order_by_hour l)
  = List.filter (fun u => delivery_hour u =? h) l.
Proof.
  induction l as [|t rest IH]; [reflexivity|].
  cbn [order_by_hour fold_right]. rewrite filter_insert_by_hour.
  cbn [List.filter]. fold (order_by_hour rest). now rewrite IH.
Qed.

Lemma in_insert_by_hour (t u : Trade) (l : list Trade) :
  In u (insert_by_hour t l) -> u = t \/ In u l.
Proof.
  induction l as [|v rest IH]; cbn [insert_by_hour].
  - intros [<-|[]]. now left.
  - destruct (delivery_hour t <=? delivery_hour v).
    + intros [<-|H]; [now left|now right].
    + intros [<-|H]; [right; now left|].
      destruct (IH H) as [->|H']; [now left|right; now right].
Qed.

Lemma in_order_by_hour (u : Trade) (l : list Trade) :
  In u (order_by_hour l) -> In u l.
Proof.
  induction l as [|t rest IH]; [easy|].
  cbn [order_by_hour fold_right]. intros H.
  apply in_insert_by_hour in H as [->|H]; [now left|right; now apply IH].
Qed.

Lemma select_trades_checked (table : list Trade) (trader day : string) :
  checked table -> checked (select_trades table trader day).
Proof.
  unfold checked, select_trades. rewrite !List.Forall_forall.
  intros H t Ht. apply in_order_by_hour in Ht.
  apply List.filter_In in Ht as [Ht _]. now apply H.
Qed.

Ltac case_bounds :=
  repeat match goal with
    | |- context [(?a <=? ?b)%Z] => destruct (Z.leb_spec a b)
    | |- context [(?a <? ?b)%Z] => destruct (Z.ltb_spec a b)
    end;
  cbn [andb].

Lemma init_range (n : nat) (m0 : gmap Z HourData) (a : nat) (h : Z) :
  fold_left (fun m k => <[ Z.of_nat k := zero_hour ]> m) (seq a n) m0 !! h
  = if (Z.of_nat a <=? h) && (h <? Z.of_nat (a + n))
    then Some zero_hour else m0 !! h.
Proof.
  revert a m0. induction n as [|n IH]; intros a m0; cbn [seq fold_left].
  - case_bounds; try reflexivity; lia.
  - rewrite IH.
    destruct (decide (Z.of_nat a = h)) as [<-|Hne].
    + rewrite lookup_insert_eq. case_bounds; try reflexivity; lia.
    + rewrite lookup_insert_ne by exact Hne.
      case_bounds; try reflexivity; lia.
Qed.

Lemma init_hourly_data_lookup (h : Z) :
  init_hourly_data !! h
  = if (0 <=? h) && (h <=? 23) then Some zero_hour else None.
Proof.
  unfold init_hourly_data. rewrite init_range, lookup_empty.
  case_bounds; try reflexivity; lia.
Qed.

Lemma init_covers : covers init_hourly_data.
Proof.
  intros h. rewrite init_hourly_data_lookup.
  case_bounds; split; intros Hx; try (now eexists); try lia;
    destruct Hx as [? Hx]; discriminate Hx.
Qed.

Lemma process_trades_lookup (rows : list Trade) (m : gmap Z HourData) :
  covers m -> checked rows ->
  exists m',
    process_trades m rows = Some m'
    /\ covers m'
    /\ forall h hd,
         m !! h = Some hd ->
         m' !! h
         = Some (fold_left update_hour
                   (List.filter (fun t => delivery_hour t =? h) rows) hd).
Proof.
  revert m. induction rows as [|t rest IH]; intros m Hm Hrows.
  - exists m. cbn. auto.
  - apply List.Forall_cons_iff in Hrows as [Ht Hrest].
    assert (Hrange : 0 <= delivery_hour t <= 23).
    { unfold check_constraints in Ht.
      apply andb_true_iff in Ht as [Ht H2].
      apply andb_true_iff in Ht as [_ H1]. lia. }
    destruct (proj2 (Hm _) Hrange) as [hd_t Hhd].
    cbn [process_trades]. unfold process_trade. rewrite Hhd.
    set (m1 := <[ delivery_hour t := update_hour hd_t t ]> m).
    assert (Hm1 : covers m1).
    { intros h. unfold m1. destruct (decide (delivery_hour t = h)) as [<-|Hne].
      - rewrite lookup_insert_eq. split; [now intros _|now eexists].
      - rewrite lookup_insert_ne by exact Hne. apply Hm. }
    destruct (IH m1 Hm1 Hrest) as (m' & Hrun & Hm' & Hlook).
    exists m'. split; [exact Hrun|]. split; [exact Hm'|].
    intros h hd Hh. cbn [List.filter].
    destruct (delivery_hour t =? h) eqn:E.
    + apply Z.eqb_eq in E. subst h. cbn [fold_left]. apply Hlook.
      unfold m1. rewrite lookup_insert_eq. congruence.
    + apply Z.eqb_neq in E. apply Hlook.
      unfold m1. now rewrite lookup_insert_ne.
Qed.

Lemma side_total_cons (name : string) (t : Trade) (rows : list Trade) :
  side_total name (t :: rows)
  = if String.eqb (side t) name
    then (quantity t * price t + side_total name rows)%Q
    else side_total name rows.
Proof.
  unfold side_total. cbn [List.filter].
  now destruct (String.eqb (side t) name).
Qed.

Lemma fold_update_count (rows : list Trade) (hd : HourData) :
  num_trades (fold_left update_hour rows hd)
  = num_trades hd + Z.of_nat (length rows).
Proof.
  revert hd. induction rows as [|t rest IH]; intros hd.
  - cbn [fold_left length]. lia.
  - cbn [fold_left length]. rewrite IH. unfold update_hour.
    destruct (String.eqb (side t) "buy"); cbn [num_trades]; lia.
Qed.

(** The PnL of an entry is the running sum over the rows it was updated
    with. *)
Lemma fold_update_pnl (rows : list Trade) (hd : HourData) :
  pnl_eur (fold_left update_hour rows hd)
  = fold_left
      (fun acc t =>
         if String.eqb (side t) "buy"
         then Binary64.sub acc (value t)
         else Binary64.add acc (value t))
      rows (pnl_eur hd).
Proof.
  revert hd. induction rows as [|t rest IH]; intros hd; [reflexivity|].
  cbn [fold_left]. rewrite IH. f_equal. unfold update_hour.
  now destruct (String.eqb (side t) "buy").
Qed.

Lemma round_proper (x y : Q) : (x == y)%Q -> Binary64.round x = Binary64.round y.
Proof.
  intros H. unfold Binary64.round, Binary64.round_format.
  now rewrite (Qred_complete x y H).
Qed.

Lemma exact_value (x : Q) :
  Binary64.exact x ->
  exists v, Binary64.round x = Binary64.Finite v /\ (v == x)%Q.
Proof.
  intros H. exists (Qred x). split; [exact H|apply Qred_correct].
Qed.

(** Without rounding the running sum is the exact sum. *)
Lemma exact_run_sum (rows : list Trade) (acc a : Q) :
  (a == acc)%Q -> exact_run acc rows ->
  exists v,
    fold_left
      (fun acc t =>
         if String.eqb (side t) "buy"
         then Binary64.sub acc (value t)
         else Binary64.add acc (value t))
      rows (Binary64.Finite a)
    = Binary64.Finite v
    /\ (v == acc + fold_right Qplus 0 (map signed_value rows))%Q.
Proof.
  revert acc a. induction rows as [|t rest IH]; intros acc a Ha Hex.
  - exists a. split; [reflexivity|]. cbn. rewrite Ha. ring.
  - cbn [exact_run] in Hex. destruct Hex as (Hprod & Hsum & Hrest).
    destruct (exact_value _ Hprod) as (p & Hp & Hpq).
    destruct (exact_value _ Hsum) as (b & Hb & Hbq).
    cbn [fold_left map fold_right].
    assert (Hstep : (if String.eqb (side t) "buy"
                     then Binary64.sub (Binary64.Finite a) (value t)
                     else Binary64.add (Binary64.Finite a) (value t))
                    = Binary64.Finite b).
    { unfold value. cbn [Binary64.mul]. rewrite Hp. rewrite <- Hb.
      unfold signed_value.
      destruct (String.eqb (side t) "buy");
        cbn [Binary64.sub Binary64.add Binary64.neg];
        apply round_proper; rewrite Ha, Hpq; ring. }
    rewrite Hstep.
    destruct (IH (acc + signed_value t)%Q b Hbq Hrest) as (v & Hv & Hvq).
    exists v. split; [exact Hv|]. rewrite Hvq. ring.
Qed.

Lemma signed_value_sum (rows : list Trade) :
  checked rows ->
  (fold_right Qplus 0 (map signed_value rows)
   == side_total "sell" rows - side_total "buy" rows)%Q.
Proof.
  induction rows as [|t rest IH]; intros Hrows.
  - unfold side_total. cbn. ring.
  - apply List.Forall_cons_iff in Hrows as [Ht Hrest].
    cbn [map fold_right]. rewrite (IH Hrest), !side_total_cons.
    unfold check_constraints in Ht.
    apply andb_true_iff in Ht as [Ht _]. apply andb_true_iff in Ht as [Ht _].
    unfold signed_value.
    destruct (String.eqb (side t) "buy") eqn:Eb.
    + apply String.eqb_eq in Eb. rewrite Eb.
      cbn [String.eqb Ascii.eqb Bool.eqb]. ring.
    + cbn [orb] in Ht. rewrite Ht. ring.
Qed.

Lemma checked_filter (f : Trade -> bool) (rows : list Trade) :
  checked rows -> checked (List.filter f rows).
Proof.
  unfold checked. rewrite !List.Forall_forall. intros H t Ht.
  apply List.filter_In in Ht as [Ht _]. now apply H.
Qed.

(** C6 (amended).  On a table that satisfies the schema's CHECK clauses
    the report of a trader and day has an entry for each hour 0..23 and no
    other; the entry of an hour counts the trader's trades of that day and
    hour, and its PnL is their running sum in table order and in binary64:
    each sell adds and each buy subtracts the rounded product quantity x
    price.  When no product and no partial sum is rounded, the PnL is the
    sum of quantity x price over the sells minus that over the buys; an
    hour without trades has the all-zero entry.  Buying 10 MW at 50 and
    selling 10 MW at 60 in one hour gives a PnL of exactly 100, also in
    [compute_pnl] of task1.py. *)
Theorem hourly_pnl_aggregation :
  forall (table : list Trade) (trader : string) (day : Z),
    checked table ->
    (exists hourly_data : gmap Z HourData,
       compute_hourly_pnl table trader day = Some hourly_data
       /\ covers hourly_data
       /\ forall h : Z,
            0 <= h <= 23 ->
            exists hd : HourData,
              hourly_data !! h = Some hd
              /\ num_trades hd
                 = Z.of_nat (length (hour_rows table trader day h))
              /\ pnl_eur hd = running_pnl (hour_rows table trader day h)
              /\ (exact_run 0 (hour_rows table trader day h) ->
                  exists v : Q,
                    pnl_eur hd = Binary64.Finite v
                    /\ (v == side_total "sell" (hour_rows table trader day h)
                            - side_total "buy"
                                (hour_rows table trader day h))%Q)
              /\ (hour_rows table trader day h = [] -> hd = zero_hour))
    /\ hour_entry sample_table "trader_1" 18793 13
       = Some {| num_trades := 2; buy_da_mw := 0; sell_da_mw := 0;
                 buy_ida_mw := 0; sell_ida_mw := 0;
                 pnl_eur := Binary64.Finite 100%Q |}
    /\ Task1.compute_pnl sample_epex "s" = Binary64.Finite 100%Q.
Proof.
  intros table trader day Htable.
  split; [|split; vm_compute; reflexivity].
  unfold compute_hourly_pnl.
  set (rows := select_trades table trader (Clock.date_isoformat day)).
  destruct (process_trades_lookup rows init_hourly_data init_covers)
    as (m & Hrun & Hm & Hlook); [now apply select_trades_checked|].
  exists m. split; [exact Hrun|]. split; [exact Hm|].
  intros h Hh.
  assert (Hinit : init_hourly_data !! h = Some zero_hour).
  { rewrite init_hourly_data_lookup.
    destruct (Z.leb_spec 0 h), (Z.leb_spec h 23); try lia. reflexivity. }
  assert (Hrows : List.filter (fun t => delivery_hour t =? h) rows
                  = hour_rows table trader day h)
    by (unfold rows, select_trades; apply filter_order_by_hour).
  eexists. split; [rewrite (Hlook h zero_hour Hinit), Hrows; reflexivity|].
  assert (Hc : checked (hour_rows table trader day h))
    by (unfold hour_rows; now do 2 apply checked_filter).
  split; [rewrite fold_update_count; cbn [num_trades zero_hour]; lia|].
  split; [apply fold_update_pnl|]. split.
  - intros Hex. rewrite fold_update_pnl. cbn [pnl_eur zero_hour].
    destruct (exact_run_sum _ 0%Q 0%Q ltac:(reflexivity) Hex)
      as (v & Hv & Hvq).
    exists v. split; [exact Hv|].
    rewrite Hvq, (signed_value_sum _ Hc). ring.
  - intros ->. reflexivity.
Qed.

Lemma hourly_pnl_aggregation_witness :
  exists (hourly_data : gmap Z HourData) (hd : HourData),
    compute_hourly_pnl sample_table "trader_1" 18793 = Some hourly_data
    /\ covers hourly_data
    /\ hourly_data !! 13 = Some hd
    /\ exists v : Q, pnl_eur hd = Binary64.Finite v /\ (v == 100)%Q.
Proof.
  assert (Hc : checked sample_table) by (repeat constructor).
  destruct (hourly_pnl_aggregation sample_table "trader_1" 18793 Hc)
    as [(m & H1 & H2 & H3) _].
  destruct (H3 13 ltac:(lia)) as (hd & Hhd & _ & _ & Hex & _).
  exists m, hd. split; [exact H1|]. split; [exact H2|]. split; [exact Hhd|].
  assert (Hrun : exact_run 0 (hour_rows sample_table "trader_1" 18793 13)).
  { vm_compute. repeat split. }
  destruct (Hex Hrun) as (v & Hv & Hvq).
  exists v. split; [exact Hv|]. rewrite Hvq. vm_compute. reflexivity.
Defined.

(** With rounding the PnL of an hour is not the sum over its sells minus
    the sum over its buys: selling 1 MW at 1e16, selling 1 MW at 1 and
    buying 1 MW at 1e16 leaves a PnL of 0, not 1. *)
Lemma hourly_pnl_rounding_fails :
  checked rounding_table
  /\ hour_entry rounding_table "trader_1" 18793 13
     = Some {| num_trades := 3; buy_da_mw := 0; sell_da_mw := 0;
               buy_ida_mw := 0; sell_ida_mw := 0;
               pnl_eur := Binary64.Finite 0%Q |}
  /\ (side_total "sell" (hour_rows rounding_table "trader_1" 18793 13)
      - side_total "buy" (hour_rows rounding_table "trader_1" 18793 13)
      == 1)%Q.
Proof.
  split; [repeat constructor|]. split; vm_compute; reflexivity.
Qed.

End AggregationFacts.

(** ** Walk-forward loop *)

Section ListFacts.
Context {A : Type}.

Lemma filter_none (f : A -> bool) (l : list A) :
  (forall x, In x l -> f x = false) -> List.filter f l = [].
Proof.
  induction l as [|x l IH]; intros H; [reflexivity|].
  cbn [List.filter]. rewrite (H x (or_introl eq_refl)).
  apply IH. intros y Hy. apply H. now right.
Qed.

Lemma filter_some (f : A -> bool) (l : list A) :
  List.filter f l <> [] <-> exists x, In x l /\ f x = true.
Proof.
  split.
  - intros H. destruct (List.filter f l) as [|x r] eqn:E; [contradiction|].
    exists x. apply List.filter_In. rewrite E. now left.
  - intros (x & Hx & Hf) E.
    assert (Hin : In x (List.filter f l)) by now apply List.filter_In.
    rewrite E in Hin. contradiction.
Qed.

Lemma in_skipn (n : nat) (l : list A) (x : A) :
  In x (skipn n l) -> In x l.
Proof.
  intros H. rewrite <- (List.firstn_skipn n l).
  apply List.in_or_app. now right.
Qed.

Lemma reset_index_from_app (a : nat) (p q : list A) :
  Frame.reset_index_from a (p ++ q)
  = Frame.reset_index_from a p
      ++ Frame.reset_index_from (a + length p) q.
Proof.
  unfold Frame.reset_index_from. revert a.
  induction p as [|x p IH]; intros a.
  - cbn. now rewrite Nat.add_0_r.
  - cbn [length List.app seq map combine]. rewrite IH.
    now replace (S a + length p)%nat with (a + S (length p))%nat by lia.
Qed.

Lemma reset_index_from_snd (a : nat) (l : list A) :
  map snd (Frame.reset_index_from a l) = l.
Proof.
  unfold Frame.reset_index_from. revert a.
  induction l as [|x l IH]; intros a; [reflexivity|].
  cbn. now rewrite IH.
Qed.

Lemma in_reset_index_from (a : nat) (l : list A) (x : A) :
  In x l <-> exists i, In (i, x) (Frame.reset_index_from a l).
Proof.
  split.
  - intros H. rewrite <- (reset_index_from_snd a l) in H.
    apply List.in_map_iff in H as ([i y] & Hy & H). cbn in Hy. subst y.
    now exists i.
  - intros (i & H). rewrite <- (reset_index_from_snd a l).
    apply List.in_map_iff. now exists (i, x).
Qed.

End ListFacts.

Section UniqueFacts.
Import Frame.
Local Open Scope Z_scope.

Lemma in_unique (l : list Z) (y : Z) : In y (unique l) <-> In y l.
Proof.
  induction l as [|x rest IH]; [reflexivity|].
  cbn [unique In]. rewrite List.filter_In, IH.
  destruct (Z.eq_dec x y) as [->|Hne].
  - tauto.
  - assert (negb (y =? x) = true)
      by (apply negb_true_iff, Z.eqb_neq; congruence).
    tauto.
Qed.

Lemma filter_filter (f g : Z -> bool) (l : list Z) :
  List.filter f (List.filter g l) = List.filter (fun y => g y && f y) l.
Proof.
  induction l as [|x l IH]; [reflexivity|].
  cbn [List.filter]. destruct (g x); cbn [List.filter andb].
  - now rewrite IH.
  - exact IH.
Qed.

(** Days that first appear in [b] come after all days of [a]. *)
Lemma unique_app (a b : list Z) :
  unique (a ++ b)
  = unique a
      ++ List.filter (fun y => negb (existsb (Z.eqb y) a)) (unique b).
Proof.
  induction a as [|x a IH].
  - cbn [unique List.app existsb negb].
    symmetry. apply List.forallb_filter_id.
    apply List.forallb_forall. reflexivity.
  - cbn [List.app unique]. rewrite IH, List.filter_app, filter_filter.
    cbn [List.app]. do 2 f_equal.
    apply List.filter_ext. intros y. cbn [existsb].
    now rewrite negb_orb, andb_comm.
Qed.

End UniqueFacts.

Section ForecastFacts.
Import Binary64 Frame Forecast Props.
Variable Model : Type.
Variable fit : list (list Q) -> list Z -> list (ext R) -> option Model.
Variable predict_proba : Model -> list Q -> Q.

Local Abbreviation day_step := (day_step Model fit predict_proba).
Local Abbreviation walk := (walk Model fit predict_proba).
Local Abbreviation trades_list := (trades_list Model fit predict_proba).
Local Abbreviation fit_for := (fit_for Model fit).
Local Abbreviation score := (score Model predict_proba).
Local Abbreviation run := (apply_daily_ml_strategy Model fit predict_proba).

Lemma day_step_some (df : list Row) (d : Z) (t : list Scored) :
  day_step df d = Some (inr t)
  <-> (min_samples <= length (train_data df d))%nat
      /\ test_data df d <> []
      /\ exists model,
           fit_for df d = Some model
           /\ t = map (score model) (test_data df d).
Proof.
  unfold Forecast.day_step.
  destruct (Nat.ltb_spec (length (train_data df d)) min_samples) as [Hlt|Hge].
  - split; [discriminate|]. intros (H & _). lia.
  - destruct (Forecast.fit_for Model fit df d) as [model|] eqn:Ef.
    + destruct (test_data df d) as [|r rest] eqn:E; cbn [length Nat.eqb].
      * split; [discriminate|]. intros (_ & H & _). contradiction.
      * split.
        -- intros [= <-]. split; [exact Hge|]. split; [discriminate|].
           now exists model.
        -- intros (_ & _ & model' & [= <-] & ->). reflexivity.
    + split; [discriminate|]. intros (_ & _ & model & Hm & _).
      discriminate Hm.
Qed.

Lemma day_step_raises (df : list Row) (d : Z) (e : Raised) :
  day_step df d = Some (inl e)
  <-> (min_samples <= length (train_data df d))%nat
      /\ fit_for df d = None /\ e = FitError.
Proof.
  unfold Forecast.day_step.
  destruct (Nat.ltb_spec (length (train_data df d)) min_samples) as [Hlt|Hge].
  - split; [discriminate|]. intros (H & _). lia.
  - destruct (Forecast.fit_for Model fit df d) as [model|] eqn:Ef.
    + destruct (length (test_data df d) =? 0)%nat;
        (split; [discriminate|]); intros (_ & H & _); discriminate H.
    + split.
      * intros [= <-]. auto.
      * intros (_ & _ & ->). reflexivity.
Qed.

Lemma day_step_dates (df : list Row) (d : Z) (t : list Scored) (s : Scored) :
  day_step df d = Some (inr t) -> In s t -> date (row s) = d.
Proof.
  intros H Hs. apply day_step_some in H as (_ & _ & model & _ & ->).
  apply List.in_map_iff in Hs as (r & <- & Hr).
  apply List.filter_In in Hr as [_ Hr]. cbn. now apply Z.eqb_eq.
Qed.

Lemma day_step_nonempty (df : list Row) (d : Z) (t : list Scored) :
  day_step df d = Some (inr t) -> t <> [].
Proof.
  intros H. apply day_step_some in H as (_ & Hne & model & _ & ->).
  destruct (test_data df d); [contradiction|discriminate].
Qed.

Lemma walk_app (df : list Row) (a b : list Z) :
  walk df (a ++ b)
  = match walk df a with
    | inl e => inl e
    | inr fa =>
        match walk df b with
        | inl e => inl e
        | inr fb => inr (fa ++ fb)%list
        end
    end.
Proof.
  induction a as [|d a IH].
  - cbn [List.app Forecast.walk]. now destruct (walk df b).
  - cbn [List.app Forecast.walk]. rewrite IH.
    destruct (day_step df d) as [[e|t]|]; [reflexivity| |reflexivity].
    destruct (walk df a) as [e|fa]; [reflexivity|].
    now destruct (walk df b).
Qed.

Lemma walk_ext (df df' : list Row) (days : list Z) :
  (forall d, In d days -> day_step df d = day_step df' d) ->
  walk df days = walk df' days.
Proof.
  induction days as [|d days IH]; intros H; [reflexivity|].
  cbn [Forecast.walk]. rewrite (H d (or_introl eq_refl)).
  rewrite IH; [reflexivity|]. intros d' Hd'. apply H. now right.
Qed.

Lemma in_walk (df : list Row) (days : list Z) (frames : list (list Scored))
    (s : Scored) :
  walk df days = inr frames ->
  In s (concat frames)
  <-> exists d t, In d days /\ day_step df d = Some (inr t) /\ In s t.
Proof.
  revert frames. induction days as [|d days IH]; intros frames Hw.
  - cbn in Hw. injection Hw as <-. cbn.
    split; [contradiction|]. intros (? & ? & [] & _).
  - cbn [Forecast.walk] in Hw.
    destruct (day_step df d) as [[e|t]|] eqn:E; [discriminate Hw| |].
    + destruct (walk df days) as [e|rest] eqn:Er; [discriminate Hw|].
      injection Hw as <-. cbn [concat].
      rewrite List.in_app_iff, (IH rest eq_refl). split.
      * intros [H|(d' & t' & Hd & Ht & Hs)].
        -- exists d, t. cbn. auto.
        -- exists d', t'. cbn. auto.
      * intros (d' & t' & [<-|Hd] & Ht & Hs).
        -- left. congruence.
        -- right. now exists d', t'.
    + rewrite (IH frames Hw). split.
      * intros (d' & t' & Hd & Ht & Hs). exists d', t'. cbn. auto.
      * intros (d' & t' & [<-|Hd] & Ht & Hs); [congruence|].
        now exists d', t'.
Qed.

(** A loop that ends normally met no exception. *)
Lemma walk_no_raise (df : list Row) (days : list Z)
    (frames : list (list Scored)) :
  walk df days = inr frames ->
  forall d e, In d days -> day_step df d <> Some (inl e).
Proof.
  revert frames. induction days as [|d days IH]; intros frames Hw d' e [].
  - subst d'. cbn [Forecast.walk] in Hw. intros E. rewrite E in Hw.
    discriminate Hw.
  - cbn [Forecast.walk] in Hw.
    destruct (day_step df d) as [[e'|t]|]; [discriminate Hw| |].
    + destruct (walk df days) as [e'|rest] eqn:Er; [discriminate Hw|].
      now apply (IH rest eq_refl).
    + now apply (IH frames Hw).
Qed.

Lemma walk_empty (df : list Row) (days : list Z) :
  walk df days = inr [] <-> forall d, In d days -> day_step df d = None.
Proof.
  induction days as [|d days IH].
  - cbn. split; [contradiction|reflexivity].
  - cbn [Forecast.walk]. destruct (day_step df d) as [[e|t]|] eqn:E.
    + split; [discriminate|]. intros H.
      specialize (H d (or_introl eq_refl)). congruence.
    + split.
      * destruct (walk df days); discriminate.
      * intros H. specialize (H d (or_introl eq_refl)). congruence.
    + rewrite IH. split.
      * intros H d' [<-|Hd]; [exact E|now apply H].
      * intros H d' Hd. apply H. now right.
Qed.

(** A run returns the relabelled concatenation of a non-empty list of
    frames. *)
Lemma run_returns (df : list Row) (res : list (Z * Scored)) :
  run df = inr res
  <-> exists frames,
        trades_list df = inr frames /\ frames <> []
        /\ res = reset_index (concat frames).
Proof.
  unfold Forecast.apply_daily_ml_strategy.
  destruct (Forecast.trades_list Model fit predict_proba df)
    as [e|[|f fs]] eqn:E.
  - split; [discriminate|]. intros (frames & H & _). discriminate H.
  - split; [discriminate|]. intros (frames & [= <-] & H & _).
    contradiction.
  - split.
    + intros [= <-]. exists (f :: fs). split; [reflexivity|].
      split; [discriminate|reflexivity].
    + intros (frames & [= <-] & _ & ->). reflexivity.
Qed.

Lemma run_labels (df : list Row) (res : list (Z * Scored)) :
  run df = inr res -> List.NoDup (map fst res).
Proof.
  intros H. apply run_returns in H as (frames & _ & _ & ->).
  apply reset_index_nodup.
Qed.

(** Skip gating: a run that returns has rows for a day exactly when the
    day lies beyond the warm-up days, has at least [min_samples] training
    rows and has feature rows of its own. *)
Lemma emitted_iff (df : list Row) (d : Z) (res : list (Z * Scored)) :
  run df = inr res ->
  List.filter (on_day d) res <> []
  <-> In d (skipn min_train_days (unique_days df))
      /\ (min_samples <= length (train_data df d))%nat
      /\ test_data df d <> [].
Proof.
  intros Hrun. apply run_returns in Hrun as (frames & Hw & _ & ->).
  unfold Forecast.trades_list in Hw. rewrite filter_some. split.
  - intros ([i s] & Hin & Hd). unfold on_day in Hd. cbn in Hd.
    apply Z.eqb_eq in Hd.
    assert (Hs : In s (concat frames)).
    { apply (in_reset_index_from 0). now exists i. }
    apply (in_walk _ _ _ _ Hw) in Hs as (d' & t & Hd' & Ht & Hs).
    pose proof (day_step_dates _ _ _ _ Ht Hs) as Hdate.
    rewrite Hd in Hdate. subst d'.
    apply day_step_some in Ht as (H1 & H2 & _).
    split; [exact Hd'|]. split; [exact H1|exact H2].
  - intros (Hd & Hn & Ht).
    destruct (fit_for df d) as [model|] eqn:Ef.
    + destruct (test_data df d) as [|r rest] eqn:E; [contradiction|].
      set (s := score model r).
      assert (Hs : In s (concat frames)).
      { apply (in_walk _ _ _ _ Hw).
        exists d, (map (score model) (test_data df d)).
        split; [exact Hd|]. split.
        - apply day_step_some. rewrite E.
          split; [exact Hn|]. split; [discriminate|].
          exists model. split; [exact Ef|reflexivity].
        - rewrite E. now left. }
      apply (in_reset_index_from 0) in Hs as (i & Hi).
      exists (i, s). split; [exact Hi|].
      unfold on_day, s. cbn.
      assert (Hr : In r (test_data df d)) by (rewrite E; now left).
      apply List.filter_In in Hr as [_ Hr]. exact Hr.
    + exfalso. apply (walk_no_raise _ _ _ Hw d FitError Hd).
      apply day_step_raises. auto.
Qed.

End ForecastFacts.

(** ** Walk-forward loop: gating and look-ahead *)

Section WalkForwardTheorems.
Import Binary64 Frame Forecast Props.
Local Open Scope Z_scope.

Lemma in_train_data (df : list Row) (d : Z) (r : Row) :
  In r (train_data df d) <-> In r df /\ date r < d.
Proof.
  unfold train_data. rewrite List.filter_In, Z.ltb_lt. reflexivity.
Qed.

Lemma train_data_app_future (past future : list Row) (d d' : Z) :
  (forall r, In r future -> d < date r) -> d' <= d ->
  train_data (past ++ future) d' = train_data past d'.
Proof.
  intros Hf Hd. unfold train_data. rewrite List.filter_app.
  rewrite (filter_none _ future), List.app_nil_r; [reflexivity|].
  intros r Hr. apply Z.ltb_ge. specialize (Hf r Hr). lia.
Qed.

Lemma test_data_app_future (past future : list Row) (d d' : Z) :
  (forall r, In r future -> d < date r) -> d' <= d ->
  test_data (past ++ future) d' = test_data past d'.
Proof.
  intros Hf Hd. unfold test_data. rewrite List.filter_app.
  rewrite (filter_none _ future), List.app_nil_r; [reflexivity|].
  intros r Hr. apply Z.eqb_neq. specialize (Hf r Hr). lia.
Qed.

Section Classifier.
Variable Model : Type.
Variable fit : list (list Q) -> list Z -> list (ext R) -> option Model.
Variable predict_proba : Model -> list Q -> Q.

Local Abbreviation day_step := (day_step Model fit predict_proba).
Local Abbreviation walk := (walk Model fit predict_proba).
Local Abbreviation run := (apply_daily_ml_strategy Model fit predict_proba).

Lemma day_step_app_future (past future : list Row) (d d' : Z) :
  (forall r, In r future -> d < date r) -> d' <= d ->
  day_step (past ++ future) d' = day_step past d'.
Proof.
  intros Hf Hd. unfold Forecast.day_step, Forecast.fit_for.
  now rewrite (train_data_app_future past future d d' Hf Hd),
              (test_data_app_future past future d d' Hf Hd).
Qed.

(** What a run that returns emits for day [d] is computed from the rows
    up to [d]. *)
Lemma day_rows_past (past future : list Row) (d : Z)
    (res : list (Z * Scored)) :
  (forall r, In r past -> date r <= d) ->
  (forall r, In r future -> d < date r) ->
  run (past ++ future) = inr res ->
  exists frames,
    walk past (skipn min_train_days (unique_days past)) = inr frames
    /\ List.filter (on_day d) res
       = List.filter (on_day d) (reset_index (concat frames)).
Proof.
  intros Hp Hf Hrun.
  apply run_returns in Hrun as (frames & Hw & _ & ->).
  unfold Forecast.trades_list, unique_days in Hw.
  rewrite List.map_app, unique_app, List.skipn_app, walk_app in Hw.
  destruct (walk (past ++ future)
              (skipn min_train_days (unique (map date past))))
    as [e|fa] eqn:Ea; [discriminate Hw|].
  destruct (walk (past ++ future)
              (skipn (min_train_days - length (unique (map date past)))
                 (List.filter
                    (fun y => negb (existsb (Z.eqb y) (map date past)))
                    (unique (map date future)))))
    as [e|fb] eqn:Eb; [discriminate Hw|].
  injection Hw as <-. exists fa. split.
  - rewrite <- Ea. unfold unique_days. symmetry. apply walk_ext.
    intros d' Hd'. apply (day_step_app_future past future d d' Hf).
    apply in_skipn, in_unique, List.in_map_iff in Hd' as (r & <- & Hr).
    now apply Hp.
  - unfold reset_index.
    rewrite List.concat_app, reset_index_from_app, List.filter_app.
    match goal with
    | |- (_ ++ List.filter ?f ?b)%list = _ => rewrite (filter_none f b)
    end; [apply List.app_nil_r|].
    intros [i s] His. unfold on_day. cbn [snd]. apply Z.eqb_neq.
    assert (Hs : exists j, In (j, s)
               (reset_index_from (0 + length (concat fa)) (concat fb)))
      by now exists i.
    apply in_reset_index_from in Hs.
    apply (in_walk _ _ _ _ _ _ _ Eb) in Hs as (d' & t & Hd' & Ht & Hs).
    rewrite (day_step_dates _ _ _ _ _ _ _ Ht Hs).
    apply in_skipn, List.filter_In in Hd' as [Hd' _].
    apply in_unique, List.in_map_iff in Hd' as (r & <- & Hr).
    specialize (Hf r Hr). lia.
Qed.

End Classifier.

(** C1 (amended).  The model that scores day [d] is fitted on exactly the
    rows dated before [d], and what the loop does for [d] (skip, exception
    of [fit], or the scored rows) is the same for any two tables that share
    the rows dated up to [d] and differ, after those, in rows dated
    strictly after [d]; when the runs on both tables return, the rows
    emitted for [d] (signals and index labels) are the same. *)
Theorem no_lookahead :
  forall (Model : Type)
         (fit : list (list Q) -> list Z -> list (ext R) -> option Model)
         (predict_proba : Model -> list Q -> Q)
         (past future future' : list Row) (d : Z),
    (forall r, In r past -> date r <= d) ->
    (forall r, In r future -> d < date r) ->
    (forall r, In r future' -> d < date r) ->
    (returns (apply_daily_ml_strategy Model fit predict_proba
                (past ++ future)) ->
     returns (apply_daily_ml_strategy Model fit predict_proba
                (past ++ future')) ->
     day_rows d (apply_daily_ml_strategy Model fit predict_proba
                   (past ++ future))
     = day_rows d (apply_daily_ml_strategy Model fit predict_proba
                     (past ++ future')))
    /\ day_step Model fit predict_proba (past ++ future) d
       = day_step Model fit predict_proba (past ++ future') d
    /\ train_data (past ++ future) d = train_data (past ++ future') d
    /\ (forall (df : list Row) (r : Row),
          In r (train_data df d) <-> In r df /\ date r < d)
    /\ (forall (df : list Row) (scored : list Scored),
          day_step Model fit predict_proba df d = Some (inr scored) ->
          exists model : Model,
            fit (map feature_columns (train_data df d))
                (y_train (train_data df d))
                (time_weights (length (train_data df d)))
            = Some model
            /\ scored = map (score Model predict_proba model)
                          (test_data df d)).
Proof.
  intros Model fit predict_proba past future future' d Hp Hf Hf'.
  split; [|split; [|split; [|split]]].
  - intros [res Hres] [res' Hres']. rewrite Hres, Hres'. cbn [day_rows].
    destruct (day_rows_past Model fit predict_proba past future d res
                Hp Hf Hres) as (fa & Ha & ->).
    destruct (day_rows_past Model fit predict_proba past future' d res'
                Hp Hf' Hres') as (fa' & Ha' & ->).
    congruence.
  - now rewrite !(day_step_app_future Model fit predict_proba past _ d d)
      by (assumption || lia).
  - now rewrite !(train_data_app_future past _ d d) by (assumption || lia).
  - intros df r. apply in_train_data.
  - intros df scored H.
    apply day_step_some in H as (_ & _ & model & Hm & ->).
    now exists model.
Qed.

Lemma dates_le (l : list Row) (d : Z) :
  forallb (fun r => date r <=? d) l = true ->
  forall r, In r l -> date r <= d.
Proof.
  intros H r Hr. apply Z.leb_le.
  exact (proj1 (List.forallb_forall _ l) H r Hr).
Qed.

Lemma dates_gt (l : list Row) (d : Z) :
  forallb (fun r => d <? date r) l = true ->
  forall r, In r l -> d < date r.
Proof.
  intros H r Hr. apply Z.ltb_lt.
  exact (proj1 (List.forallb_forall _ l) H r Hr).
Qed.

(** The sample classifier accepts the training sets of days 30 and 31. *)
Lemma sample_run_returns (tail : list Row) :
  tail = [row_31] \/ tail = [row_31_mutated] ->
  returns (apply_daily_ml_strategy unit sample_fit hour_proba
             ((history ++ [row_30]) ++ tail)).
Proof.
  intros [-> | ->]; eexists; vm_compute; reflexivity.
Qed.

Lemma no_lookahead_witness :
  day_rows 30 (apply_daily_ml_strategy unit sample_fit hour_proba
                 ((history ++ [row_30]) ++ [row_31]))
  = day_rows 30 (apply_daily_ml_strategy unit sample_fit hour_proba
                   ((history ++ [row_30]) ++ [row_31_mutated])).
Proof.
  apply (no_lookahead unit sample_fit hour_proba
           (history ++ [row_30]) [row_31] [row_31_mutated] 30).
  - apply dates_le. vm_compute. reflexivity.
  - apply dates_gt. vm_compute. reflexivity.
  - apply dates_gt. vm_compute. reflexivity.
  - apply sample_run_returns. now left.
  - apply sample_run_returns. now right.
Defined.

(** Mutating a row dated exactly [d] changes what is emitted for [d]:
    whatever the classifier, once it fits on the thirty days of history (as
    the sample classifier does), day 30 is scored on the table that holds a
    row of day 30, and nothing is emitted for day 30 once that row is moved
    to day 31. *)
Lemma lookahead_same_day_fails :
  (forall r, In r history -> date r < 30)
  /\ date row_30 = 30 /\ date row_31 = 31
  /\ sample_fit (map feature_columns history) (y_train history)
       (time_weights (length history)) = Some tt
  /\ forall (Model : Type)
            (fit : list (list Q) -> list Z -> list (ext R) -> option Model)
            (predict_proba : Model -> list Q -> Q) (model : Model),
       fit (map feature_columns history) (y_train history)
           (time_weights (length history)) = Some model ->
       day_rows 30 (apply_daily_ml_strategy Model fit predict_proba
                      (history ++ [row_30]))
       = [(0, score Model predict_proba model row_30)]
       /\ day_rows 30 (apply_daily_ml_strategy Model fit predict_proba
                         (history ++ [row_31]))
          = [].
Proof.
  split; [intros r Hr; apply (dates_le history 29) in Hr;
          [lia|vm_compute; reflexivity]|].
  split; [reflexivity|]. split; [reflexivity|].
  split; [vm_compute; reflexivity|].
  intros Model fit predict_proba model Hfit.
  assert (Hlen : (length history <? min_samples)%nat = false)
    by (vm_compute; reflexivity).
  split.
  - assert (Hdays : skipn min_train_days (unique_days (history ++ [row_30]))
                    = [30]) by (vm_compute; reflexivity).
    assert (Htrain : train_data (history ++ [row_30]) 30 = history)
      by (vm_compute; reflexivity).
    assert (Htest : test_data (history ++ [row_30]) 30 = [row_30])
      by (vm_compute; reflexivity).
    unfold apply_daily_ml_strategy, trades_list. rewrite Hdays.
    cbn [Forecast.walk]. unfold Forecast.day_step, fit_for.
    rewrite Htrain, Hlen, Hfit, Htest. reflexivity.
  - assert (Hdays : skipn min_train_days (unique_days (history ++ [row_31]))
                    = [31]) by (vm_compute; reflexivity).
    assert (Htrain : train_data (history ++ [row_31]) 31 = history)
      by (vm_compute; reflexivity).
    assert (Htest : test_data (history ++ [row_31]) 31 = [row_31])
      by (vm_compute; reflexivity).
    unfold apply_daily_ml_strategy, trades_list. rewrite Hdays.
    cbn [Forecast.walk]. unfold Forecast.day_step, fit_for.
    rewrite Htrain, Hlen, Hfit, Htest. reflexivity.
Qed.

(** The order of the table matters for the warm-up slice: with later days
    listed ahead of the history, day 28 is scored, and it is no longer
    scored once one of those later rows is moved from day 101 to day 100. *)
Lemma lookahead_needs_order :
  map (fun ir => signal (snd ir))
    (day_rows 28 (apply_daily_ml_strategy unit sample_fit hour_proba
                    (late_head ++ history))) = [1; -1; -1; -1]
  /\ returns (apply_daily_ml_strategy unit sample_fit hour_proba
                (late_head_mutated ++ history))
  /\ day_rows 28 (apply_daily_ml_strategy unit sample_fit hour_proba
                    (late_head_mutated ++ history)) = [].
Proof.
  split; [vm_compute; reflexivity|].
  split; [eexists; vm_compute; reflexivity|vm_compute; reflexivity].
Qed.

(** The labels of a whole run are distinct, hence so are its trade ids. *)
Lemma pipeline_ids_distinct :
  forall (Model : Type)
         (fit : list (list Q) -> list Z -> list (ext R) -> option Model)
         (predict_proba : Model -> list Q -> Q)
         (df : list Row) (df_results : list (Z * Scored)) (name : string),
    apply_daily_ml_strategy Model fit predict_proba df = inr df_results ->
    List.NoDup
      (map Store.trade_id (Convert.convert_to_trades df_results name)).
Proof.
  intros Model fit predict_proba df df_results name H.
  apply convert_to_trades_ids_nodup.
  exact (run_labels Model fit predict_proba df df_results H).
Qed.

(** Skip gating as the loop implements it: a run that returns has rows for
    a day exactly when the day lies beyond the first [min_train_days] = 30
    distinct days, its training set has at least [min_samples] = 100 rows
    and it has feature rows; 99 training rows skip the day, 100 do not; a
    skipped day adds nothing to [trades_list], yields no trade, and the
    loop goes on with the remaining days. *)
Lemma skip_gating :
  forall (Model : Type)
         (fit : list (list Q) -> list Z -> list (ext R) -> option Model)
         (predict_proba : Model -> list Q -> Q)
         (df : list Row) (d : Z),
    let run := apply_daily_ml_strategy Model fit predict_proba in
    returns (run df) ->
    (day_rows d (run df) <> []
     <-> In d (skipn 30 (unique_days df))
         /\ (100 <= length (train_data df d))%nat
         /\ test_data df d <> [])
    /\ (length (train_data df d) = 99%nat ->
        day_rows d (run df) = []
        /\ Convert.convert_to_trades (day_rows d (run df))
             Convert.default_strategy_name = [])
    /\ (In d (skipn 30 (unique_days df)) ->
        length (train_data df d) = 100%nat ->
        test_data df d <> [] -> day_rows d (run df) <> [])
    /\ (day_step Model fit predict_proba df d = None ->
        forall rest,
          walk Model fit predict_proba df (d :: rest)
          = walk Model fit predict_proba df rest).
Proof.
  intros Model fit predict_proba df d run [res Hres]. subst run.
  pose proof (emitted_iff Model fit predict_proba df d res Hres) as Hiff.
  change min_train_days with 30%nat in Hiff.
  change min_samples with 100%nat in Hiff.
  rewrite Hres. cbn [day_rows].
  split; [exact Hiff|]. split; [|split].
  - intros H99.
    assert (Hnone : List.filter (on_day d) res = []).
    { destruct (List.filter (on_day d) res) as [|x l] eqn:E; [reflexivity|].
      assert (Hne : x :: l <> []) by discriminate.
      apply Hiff in Hne as (_ & Hn & _). lia. }
    rewrite Hnone. split; reflexivity.
  - intros Hd H100 Ht. apply Hiff. split; [exact Hd|]. split; [lia|exact Ht].
  - intros Hnone rest. cbn [Forecast.walk]. now rewrite Hnone.
Qed.

(** C5 (failing input).  On thirty-one days of three rows each the only day
    beyond the warm-up, day 30, has feature rows but only 90 training rows;
    it is skipped, [trades_list] stays empty and [pd.concat] raises: the run
    aborts instead of returning a result without signals. *)
Theorem skipped_day_aborts_run :
  forall (Model : Type)
         (fit : list (list Q) -> list Z -> list (ext R) -> option Model)
         (predict_proba : Model -> list Q -> Q),
    skipn 30 (unique_days sparse_table) = [30]
    /\ length (train_data sparse_table 30) = 90%nat
    /\ length (test_data sparse_table 30) = 3%nat
    /\ day_step Model fit predict_proba sparse_table 30 = None
    /\ apply_daily_ml_strategy Model fit predict_proba sparse_table
       = inl ConcatValueError.
Proof.
  intros Model fit predict_proba.
  assert (Hdays : skipn 30 (unique_days sparse_table) = [30])
    by (vm_compute; reflexivity).
  assert (Htrain : length (train_data sparse_table 30) = 90%nat)
    by (vm_compute; reflexivity).
  assert (Hstep : day_step Model fit predict_proba sparse_table 30 = None).
  { unfold Forecast.day_step. rewrite Htrain. reflexivity. }
  split; [exact Hdays|]. split; [exact Htrain|].
  split; [vm_compute; reflexivity|]. split; [exact Hstep|].
  unfold apply_daily_ml_strategy, Forecast.trades_list.
  change min_train_days with 30%nat. rewrite Hdays.
  cbn [Forecast.walk]. now rewrite Hstep.
Qed.

End WalkForwardTheorems.

(** * Further properties of the code *)

(** ** Insertion into the trade table *)

Section InsertionFacts.
Import Frame Store Convert Props Ledger.

Lemma has_key_true (table : list Trade) (id : string) :
  has_key table id = true <-> In id (map trade_id table).
Proof.
  unfold has_key. rewrite List.existsb_exists, List.in_map_iff. split.
  - intros (u & Hu & He). apply String.eqb_eq in He. now exists u.
  - intros (u & He & Hu). exists u. split; [exact Hu|].
    now apply String.eqb_eq.
Qed.

Lemma insert_rows_inr (trades table table' : list Trade) :
  insert_rows table trades = inr table' ->
  table' = (table ++ trades)%list /\ insertable table trades.
Proof.
  revert table. induction trades as [|t rest IH]; intros table H.
  - cbn in H. injection H as <-. rewrite List.app_nil_r.
    split; [reflexivity|]. repeat split; [constructor|intros t []].
  - cbn [insert_rows] in H. unfold insert_row in H.
    destruct (check_constraints t) eqn:Ec; cbn [negb] in H; [|discriminate H].
    destruct (has_key table (trade_id t)) eqn:Ek; [discriminate H|].
    destruct (IH _ H) as [-> (Hc & Hnd & Hfresh)].
    split; [now rewrite <- List.app_assoc|].
    assert (Hnot : ~ In (trade_id t) (map trade_id table)).
    { intros Hin. apply has_key_true in Hin. congruence. }
    split; [cbn [forallb]; now rewrite Ec, Hc|]. split.
    + cbn [map]. constructor; [|exact Hnd].
      intros Hin. apply List.in_map_iff in Hin as (u & He & Hu).
      apply (Hfresh u Hu). rewrite List.map_app, He.
      apply List.in_or_app. right. now left.
    + intros u [<-|Hu]; [exact Hnot|].
      intros Hin. apply (Hfresh u Hu). rewrite List.map_app.
      apply List.in_or_app. now left.
Qed.

Lemma insert_rows_insertable (trades table : list Trade) :
  insertable table trades ->
  insert_rows table trades = inr (table ++ trades)%list.
Proof.
  revert table. induction trades as [|t rest IH];
    intros table (Hc & Hnd & Hfresh).
  - cbn. now rewrite List.app_nil_r.
  - cbn [forallb] in Hc. apply andb_true_iff in Hc as [Hct Hc].
    cbn [map] in Hnd. apply List.NoDup_cons_iff in Hnd as [Ht Hnd].
    cbn [insert_rows]. unfold insert_row. rewrite Hct. cbn [negb].
    rewrite (has_key_false table (trade_id t))
      by (apply Hfresh; now left).
    rewrite IH; [now rewrite <- List.app_assoc|].
    split; [exact Hc|]. split; [exact Hnd|].
    intros u Hu Hin. rewrite List.map_app in Hin.
    apply List.in_app_or in Hin as [Hin|[He|[]]].
    + apply (Hfresh u); [now right|exact Hin].
    + apply Ht. rewrite He. now apply List.in_map.
Qed.

Lemma insert_rows_no_format_error (trades table : list Trade) :
  insert_rows table trades <> inl FormatTypeError.
Proof.
  revert table. induction trades as [|t rest IH]; intros table;
    [discriminate|].
  cbn [insert_rows]. unfold insert_row.
  destruct (negb (check_constraints t)); [discriminate|].
  destruct (has_key table (trade_id t)); [discriminate|]. apply IH.
Qed.

(** X1.  [insert_trades_to_db] returns exactly when every new row passes
    the CHECK clauses, the new keys are distinct from each other and from
    the stored ones, and the table holds a row afterwards; it then has
    appended the rows in order and returns the new row count.  It raises
    the [TypeError] of the statistics block exactly when there is no row,
    stored or new. *)
Theorem insert_outcome :
  forall table trades : list Trade,
    ((exists r, insert_trades_to_db table trades = inr r)
     <-> insertable table trades /\ (table ++ trades)%list <> [])
    /\ (forall r, insert_trades_to_db table trades = inr r ->
          r = ((table ++ trades)%list, (length table + length trades)%nat))
    /\ (insert_trades_to_db table trades = inl FormatTypeError
        <-> table = [] /\ trades = []).
Proof.
  intros table trades. split; [split|split; [|split]].
  - intros (r & H). unfold insert_trades_to_db in H.
    destruct (insert_rows table trades) as [e|table'] eqn:E; [discriminate H|].
    apply insert_rows_inr in E as [-> Hins]. split; [exact Hins|].
    intros E. rewrite E in H. discriminate H.
  - intros [H Hne].
    rewrite (insert_trades_result _ _ _ (insert_rows_insertable _ _ H)).
    destruct (table ++ trades)%list; [contradiction|eauto].
  - intros r H. unfold insert_trades_to_db in H.
    destruct (insert_rows table trades) as [e|table'] eqn:E; [discriminate H|].
    apply insert_rows_inr in E as [-> _].
    destruct (statistics (table ++ trades)); [|discriminate H].
    injection H as <-. now rewrite List.length_app.
  - intros H. unfold insert_trades_to_db in H.
    destruct (insert_rows table trades) as [e|table'] eqn:E.
    + injection H as ->. now apply insert_rows_no_format_error in E.
    + apply insert_rows_inr in E as [-> _].
      destruct (table ++ trades)%list eqn:Ea; [|discriminate H].
      now apply List.app_eq_nil in Ea.
  - intros [-> ->]. reflexivity.
Qed.

(** X2.  A successful insertion keeps the primary key unique and keeps
    every stored row within the CHECK clauses. *)
Theorem insert_keeps_schema :
  forall (table trades table' : list Trade) (n : nat),
    List.NoDup (map trade_id table) -> checked table ->
    insert_trades_to_db table trades = inr (table', n) ->
    List.NoDup (map trade_id table') /\ checked table'.
Proof.
  intros table trades table' n Hnd Hc H. unfold insert_trades_to_db in H.
  destruct (insert_rows table trades) as [e|t'] eqn:E; [discriminate H|].
  destruct (statistics t'); [|discriminate H].
  injection H as <- _.
  apply insert_rows_inr in E as [-> (Hcheck & Hnew & Hfresh)]. split.
  - rewrite List.map_app. apply List.NoDup_app; [exact Hnd|exact Hnew|].
    intros id Hin Hin'. apply List.in_map_iff in Hin' as (u & <- & Hu).
    now apply (Hfresh u Hu).
  - unfold checked. apply List.Forall_app. split; [exact Hc|].
    apply List.Forall_forall. intros u Hu.
    exact (proj1 (List.forallb_forall _ _) Hcheck u Hu).
Qed.

Lemma insert_keeps_schema_witness :
  List.NoDup (map trade_id sample_table) /\ checked sample_table.
Proof.
  apply (insert_keeps_schema init_database sample_table sample_table 2%nat).
  - constructor.
  - constructor.
  - reflexivity.
Defined.

End InsertionFacts.

(** ** Conversion followed by insertion *)

Section LedgerFacts.
Import Frame Store Convert Props Ledger.

Lemma forallb_flat_map {A B} (f : B -> bool) (g : A -> list B) (l : list A) :
  forallb f (flat_map g l) = forallb (fun x => forallb f (g x)) l.
Proof.
  induction l as [|x l IH]; [reflexivity|].
  cbn [flat_map forallb]. now rewrite List.forallb_app, IH.
Qed.

Lemma convert_row_check (name : string) (idx : Z) (r : Scored) :
  forallb check_constraints (convert_row name idx r)
  = if ((signal r =? 1) || (signal r =? -1))%Z
    then ((0 <=? hour (row r)) && (hour (row r) <=? 23))%Z
    else true.
Proof.
  unfold convert_row.
  destruct (signal r =? 1)%Z; [|destruct (signal r =? -1)%Z];
    cbn [orb forallb]; unfold check_constraints;
    cbn [side delivery_hour]; try reflexivity;
    destruct (0 <=? hour (row r))%Z, (hour (row r) <=? 23)%Z; reflexivity.
Qed.

Lemma convert_checked (df : list (Z * Scored)) (name : string) :
  hours_in_range df
  <-> forallb check_constraints (convert_to_trades df name) = true.
Proof.
  unfold convert_to_trades, df_trades. rewrite forallb_flat_map.
  rewrite List.forallb_forall. unfold hours_in_range. split.
  - intros H ir Hir. apply List.filter_In in Hir as [Hir _].
    rewrite convert_row_check.
    destruct (signal (snd ir) =? 1)%Z eqn:E1;
      [|destruct (signal (snd ir) =? -1)%Z eqn:E2]; cbn [orb];
      try reflexivity.
    + apply Z.eqb_eq in E1. specialize (H ir Hir (or_introl E1)).
      apply andb_true_iff. split; [apply Z.leb_le|apply Z.leb_le]; lia.
    + apply Z.eqb_eq in E2. specialize (H ir Hir (or_intror E2)).
      apply andb_true_iff. split; [apply Z.leb_le|apply Z.leb_le]; lia.
  - intros H ir Hir Hs.
    assert (Hf : In ir (List.filter
                          (fun ir => negb (signal (snd ir) =? 0)%Z) df)).
    { apply List.filter_In. split; [exact Hir|].
      destruct Hs as [-> | ->]; reflexivity. }
    specialize (H ir Hf). rewrite convert_row_check in H.
    assert (Hb : ((signal (snd ir) =? 1) || (signal (snd ir) =? -1))%Z = true)
      by (destruct Hs as [-> | ->]; reflexivity).
    rewrite Hb in H. apply andb_true_iff in H as [H1 H2].
    apply Z.leb_le in H1, H2. lia.
Qed.

Lemma converted_insert_result (df : list (Z * Scored)) (name : string) :
  List.NoDup (map fst df) -> hours_in_range df ->
  insert_trades_to_db init_database (convert_to_trades df name)
  = match count_positions df with
    | O => inl FormatTypeError
    | S _ => inr (convert_to_trades df name, (2 * count_positions df)%nat)
    end.
Proof.
  intros Hnd Hh.
  destruct (insert_rows_distinct (convert_to_trades df name) init_database
              (convert_to_trades_ids_nodup df name Hnd)) as [_ Hok].
  apply (convert_checked df name) in Hh.
  rewrite (insert_trades_result _ _ _ (Hok Hh)).
  cbn [init_database List.app].
  destruct (count_positions df) as [|n] eqn:Ec.
  - apply (convert_to_trades_nil df name) in Ec. now rewrite Ec.
  - destruct (convert_to_trades df name) as [|t rest] eqn:E.
    + apply convert_to_trades_nil in E. lia.
    + now rewrite <- E, convert_to_trades_length, Ec.
Qed.

(** X3.  Signal rows under distinct labels whose hours lie in 0..23 are
    stored completely by a fresh table, two rows per long or short signal,
    when there is such a signal; when every signal is flat nothing is
    stored and the statistics block raises [TypeError].  If a long or short
    row has an hour outside 0..23 the insertion stops on a CHECK
    violation. *)
Theorem converted_trades_insert :
  forall (df : list (Z * Scored)) (name : string),
    List.NoDup (map fst df) ->
    (hours_in_range df -> (0 < count_positions df)%nat ->
     insert_trades_to_db init_database (convert_to_trades df name)
     = inr (convert_to_trades df name, (2 * count_positions df)%nat))
    /\ (hours_in_range df -> count_positions df = 0%nat ->
        insert_trades_to_db init_database (convert_to_trades df name)
        = inl FormatTypeError)
    /\ (~ hours_in_range df ->
        exists id,
          insert_trades_to_db init_database (convert_to_trades df name)
          = inl (CheckViolation id)).
Proof.
  intros df name Hnd.
  pose proof (convert_to_trades_ids_nodup df name Hnd) as Hids.
  destruct (insert_rows_distinct (convert_to_trades df name) init_database
              Hids) as [Hpk Hok].
  split; [|split].
  - intros Hh Hpos. rewrite (converted_insert_result df name Hnd Hh).
    destruct (count_positions df); [lia|reflexivity].
  - intros Hh Hzero. rewrite (converted_insert_result df name Hnd Hh).
    now rewrite Hzero.
  - intros Hh. unfold insert_trades_to_db.
    destruct (insert_rows init_database (convert_to_trades df name))
      as [[id|id|]|table'] eqn:E.
    + now exists id.
    + now destruct (Hpk id).
    + now apply insert_rows_no_format_error in E.
    + apply insert_rows_inr in E as [_ (Hc & _)].
      now apply (convert_checked df name) in Hc.
Qed.

Lemma converted_trades_insert_witness :
  insert_trades_to_db init_database
    (convert_to_trades sample_frame default_strategy_name)
  = inr (convert_to_trades sample_frame default_strategy_name, 4%nat).
Proof.
  apply (converted_trades_insert sample_frame default_strategy_name).
  - cbn. repeat constructor; cbn; intuition discriminate.
  - intros ir Hir _. cbn in Hir.
    destruct Hir as [<-|[<-|[<-|[]]]]; cbn; lia.
  - cbn. lia.
Defined.

End LedgerFacts.

(** ** The converted book: volumes and PnL *)

Section BookFacts.
Import Frame Store Convert Props Ledger.
Local Open Scope Q_scope.





End BookFacts.

(** ** Outcomes of the pipeline *)

Section PipelineFacts.
Import Binary64 Frame Forecast Store Convert Props Ledger.
Variable Model : Type.
Variable fit : list (list Q) -> list Z -> list (ext R) -> option Model.
Variable predict_proba : Model -> list Q -> Q.

Local Abbreviation run := (apply_daily_ml_strategy Model fit predict_proba).
Local Abbreviation day_step := (day_step Model fit predict_proba).
Local Abbreviation fit_for := (fit_for Model fit).

Lemma result_rows_in_table (df : list Row) (res : list (Z * Scored)) :
  run df = inr res ->
  forall ir, In ir res ->
    In (row (snd ir)) df
    /\ signal (snd ir) = signal_of (prob (snd ir)).
Proof.
  intros H [i s] His.
  apply run_returns in H as (frames & Hw & _ & ->).
  assert (Hs : In s (concat frames))
    by (apply (in_reset_index_from 0); now exists i).
  apply (in_walk _ _ _ _ _ _ _ Hw) in Hs as (d & scored & _ & Hstep & Hs).
  apply day_step_some in Hstep as (_ & _ & model & _ & ->).
  apply List.in_map_iff in Hs as (r & <- & Hr).
  apply List.filter_In in Hr as [Hr _]. cbn. split; [exact Hr|reflexivity].
Qed.

(** The loop ends on an exception only at a day whose fit raises. *)
Lemma walk_raises (df : list Row) (days : list Z) (e : Raised) :
  walk Model fit predict_proba df days = inl e ->
  e = FitError
  /\ exists d, In d days
       /\ (min_samples <= length (train_data df d))%nat
       /\ fit_for df d = None.
Proof.
  induction days as [|d days IH]; [discriminate|].
  cbn [Forecast.walk]. destruct (day_step df d) as [[e'|t]|] eqn:E.
  - intros [= <-]. apply day_step_raises in E as (Hn & Hf & ->).
    split; [reflexivity|]. exists d. cbn. auto.
  - destruct (walk Model fit predict_proba df days) as [e'|rest];
      [|discriminate].
    intros [= <-]. destruct (IH eq_refl) as (He & d' & Hd & H).
    split; [exact He|]. exists d'. cbn. auto.
  - intros H. destruct (IH H) as (He & d' & Hd & H').
    split; [exact He|]. exists d'. cbn. auto.
Qed.

(** X5.  On a feature table whose hours lie in 0..23 the pipeline never
    ends on an integrity error.  It ends on the exception of a fit only if
    the fit raises on a day beyond the warm-up with at least 100 training
    rows, on the concat [ValueError] only if every day beyond the warm-up
    is skipped, on the formatting [TypeError] exactly when days are scored
    but every signal is flat, and otherwise stores two trades per long or
    short signal. *)
Theorem main_outcomes :
  forall df_ml : list Row,
    (forall r, In r df_ml -> (0 <= hour r <= 23)%Z) ->
    match main_from_features Model fit predict_proba df_ml with
    | inl (StrategyError FitError) =>
        run df_ml = inl FitError
        /\ exists d, In d (skipn min_train_days (unique_days df_ml))
             /\ (min_samples <= length (train_data df_ml d))%nat
             /\ fit_for df_ml d = None
    | inl (StrategyError ConcatValueError) =>
        run df_ml = inl ConcatValueError
        /\ forall d, In d (skipn min_train_days (unique_days df_ml)) ->
             day_step df_ml d = None
    | inl (InsertionError FormatTypeError) =>
        exists res, run df_ml = inr res /\ count_positions res = 0%nat
    | inl (InsertionError _) => False
    | inr (table, total_trades) =>
        exists res,
          run df_ml = inr res
          /\ table = convert_to_trades res default_strategy_name
          /\ total_trades = (2 * count_positions res)%nat
          /\ (0 < count_positions res)%nat
    end.
Proof.
  intros df_ml Hh. unfold main_from_features.
  destruct (run df_ml) as [e|res] eqn:E.
  - unfold apply_daily_ml_strategy, Forecast.trades_list in E.
    destruct (walk Model fit predict_proba df_ml
                (skipn min_train_days (unique_days df_ml)))
      as [e'|[|f fs]] eqn:Ew; [| |discriminate E].
    + injection E as <-. destruct (walk_raises _ _ _ Ew) as (-> & Hd).
      split; [reflexivity|exact Hd].
    + injection E as <-. split; [reflexivity|].
      now apply walk_empty.
  - pose proof (run_labels Model fit predict_proba df_ml res E) as Hnd.
    assert (Hr : hours_in_range res).
    { intros ir Hir _. apply Hh.
      now apply (result_rows_in_table df_ml res E). }
    rewrite (converted_insert_result res default_strategy_name Hnd Hr).
    destruct (count_positions res) as [|n] eqn:Ec.
    + exists res. split; [reflexivity|exact Ec].
    + exists res. rewrite Ec. repeat split. lia.
Qed.

End PipelineFacts.

Section PipelineWitness.
Import Frame Forecast Store Convert Props Ledger.

Lemma main_outcomes_witness :
  match main_from_features unit sample_fit hour_proba (history ++ [row_30])
  with
  | inr (table, total_trades) => total_trades = 2%nat
  | inl _ => False
  end.
Proof.
  assert (Hh : forall r, In r (history ++ [row_30]) -> (0 <= hour r <= 23)%Z).
  { intros r Hr.
    pose proof (proj1 (List.forallb_forall
                  (fun r => (0 <=? hour r)%Z && (hour r <=? 23)%Z)
                  (history ++ [row_30])) eq_refl r Hr) as H.
    apply andb_true_iff in H as [H1 H2]. apply Z.leb_le in H1, H2. lia. }
  pose proof (main_outcomes unit sample_fit hour_proba (history ++ [row_30]) Hh)
    as H.
  assert (Hrun : apply_daily_ml_strategy unit sample_fit hour_proba
                   (history ++ [row_30])
                 = inr [(0%Z, score unit hour_proba tt row_30)])
    by (vm_compute; reflexivity).
  destruct (main_from_features unit sample_fit hour_proba (history ++ [row_30]))
    as [[[|]|[id|id|]]|[table n]] eqn:E.
  - destruct H as [H _]. rewrite Hrun in H. discriminate H.
  - destruct H as [H _]. rewrite Hrun in H. discriminate H.
  - exact H.
  - exact H.
  - destruct H as (res & Hres & Hc). rewrite Hrun in Hres.
    injection Hres as <-. vm_compute in Hc. discriminate Hc.
  - destruct H as (res & Hres & _ & -> & _). rewrite Hrun in Hres.
    injection Hres as <-. reflexivity.
Defined.

End PipelineWitness.

(** ** Hourly report: volume columns, missing hours and day totals *)

Section ReportFacts.
Import Store Report Props Terminal.
Local Open Scope Z_scope.

Lemma hour_range (t : Trade) :
  check_constraints t = true -> 0 <= delivery_hour t <= 23.
Proof.
  unfold check_constraints. intros Ht.
  apply andb_true_iff in Ht as [Ht H2].
  apply andb_true_iff in Ht as [_ H1]. lia.
Qed.

Lemma hourly_entries (table : list Trade) (trader : string) (day : Z) :
  checked table ->
  exists m,
    compute_hourly_pnl table trader day = Some m
    /\ covers m
    /\ forall h, 0 <= h <= 23 ->
         m !! h
         = Some (fold_left update_hour (hour_rows table trader day h)
                   zero_hour).
Proof.
  intros Hc. unfold compute_hourly_pnl.
  destruct (process_trades_lookup
              (select_trades table trader (Clock.date_isoformat day))
              init_hourly_data init_covers
              (select_trades_checked _ _ _ Hc)) as (m & Hrun & Hcov & Hlook).
  exists m. split; [exact Hrun|]. split; [exact Hcov|].
  intros h Hh. rewrite (Hlook h zero_hour).
  - unfold select_trades. rewrite filter_order_by_hour. reflexivity.
  - rewrite init_hourly_data_lookup.
    destruct (Z.leb_spec 0 h); destruct (Z.leb_spec h 23);
      try reflexivity; lia.
Qed.

Lemma volume_where_cons (p : Trade -> bool) (t : Trade) (rows : list Trade) :
  volume_where p (t :: rows)
  = if p t then (quantity t + volume_where p rows)%Q
    else volume_where p rows.
Proof.
  unfold volume_where. cbn [List.filter]. now destruct (p t).
Qed.

Lemma fold_update_volumes (rows : list Trade) (hd : HourData) :
  checked rows ->
  (buy_da_mw (fold_left update_hour rows hd)
   == buy_da_mw hd
      + volume_where (fun t => is_buy t && has_da t) rows)%Q
  /\ (sell_da_mw (fold_left update_hour rows hd)
      == sell_da_mw hd
         + volume_where (fun t => is_sell t && has_da t) rows)%Q
  /\ (buy_ida_mw (fold_left update_hour rows hd)
      == buy_ida_mw hd
         + volume_where
             (fun t => is_buy t && negb (has_da t) && has_id t) rows)%Q
  /\ (sell_ida_mw (fold_left update_hour rows hd)
      == sell_ida_mw hd
         + volume_where
             (fun t => is_sell t && negb (has_da t) && has_id t) rows)%Q.
Proof.
  revert hd. induction rows as [|t rest IH]; intros hd Hrows.
  - cbn [fold_left]. unfold volume_where. cbn. repeat split; ring.
  - apply List.Forall_cons_iff in Hrows as [Ht Hrest].
    cbn [fold_left].
    destruct (IH (update_hour hd t) Hrest) as (H1 & H2 & H3 & H4).
    rewrite H1, H2, H3, H4, !volume_where_cons.
    unfold update_hour, is_buy, is_sell, has_da, has_id.
    unfold check_constraints in Ht.
    destruct (String.eqb (side t) "buy") eqn:Eb;
      destruct (String.eqb (side t) "sell") eqn:Es.
    + apply String.eqb_eq in Eb, Es. rewrite Eb in Es. discriminate Es.
    + destruct (contains "_DA_" (trade_id t));
        destruct (contains "_ID_" (trade_id t));
        cbn; repeat split; ring.
    + destruct (contains "_DA_" (trade_id t));
        destruct (contains "_ID_" (trade_id t));
        cbn; repeat split; ring.
    + discriminate Ht.
Qed.





Lemma range_24 (h : Z) : In h (map Z.of_nat (seq 0 24)) <-> 0 <= h <= 23.
Proof.
  rewrite List.in_map_iff. split.
  - intros (n & <- & Hn). apply List.in_seq in Hn. lia.
  - intros Hh. exists (Z.to_nat h). split; [lia|]. apply List.in_seq. lia.
Qed.

Lemma totals_loop_fold (m : gmap Z HourData) (E : Z -> HourData)
    (hs : list Z) (acc : Totals) :
  (forall h, In h hs -> m !! h = Some (E h)) ->
  totals_loop m hs acc
  = Some (fold_left (fun a h => add_hour a h (E h)) hs acc).
Proof.
  revert acc. induction hs as [|h rest IH]; intros acc Hm; [reflexivity|].
  cbn [totals_loop fold_left]. rewrite (Hm h (or_introl eq_refl)).
  apply IH. intros k Hk. apply Hm. now right.
Qed.



Lemma zsum_plus (f g : Z -> Z) (hs : list Z) :
  fold_right Z.add 0 (map (fun h => f h + g h) hs)
  = fold_right Z.add 0 (map f hs) + fold_right Z.add 0 (map g hs).
Proof.
  induction hs as [|h rest IH]; cbn [map fold_right]; lia.
Qed.

Lemma zsum_pick (x a : Z) (hs : list Z) :
  fold_right Z.add 0 (map (fun h => if x =? h then a else 0) hs)
  = a * Z.of_nat (count_occ Z.eq_dec hs x).
Proof.
  induction hs as [|h rest IH]; cbn [map fold_right count_occ]; [lia|].
  rewrite IH. destruct (Z.eq_dec h x) as [->|Hne].
  - rewrite Z.eqb_refl. lia.
  - destruct (Z.eqb_spec x h); [congruence|lia].
Qed.

Lemma qsum_ext (f g : Z -> Q) (hs : list Z) :
  (forall h, f h == g h)%Q ->
  (fold_right Qplus 0 (map f hs) == fold_right Qplus 0 (map g hs))%Q.
Proof.
  intros H. induction hs as [|h rest IH]; cbn [map fold_right];
    [reflexivity|].
  now rewrite IH, H.
Qed.

Lemma qsum_plus (f g : Z -> Q) (hs : list Z) :
  (fold_right Qplus 0 (map (fun h => f h + g h) hs)
   == fold_right Qplus 0 (map f hs) + fold_right Qplus 0 (map g hs))%Q.
Proof.
  induction hs as [|h rest IH]; cbn [map fold_right]; [ring|].
  rewrite IH. ring.
Qed.

Lemma qsum_pick (x : Z) (a : Q) (hs : list Z) :
  (fold_right Qplus 0 (map (fun h => if x =? h then a else 0) hs)
   == a * inject_Z (Z.of_nat (count_occ Z.eq_dec hs x)))%Q.
Proof.
  induction hs as [|h rest IH]; cbn [map fold_right count_occ]; [ring|].
  rewrite IH. destruct (Z.eq_dec h x) as [->|Hne].
  - rewrite Z.eqb_refl, Nat2Z.inj_succ. unfold Z.succ.
    rewrite inject_Z_plus. ring.
  - destruct (Z.eqb_spec x h); [congruence|ring].
Qed.

Lemma count_once (x : Z) (hs : list Z) :
  List.NoDup hs -> In x hs -> count_occ Z.eq_dec hs x = 1%nat.
Proof.
  intros Hnd Hin.
  apply (proj1 (List.NoDup_count_occ' Z.eq_dec hs) Hnd x Hin).
Qed.

(** The rows of every hour of a list of distinct hours that covers the
    rows' hours partition the rows: counts add up. *)
Lemma count_partition (hs : list Z) (rows : list Trade) :
  List.NoDup hs ->
  (forall t, In t rows -> In (delivery_hour t) hs) ->
  fold_right Z.add 0
    (map (fun h =>
            Z.of_nat
              (length (List.filter (fun t => delivery_hour t =? h) rows)))
         hs)
  = Z.of_nat (length rows).
Proof.
  intros Hnd. induction rows as [|t rest IH]; intros Hin.
  - cbn [List.filter length]. clear.
    induction hs as [|h hs' IHh]; [reflexivity|].
    cbn [map fold_right]. now rewrite IHh.
  - transitivity
      (fold_right Z.add 0
         (map (fun h =>
                 (if delivery_hour t =? h then 1 else 0)
                 + Z.of_nat
                     (length
                        (List.filter (fun u => delivery_hour u =? h) rest)))
              hs)).
    { f_equal. apply List.map_ext. intros h. cbn [List.filter].
      destruct (delivery_hour t =? h); cbn [length]; lia. }
    rewrite zsum_plus, zsum_pick, IH.
    + rewrite (count_once _ _ Hnd (Hin t (or_introl eq_refl))).
      cbn [length]. lia.
    + intros u Hu. apply Hin. now right.
Qed.

(** ... and so do sums of a weight over the rows that pass a test. *)
Lemma weight_partition (w : Trade -> Q) (p : Trade -> bool) (hs : list Z)
    (rows : list Trade) :
  List.NoDup hs ->
  (forall t, In t rows -> In (delivery_hour t) hs) ->
  (fold_right Qplus 0
     (map (fun h =>
             fold_right Qplus 0
               (map w
                  (List.filter p
                     (List.filter (fun t => delivery_hour t =? h) rows))))
          hs)
   == fold_right Qplus 0 (map w (List.filter p rows)))%Q.
Proof.
  intros Hnd. induction rows as [|t rest IH]; intros Hin.
  - cbn [List.filter map fold_right].
    clear. induction hs as [|h hs' IHh]; cbn [map fold_right];
      [reflexivity|].
    rewrite IHh. ring.
  - rewrite (qsum_ext _
               (fun h =>
                  (if delivery_hour t =? h
                   then (if p t then w t else 0) else 0)
                  + fold_right Qplus 0
                      (map w
                         (List.filter p
                            (List.filter
                               (fun u => delivery_hour u =? h) rest))))%Q).
    2:{ intros h. cbn [List.filter].
        destruct (delivery_hour t =? h); cbn [List.filter];
          destruct (p t); cbn [map fold_right]; ring. }
    rewrite qsum_plus, qsum_pick, IH.
    + rewrite (count_once _ _ Hnd (Hin t (or_introl eq_refl))).
      cbn [List.filter]. destruct (p t); cbn [map fold_right];
        change (inject_Z (Z.of_nat 1)) with 1%Q; ring.
    + intros u Hu. apply Hin. now right.
Qed.

Lemma range_24_nodup : List.NoDup (map Z.of_nat (seq 0 24)).
Proof.
  apply List.NoDup_map_inv with (f := Z.to_nat).
  rewrite List.map_map.
  rewrite (List.map_ext _ (fun n => n)) by (intros n; apply Nat2Z.id).
  rewrite List.map_id. apply List.seq_NoDup.
Qed.

(** The totals after the loop over hours whose entries [E] are all zero
    when they hold no trade. *)
Lemma add_hours_spec (E : Z -> HourData) (hs : list Z) (acc : Totals) :
  (forall h, In h hs -> (num_trades (E h) >? 0) = false -> E h = zero_hour) ->
  let r := fold_left (fun a h => add_hour a h (E h)) hs acc in
  total_trades r
  = total_trades acc
    + fold_right Z.add 0 (map (fun h => num_trades (E h)) hs)
  /\ (total_buy_da r
      == total_buy_da acc
         + fold_right Qplus 0 (map (fun h => buy_da_mw (E h)) hs))%Q
  /\ (total_sell_da r
      == total_sell_da acc
         + fold_right Qplus 0 (map (fun h => sell_da_mw (E h)) hs))%Q
  /\ (total_buy_ida r
      == total_buy_ida acc
         + fold_right Qplus 0 (map (fun h => buy_ida_mw (E h)) hs))%Q
  /\ (total_sell_ida r
      == total_sell_ida acc
         + fold_right Qplus 0 (map (fun h => sell_ida_mw (E h)) hs))%Q
  /\ total_pnl r
     = fold_left (fun a h => Binary64.add a (pnl_eur (E h)))
         (List.filter (fun h => num_trades (E h) >? 0) hs) (total_pnl acc)
  /\ table_data r
     = (table_data acc
        ++ map (fun h => (hour_label h, num_trades (E h)))
             (List.filter (fun h => num_trades (E h) >? 0) hs))%list.
Proof.
  revert acc. induction hs as [|h rest IH]; intros acc Hq.
  - cbn [fold_left map fold_right List.filter].
    rewrite List.app_nil_r. repeat split; try ring.
  - cbn [fold_left].
    destruct (IH (add_hour acc h (E h))
                (fun k Hk => Hq k (or_intror Hk)))
      as (H0 & H1 & H2 & H3 & H4 & H5 & H6).
    cbv zeta. rewrite H0, H1, H2, H3, H4, H5, H6.
    cbn [map fold_right List.filter]. unfold add_hour.
    destruct (num_trades (E h) >? 0) eqn:Egt.
    + cbn [total_trades total_buy_da total_sell_da total_buy_ida
             total_sell_ida total_pnl table_data map].
      rewrite <- List.app_assoc. cbn [app fold_left].
      repeat split; try ring.
    + rewrite (Hq h (or_introl eq_refl) Egt).
      cbn [zero_hour num_trades buy_da_mw sell_da_mw buy_ida_mw sell_ida_mw
             pnl_eur].
      repeat split; try ring.
Qed.

Lemma fold_left_pointwise {A B : Type} (f g : A -> B -> A) (l : list B)
    (a : A) :
  (forall x y, f x y = g x y) -> fold_left f l a = fold_left g l a.
Proof.
  intros H. revert a. induction l as [|y l IH]; intros a; [reflexivity|].
  cbn [fold_left]. now rewrite H, IH.
Qed.

Lemma qsum_minus (f g : Z -> Q) (hs : list Z) :
  (fold_right Qplus 0 (map (fun h => f h - g h) hs)
   == fold_right Qplus 0 (map f hs) - fold_right Qplus 0 (map g hs))%Q.
Proof.
  induction hs as [|h rest IH]; cbn [map fold_right]; [ring|].
  rewrite IH. ring.
Qed.


Lemma day_trades_checked (table : list Trade) (trader : string) (day : Z) :
  checked table -> checked (day_trades table trader day).
Proof. intros Hc. unfold day_trades. now apply checked_filter. Qed.

Lemma filter_all_false {A : Type} (f : A -> bool) (l : list A) :
  (forall x, In x l -> f x = false) -> List.filter f l = [].
Proof.
  induction l as [|x rest IH]; intros H; [reflexivity|].
  cbn [List.filter]. rewrite (H x (or_introl eq_refl)).
  apply IH. intros y Hy. apply H. now right.
Qed.

(** The run of the report on a table that satisfies the CHECK clauses:
    the aggregation succeeds, the loop over the hours succeeds, and the
    totals are those of the trader's trades of the day. *)
Lemma report_run (table : list Trade) (trader : string) (day : Z) :
  checked table ->
  exists m totals,
    compute_hourly_pnl table trader day = Some m
    /\ totals_loop m (map Z.of_nat (seq 0 24)) zero_totals = Some totals
    /\ total_trades totals
       = Z.of_nat (length (day_trades table trader day))
    /\ (total_buy_da totals
        == volume_where (fun t => is_buy t && has_da t)
             (day_trades table trader day))%Q
    /\ (total_sell_da totals
        == volume_where (fun t => is_sell t && has_da t)
             (day_trades table trader day))%Q
    /\ (total_buy_ida totals
        == volume_where (fun t => is_buy t && negb (has_da t) && has_id t)
             (day_trades table trader day))%Q
    /\ (total_sell_ida totals
        == volume_where (fun t => is_sell t && negb (has_da t) && has_id t)
             (day_trades table trader day))%Q
    /\ total_pnl totals = day_pnl table trader day
    /\ table_data totals
       = map (fun h =>
                (hour_label h,
                 Z.of_nat (length (hour_rows table trader day h))))
           (List.filter
              (fun h => Z.of_nat (length (hour_rows table trader day h)) >? 0)
              (map Z.of_nat (seq 0 24))).
Proof.
  intros Hc.
  destruct (hourly_entries table trader day Hc) as (m & Hrun & _ & Hlook).
  set (E := fun h => fold_left update_hour (hour_rows table trader day h)
                       zero_hour).
  assert (Hrows : forall h, checked (hour_rows table trader day h)).
  { intros h. unfold hour_rows. now do 2 apply checked_filter. }
  assert (Hnum : forall h,
             num_trades (E h)
             = Z.of_nat (length (hour_rows table trader day h))).
  { intros h. unfold E. rewrite fold_update_count. reflexivity. }
  assert (Hquiet : forall h,
             In h (map Z.of_nat (seq 0 24)) ->
             (num_trades (E h) >? 0) = false -> E h = zero_hour).
  { intros h _ Hgt. rewrite Hnum in Hgt. unfold E.
    destruct (hour_rows table trader day h) as [|t rest]; [reflexivity|].
    cbn [length] in Hgt. rewrite Z.gtb_ltb in Hgt.
    apply Z.ltb_ge in Hgt. lia. }
  exists m, (fold_left (fun a h => add_hour a h (E h))
               (map Z.of_nat (seq 0 24)) zero_totals).
  split; [exact Hrun|]. split.
  { apply totals_loop_fold. intros h Hh. apply Hlook. now apply range_24. }
  destruct (add_hours_spec E (map Z.of_nat (seq 0 24)) zero_totals Hquiet)
    as (H0 & H1 & H2 & H3 & H4 & H5 & H6).
  cbv zeta in H0, H1, H2, H3, H4, H5, H6.
  assert (Hin : forall t,
             In t (day_trades table trader day) ->
             In (delivery_hour t) (map Z.of_nat (seq 0 24))).
  { intros t Ht. apply range_24, hour_range.
    pose proof (day_trades_checked table trader day Hc) as Hd.
    unfold checked in Hd. rewrite List.Forall_forall in Hd. now apply Hd. }
  assert (Hvol : forall (p : Trade -> bool) (col : HourData -> Q),
             (forall h, col (E h)
                        == volume_where p (hour_rows table trader day h))%Q ->
             (fold_right Qplus 0
                (map (fun h => col (E h)) (map Z.of_nat (seq 0 24)))
              == volume_where p (day_trades table trader day))%Q).
  { intros p col Hcol. rewrite (qsum_ext _ _ _ Hcol).
    exact (weight_partition quantity p _ (day_trades table trader day)
             range_24_nodup Hin). }
  assert (Hside : forall name : string,
             (fold_right Qplus 0
                (map (fun h => side_total name (hour_rows table trader day h))
                   (map Z.of_nat (seq 0 24)))
              == side_total name (day_trades table trader day))%Q).
  { intros name.
    exact (weight_partition (fun t => quantity t * price t)%Q
             (fun t => String.eqb (side t) name) _
             (day_trades table trader day) range_24_nodup Hin). }
  assert (Hcols : forall h,
             (buy_da_mw (E h)
              == volume_where (fun t => is_buy t && has_da t)
                   (hour_rows table trader day h))%Q
             /\ (sell_da_mw (E h)
                 == volume_where (fun t => is_sell t && has_da t)
                      (hour_rows table trader day h))%Q
             /\ (buy_ida_mw (E h)
                 == volume_where
                      (fun t => is_buy t && negb (has_da t) && has_id t)
                      (hour_rows table trader day h))%Q
             /\ (sell_ida_mw (E h)
                 == volume_where
                      (fun t => is_sell t && negb (has_da t) && has_id t)
                      (hour_rows table trader day h))%Q).
  { intros h. unfold E.
    destruct (fold_update_volumes _ zero_hour (Hrows h))
      as (V1 & V2 & V3 & V4).
    rewrite V1, V2, V3, V4.
    cbn [zero_hour buy_da_mw sell_da_mw buy_ida_mw sell_ida_mw].
    repeat split; ring. }
  split.
  { rewrite H0. cbn [zero_totals total_trades].
    rewrite (List.map_ext _ _ Hnum), Z.add_0_l.
    exact (count_partition _ (day_trades table trader day)
             range_24_nodup Hin). }
  split.
  { rewrite H1, (Hvol _ buy_da_mw (fun h => proj1 (Hcols h))).
    cbn [zero_totals total_buy_da]. ring. }
  split.
  { rewrite H2, (Hvol _ sell_da_mw (fun h => proj1 (proj2 (Hcols h)))).
    cbn [zero_totals total_sell_da]. ring. }
  split.
  { rewrite H3,
      (Hvol _ buy_ida_mw (fun h => proj1 (proj2 (proj2 (Hcols h))))).
    cbn [zero_totals total_buy_ida]. ring. }
  split.
  { rewrite H4,
      (Hvol _ sell_ida_mw (fun h => proj2 (proj2 (proj2 (Hcols h))))).
    cbn [zero_totals total_sell_ida]. ring. }
  split.
  { rewrite H5. cbn [zero_totals total_pnl]. unfold day_pnl.
    rewrite (List.filter_ext _
               (fun h => Z.of_nat (length (hour_rows table trader day h))
                         >? 0)).
    2:{ intros h. now rewrite Hnum. }
    apply fold_left_pointwise. intros a h. f_equal.
    unfold E. apply fold_update_pnl. }
  rewrite H6. cbn [zero_totals table_data app].
  rewrite (List.filter_ext _
             (fun h => Z.of_nat (length (hour_rows table trader day h)) >? 0)).
  2:{ intros h. now rewrite Hnum. }
  apply List.map_ext. intros h. now rewrite Hnum.
Qed.






(** X9. When the report prints a table on a table that satisfies the
    CHECK clauses, its rows are exactly the hours of 0..23 in which the
    trader has at least one trade on the day, in ascending order, each
    with its label [HH - HH+1] and its number of trades. *)
Theorem report_rows :
  forall (table : list Trade) (trader : string) (day : Z)
         (totals : Totals) (net : Q) (result : Verdict),
    checked table ->
    display_pnl_report table trader day = Printed totals net result ->
    table_data totals
    = map (fun h =>
             (hour_label h,
              Z.of_nat (length (hour_rows table trader day h))))
        (List.filter
           (fun h => Z.of_nat (length (hour_rows table trader day h)) >? 0)
           (map Z.of_nat (seq 0 24))).
Proof.
  intros table trader day totals net result Hc.
  destruct (report_run table trader day Hc)
    as (m & totals' & Hrun & Hloop & _ & _ & _ & _ & _ & _ & Htd).
  unfold display_pnl_report. rewrite Hrun, Hloop.
  destruct (table_data totals') eqn:Etd; [discriminate|].
  intros Heq. injection Heq as <- _ _. now rewrite Etd.
Qed.

Lemma report_rows_witness :
  exists totals net result,
    display_pnl_report sample_table "trader_1" 18793
    = Printed totals net result
    /\ table_data totals = [("13 - 14"%string, 2)].
Proof.
  assert (Hc : checked sample_table) by (repeat constructor).
  destruct (display_pnl_report sample_table "trader_1" 18793)
    as [| | |totals net result] eqn:E;
    try (exfalso; vm_compute in E; discriminate E).
  exists totals, net, result. split; [reflexivity|].
  rewrite (report_rows sample_table "trader_1" 18793 totals net result Hc E).
  vm_compute. reflexivity.
Defined.

End ReportFacts.

(** ** Leg markers against the aggregator's volume columns *)

Section LegVolumeFacts.
Import Frame Store Convert Report Props Ledger Terminal.
Local Open Scope Z_scope.

(** When every row has a side and exactly one marker, the four classes of
    the aggregator partition the rows. *)
Lemma volume_partition (rows : list Trade) :
  (forall t, In t rows ->
     (markers t = (true, false) \/ markers t = (false, true))
     /\ (side t = "buy"%string \/ side t = "sell"%string)) ->
  (volume_where (fun t => is_buy t && has_da t) rows
   + volume_where (fun t => is_sell t && has_da t) rows
   + volume_where (fun t => is_buy t && negb (has_da t) && has_id t) rows
   + volume_where (fun t => is_sell t && negb (has_da t) && has_id t) rows
   == volume_where (fun _ => true) rows)%Q.
Proof.
  induction rows as [|t rest IH]; intros H.
  - unfold volume_where. cbn. ring.
  - rewrite !volume_where_cons.
    assert (IH' := IH (fun u Hu => H u (or_intror Hu))).
    destruct (H t (or_introl eq_refl)) as [Hm Hs].
    assert (Hda : has_da t = fst (markers t)) by reflexivity.
    assert (Hid : has_id t = snd (markers t)) by reflexivity.
    assert (Hb : is_buy t = String.eqb (side t) "buy") by reflexivity.
    assert (Hl : is_sell t = String.eqb (side t) "sell") by reflexivity.
    rewrite Hda, Hid, Hb, Hl.
    destruct Hm as [-> | ->]; destruct Hs as [-> | ->];
      cbn [fst snd String.eqb Ascii.eqb Bool.eqb andb negb];
      rewrite <- IH'; ring.
Qed.

Lemma converted_shape (df : list (Z * Scored)) (name : string) (t : Trade) :
  In t (convert_to_trades df name) ->
  (markers t = (true, false) \/ markers t = (false, true))
  /\ (side t = "buy"%string \/ side t = "sell"%string).
Proof.
  intros Ht. apply in_convert_to_trades in Ht as (idx & r & _ & Ht).
  exact (convert_row_shape name idx r t Ht).
Qed.

(** C10.  In any frame of signal rows the two trades of a long or short
    row, which stand between the trades of the rows before it and those of
    the rows after it, are told apart by the aggregator's substring tests:
    the day-ahead leg contains "_DA_" and not "_ID_", the intraday leg
    "_ID_" and not "_DA_"; the update made for either leg adds its
    (non-zero) quantity to exactly one of the four volume columns, the one
    of its side and market, and to no other.  Every trade of the frame
    carries exactly one of the two markers.  Hence, with delivery hours in
    0..23, the report that the aggregator computes over the frame's trades
    has, for every trader, day and hour, four volume columns that are the
    sums over the hour's day-ahead buys, day-ahead sells, intraday buys and
    intraday sells, and that add up to the total quantity of the hour's
    trades: no leg is dropped or counted twice. *)
Theorem leg_marker_total :
  forall (df : list (Z * Scored)) (name : string),
    hours_in_range df ->
    (forall (before after : list (Z * Scored)) (idx : Z) (r : Scored),
        df = (before ++ (idx, r) :: after)%list ->
        signal r = 1%Z \/ signal r = (-1)%Z ->
        exists da id : Trade,
          convert_to_trades df name
          = (convert_to_trades before name
               ++ [da; id] ++ convert_to_trades after name)%list
          /\ markers da = (true, false)
          /\ markers id = (false, true)
          /\ booked_in
               (if String.eqb (side da) "buy" then BuyDA else SellDA) da
          /\ booked_in
               (if String.eqb (side id) "buy" then BuyIDA else SellIDA) id
          /\ ~ (quantity da == 0)%Q /\ ~ (quantity id == 0)%Q)
    /\ (forall t : Trade,
          In t (convert_to_trades df name) ->
          markers t = (true, false) \/ markers t = (false, true))
    /\ (forall (trader : string) (day h : Z),
          0 <= h <= 23 ->
          exists hd : HourData,
            hour_entry (convert_to_trades df name) trader day h = Some hd
            /\ (volume BuyDA hd
                == volume_where (fun t => is_buy t && has_da t)
                     (hour_rows (convert_to_trades df name) trader day h))%Q
            /\ (volume SellDA hd
                == volume_where (fun t => is_sell t && has_da t)
                     (hour_rows (convert_to_trades df name) trader day h))%Q
            /\ (volume BuyIDA hd
                == volume_where (fun t => is_buy t && has_id t)
                     (hour_rows (convert_to_trades df name) trader day h))%Q
            /\ (volume SellIDA hd
                == volume_where (fun t => is_sell t && has_id t)
                     (hour_rows (convert_to_trades df name) trader day h))%Q
            /\ (volume BuyDA hd + volume SellDA hd
                + volume BuyIDA hd + volume SellIDA hd
                == volume_where (fun _ => true)
                     (hour_rows (convert_to_trades df name) trader day h))%Q).
Proof.
  intros df name Hh. split; [|split].
  - intros before after idx r -> Hs.
    destruct (convert_row_legs name idx r Hs)
      as (da & id & Hl & Hda & Hid & Hbda & Hbid & Hq).
    exists da, id. split; [|tauto].
    now rewrite convert_to_trades_middle, Hl.
  - intros t Ht. exact (proj1 (converted_shape df name t Ht)).
  - intros trader day h Hhour.
    set (table := convert_to_trades df name).
    assert (Hc : checked table).
    { unfold checked. apply List.Forall_forall. intros t Ht.
      apply (convert_checked df name) in Hh.
      exact (proj1 (List.forallb_forall _ _) Hh t Ht). }
    destruct (hourly_entries table trader day Hc) as (m & Hrun & _ & Hlook).
    exists (fold_left update_hour (hour_rows table trader day h) zero_hour).
    split; [unfold hour_entry; rewrite Hrun; now apply Hlook|].
    assert (Hrows : checked (hour_rows table trader day h)).
    { unfold hour_rows. now do 2 apply checked_filter. }
    assert (Hshape : forall t, In t (hour_rows table trader day h) ->
               (markers t = (true, false) \/ markers t = (false, true))
               /\ (side t = "buy"%string \/ side t = "sell"%string)).
    { intros t Ht. apply (converted_shape df name). unfold hour_rows in Ht.
      apply List.filter_In in Ht as [Ht _].
      now apply List.filter_In in Ht as [Ht _]. }
    assert (Hida : forall p : Trade -> bool,
               volume_where (fun t => p t && negb (has_da t) && has_id t)
                 (hour_rows table trader day h)
               = volume_where (fun t => p t && has_id t)
                   (hour_rows table trader day h)).
    { intros p. unfold volume_where. f_equal. f_equal.
      apply List.filter_ext_in. intros t Ht.
      destruct (Hshape t Ht) as [Hm _]. unfold markers in Hm.
      unfold has_da, has_id.
      destruct Hm as [[= -> ->]|[= -> ->]]; destruct (p t); reflexivity. }
    pose proof (volume_partition _ Hshape) as Hsum.
    destruct (fold_update_volumes _ zero_hour Hrows) as (V1 & V2 & V3 & V4).
    cbn [zero_hour buy_da_mw sell_da_mw buy_ida_mw sell_ida_mw]
      in V1, V2, V3, V4.
    cbn [volume]. rewrite V1, V2, V3, V4, <- Hsum, !Hida.
    repeat split; ring.
Qed.

Lemma leg_marker_total_witness :
  exists hd : HourData,
    hour_entry (convert_to_trades sample_frame "ML_Daily_XGBoost")
      "strategy_ml_daily" 18793 13 = Some hd
    /\ (volume BuyDA hd + volume SellDA hd
        + volume BuyIDA hd + volume SellIDA hd == 200)%Q.
Proof.
  assert (Hh : hours_in_range sample_frame).
  { intros ir Hir _. cbn in Hir.
    destruct Hir as [<-|[<-|[<-|[]]]]; cbn; lia. }
  destruct (leg_marker_total sample_frame "ML_Daily_XGBoost" Hh)
    as (_ & _ & H).
  destruct (H "strategy_ml_daily"%string 18793 13 ltac:(lia))
    as (hd & Hhd & _ & _ & _ & _ & Hsum).
  exists hd. split; [exact Hhd|]. rewrite Hsum. vm_compute. reflexivity.
Defined.

End LegVolumeFacts.

(** ** Dashboard metrics against the terminal report *)

Section DashboardFacts.
Import Store Report Props Terminal Dashboard.
Local Open Scope Z_scope.












(** A cached frame outlives a change of the table: after a first load on
    an empty table the dashboard of the sample table still has no trade in
    hour 13. *)
Lemma dashboard_stale_frame :
  let cache := snd (load_trader_data [] [] "trader_1" 18793) in
  fst (load_trader_data cache sample_table "trader_1" 18793) = []
  /\ read_sql_query sample_table "trader_1" 18793 <> [].
Proof. split; [reflexivity|discriminate]. Qed.

End DashboardFacts.

(** ** The trade API *)

Section ApiFacts.
Import Api.
Local Open Scope Z_scope.

Lemma api_has_key_iff (table : list Row) (id : string) :
  has_key table id = true <-> In id (map trade_id table).
Proof.
  unfold has_key. rewrite List.existsb_exists, List.in_map_iff. split.
  - intros (u & Hu & He). apply String.eqb_eq in He. now exists u.
  - intros (u & He & Hu). exists u. split; [exact Hu|].
    now apply String.eqb_eq.
Qed.

Lemma api_has_key_false (table : list Row) (id : string) :
  has_key table id = false <-> ~ In id (map trade_id table).
Proof.
  rewrite <- api_has_key_iff. now destruct (has_key table id).
Qed.


Lemma find_absent (table : list Row) (id : string) :
  ~ In id (map trade_id table) ->
  List.find (fun r => String.eqb (trade_id r) id) table = None.
Proof.
  induction table as [|r rest IH]; intros Hn; [reflexivity|].
  cbn [List.find]. destruct (String.eqb_spec (trade_id r) id) as [He|_].
  - exfalso. apply Hn. now left.
  - apply IH. intros Hin. apply Hn. now right.
Qed.

Lemma find_present (table : list Row) (id : string) :
  In id (map trade_id table) ->
  exists r, List.find (fun r => String.eqb (trade_id r) id) table = Some r
            /\ In r table /\ trade_id r = id.
Proof.
  induction table as [|r rest IH]; intros Hin; [destruct Hin|].
  cbn [List.find]. destruct (String.eqb_spec (trade_id r) id) as [He|Hne].
  - exists r. split; [reflexivity|]. split; [now left|exact He].
  - destruct Hin as [He|Hin]; [contradiction|].
    destruct (IH Hin) as (u & Hf & Hu & Hid).
    exists u. split; [exact Hf|]. split; [now right|exact Hid].
Qed.


Lemma kept_ids (table : list Row) (id x : string) :
  In x (map trade_id
          (List.filter (fun r => negb (String.eqb (trade_id r) id)) table))
  <-> In x (map trade_id table) /\ x <> id.
Proof.
  rewrite !List.in_map_iff. split.
  - intros (r & <- & Hr). apply List.filter_In in Hr as [Hr Hne].
    split; [now exists r|].
    destruct (String.eqb_spec (trade_id r) id); [discriminate Hne|assumption].
  - intros [(r & <- & Hr) Hne]. exists r. split; [reflexivity|].
    apply List.filter_In. split; [exact Hr|].
    now destruct (String.eqb_spec (trade_id r) id).
Qed.

Lemma kept_nodup (table : list Row) (id : string) :
  List.NoDup (map trade_id table) ->
  List.NoDup
    (map trade_id
       (List.filter (fun r => negb (String.eqb (trade_id r) id)) table)).
Proof.
  induction table as [|r rest IH]; intros Hnd; [constructor|].
  cbn [map] in Hnd. apply List.NoDup_cons_iff in Hnd as [Hn Hnd].
  cbn [List.filter].
  destruct (negb (String.eqb (trade_id r) id)); [|now apply IH].
  cbn [map]. constructor; [|now apply IH].
  intros Hin. apply kept_ids in Hin. now destruct Hin.
Qed.

Lemma rowcount_zero (table : list Row) (id : string) :
  (length table
   - length (List.filter (fun r => negb (String.eqb (trade_id r) id)) table)
   = 0)%nat
  <-> ~ In id (map trade_id table).
Proof.
  induction table as [|r rest IH]; [cbn; tauto|].
  pose proof (List.filter_length_le
                (fun r => negb (String.eqb (trade_id r) id)) rest) as Hle.
  cbn [List.filter map In length].
  destruct (String.eqb_spec (trade_id r) id) as [He|Hne]; cbn [negb length].
  - split; [lia|]. intros Hn. exfalso. apply Hn. now left.
  - rewrite Nat.sub_succ, IH. tauto.
Qed.

Lemma handle_keeps_schema (db : Db) (ev : Event) :
  schema_ok (rows db) -> schema_ok (rows (handle db ev)).
Proof.
  intros [Hnd Hck]. destruct ev as [now trade|id|]; cbn [handle].
  - unfold create_trade. destruct (locked db); cbn [snd]; [now split|].
    destruct (negb (check_constraints (new_row now trade))) eqn:Ec;
      cbn [orb snd rows]; [now split|].
    destruct (has_key (rows db) (trade_id (new_row now trade))) eqn:Ek;
      cbn [snd rows]; [now split|].
    apply negb_false_iff in Ec. apply api_has_key_false in Ek. split.
    + rewrite List.map_app. apply List.NoDup_app; [exact Hnd| |].
      * cbn [map]. constructor; [intros []|constructor].
      * intros a Ha [<-|[]]. now apply Ek.
    + apply List.Forall_app. split; [exact Hck|]. now constructor.
  - unfold delete_trade. destruct (locked db); cbn [snd]; [now split|].
    destruct (length (rows db)
              - length (List.filter
                          (fun r => negb (String.eqb (trade_id r) id))
                          (rows db))
              =? 0)%nat; cbn [snd rows]; [now split|].
    split; [now apply kept_nodup|].
    rewrite List.Forall_forall in Hck |- *. intros r Hr.
    apply List.filter_In in Hr as [Hr _]. now apply Hck.
  - now split.
Qed.

(** X11. Whatever sequence of POST and DELETE requests the API serves,
    with the garbage collector running at any points in between, starting
    from a database in which trade ids are unique and the two CHECK clauses
    hold, the table it leaves has unique trade ids and rows that satisfy
    the CHECK clauses. *)
Theorem api_keeps_schema :
  forall (db : Db) (events : list Event),
    schema_ok (rows db) -> schema_ok (rows (serve db events)).
Proof.
  intros db events. revert db.
  induction events as [|ev rest IH]; intros db Hok; [exact Hok|].
  cbn [serve fold_left]. apply IH. now apply handle_keeps_schema.
Qed.

Lemma api_keeps_schema_witness :
  schema_ok
    (rows (serve fresh
             [Post sample_now sample_body; Post sample_now sample_body;
              Collect; Delete "trader1_20210614_130000_250000"])).
Proof.
  apply (api_keeps_schema fresh _).
  split; constructor.
Defined.



(** After a 409 every POST and DELETE answers 500 and changes nothing,
    until the garbage collector has run. *)
Lemma conflict_locks_writes :
  let db := snd (create_trade fresh sample_now sample_body) in
  let db' := snd (create_trade db sample_now sample_body) in
  fst (create_trade db sample_now sample_body) = HTTPException 409
  /\ fst (create_trade db' sample_now sample_body) = HTTPException 500
  /\ delete_trade db' "trader1_20210614_130000_250000"
     = (HTTPException 500, db')
  /\ fst (delete_trade (handle db' Collect)
            "trader1_20210614_130000_250000")
     = Success "trader1_20210614_130000_250000"%string.
Proof. repeat split; vm_compute; reflexivity. Qed.

(** X13. [delete_trade] answers 500 and changes nothing while a
    connection left open holds the write lock.  Otherwise it answers 404
    and leaves the table as it was exactly when no stored row has the id;
    otherwise it succeeds, after which [get_trade] answers 404 for that id
    and answers for every other id what it answered before. *)
Theorem delete_trade_outcome :
  forall (db : Db) (id : string),
    (locked db = true
     /\ delete_trade db id = (HTTPException 500, db))
    \/ (locked db = false
        /\ ~ In id (map trade_id (rows db))
        /\ delete_trade db id = (HTTPException 404, db)
        /\ get_trade db id = HTTPException 404)
    \/ (locked db = false
        /\ In id (map trade_id (rows db))
        /\ exists db' : Db,
             delete_trade db id = (Success id, db')
             /\ locked db' = false
             /\ get_trade db' id = HTTPException 404
             /\ forall id' : string,
                  id' <> id -> get_trade db' id' = get_trade db id').
Proof.
  intros db id. unfold delete_trade.
  destruct (locked db); [left; now split|right].
  pose proof (rowcount_zero (rows db) id) as Hz.
  destruct (length (rows db)
            - length (List.filter
                        (fun r => negb (String.eqb (trade_id r) id))
                        (rows db))
            =? 0)%nat eqn:E.
  - left. apply Nat.eqb_eq in E. apply Hz in E.
    split; [reflexivity|]. split; [exact E|]. split; [reflexivity|].
    unfold get_trade. now rewrite (find_absent (rows db) id E).
  - right. apply Nat.eqb_neq in E.
    assert (Hin : In id (map trade_id (rows db))).
    { destruct (List.in_dec String.string_dec id (map trade_id (rows db)))
        as [Hin|Hn]; [exact Hin|].
      exfalso. apply E, Hz, Hn. }
    split; [reflexivity|]. split; [exact Hin|].
    eexists. split; [reflexivity|]. split; [reflexivity|]. split.
    + unfold get_trade. cbn [rows]. rewrite find_absent; [reflexivity|].
      intros Hk. apply kept_ids in Hk. now destruct Hk.
    + intros id' Hne. unfold get_trade. cbn [rows]. f_equal.
      clear Hz E Hin.
      induction (rows db) as [|r rest IH]; [reflexivity|].
      cbn [List.filter List.find].
      destruct (String.eqb_spec (trade_id r) id) as [He|Hr]; cbn [negb].
      * destruct (String.eqb_spec (trade_id r) id') as [He'|_];
          [congruence|exact IH].
      * cbn [List.find]. destruct (String.eqb (trade_id r) id');
          [reflexivity|exact IH].
Qed.

Lemma length_pad6 (n : Z) : String.length (pad6 n) = 6%nat.
Proof. reflexivity. Qed.

Lemma length_api_strftime (t : DateTime) :
  String.length (Api.strftime t) = 22%nat.
Proof.
  unfold Api.strftime.
  rewrite !string_length_app, length_strftime, length_pad6. reflexivity.
Qed.

Lemma digit_mod (a b : Z) :
  Clock.digit a = Clock.digit b -> a mod 10 = b mod 10.
Proof.
  unfold Clock.digit.
  pose proof (Z.mod_pos_bound a 10 eq_refl) as Ha.
  pose proof (Z.mod_pos_bound b 10 eq_refl) as Hb.
  destruct (a mod 10) as [|p|p] eqn:Ea; [| |lia];
    destruct (b mod 10) as [|q|q] eqn:Eb; try lia;
    try (do 4 (try destruct p as [p|p|]); try lia;
         do 4 (try destruct q as [q|q|]); try lia;
         intros H; try discriminate H; reflexivity).
Qed.

Lemma pad6_inj (n m : Z) :
  0 <= n < 1000000 -> 0 <= m < 1000000 -> pad6 n = pad6 m -> n = m.
Proof.
  intros Hn Hm H. unfold pad6, Clock.pad4, Clock.pad2 in H.
  injection H as H5 H4 H3 H2 H1 H0.
  apply digit_mod in H5, H4, H3, H2, H1, H0.
  Z.to_euclidean_division_equations. lia.
Qed.

Lemma string_cons_inj (c : ascii) (a b : string) :
  String c a = String c b -> a = b.
Proof. intros H. now injection H. Qed.

Lemma generated_id_parts (a b : string) (t u : DateTime) :
  generate_trade_id a t = generate_trade_id b u ->
  a = b
  /\ Clock.strftime (seconds t) = Clock.strftime (seconds u)
  /\ pad6 (microsecond t) = pad6 (microsecond u).
Proof.
  intros H. unfold generate_trade_id in H.
  assert (Hlen : String.length a = String.length b).
  { apply (f_equal String.length) in H.
    rewrite !string_length_app, !length_api_strftime in H. lia. }
  destruct (app_inj_length _ _ _ _ Hlen H) as [Hab Hs].
  split; [exact Hab|].
  rewrite !app_cons, !app_empty in Hs. apply string_cons_inj in Hs.
  unfold Api.strftime in Hs.
  assert (Hl : String.length (Clock.strftime (seconds t))
               = String.length (Clock.strftime (seconds u)))
    by now rewrite !length_strftime.
  destruct (app_inj_length _ _ _ _ Hl Hs) as [Hsec Hus].
  split; [exact Hsec|].
  rewrite !app_cons, !app_empty in Hus. now apply string_cons_inj in Hus.
Qed.

(** X14. Generated trade ids determine their inputs: two ids produced by
    [generate_trade_id] coincide only if the trader ids coincide, the
    timestamps format to the same second and, for microsecond fields in
    0..999999, the microseconds coincide. *)
Theorem generated_trade_id_inj :
  forall (a b : string) (t u : DateTime),
    0 <= microsecond t < 1000000 ->
    0 <= microsecond u < 1000000 ->
    generate_trade_id a t = generate_trade_id b u ->
    a = b
    /\ Clock.strftime (seconds t) = Clock.strftime (seconds u)
    /\ microsecond t = microsecond u.
Proof.
  intros a b t u Ht Hu H.
  destruct (generated_id_parts a b t u H) as (Hab & Hsec & Hus).
  split; [exact Hab|]. split; [exact Hsec|]. now apply pad6_inj.
Qed.

Lemma generated_trade_id_inj_witness :
  generate_trade_id "trader1" sample_now
  <> generate_trade_id "trader1" (mkDateTime 1623675600 250001).
Proof.
  intros H.
  assert (H1 : 0 <= microsecond sample_now < 1000000) by (cbn; lia).
  assert (H2 : 0 <= microsecond (mkDateTime 1623675600 250001) < 1000000)
    by (cbn; lia).
  destruct (generated_trade_id_inj _ _ _ _ H1 H2 H) as (_ & _ & Hus).
  discriminate Hus.
Defined.

End ApiFacts.

(** ** Battery revenue and the directional strategy *)

Section Task2Facts.
Import Task2.
Local Open Scope Q_scope.

Lemma insert_perm {A : Type} (leb : A -> A -> bool) (x : A) (l : list A) :
  Permutation (insert leb x l) (x :: l).
Proof.
  induction l as [|y rest IH]; cbn [insert]; [reflexivity|].
  destruct (leb x y); [reflexivity|].
  rewrite IH. apply perm_swap.
Qed.

Lemma sort_perm {A : Type} (leb : A -> A -> bool) (l : list A) :
  Permutation (sort leb l) l.
Proof.
  induction l as [|x rest IH]; [reflexivity|].
  cbn [sort fold_right]. fold (sort leb rest).
  rewrite insert_perm. now constructor.
Qed.

Lemma date_keys_in (dates : list Z) (d : Z) :
  In d (date_keys dates) <-> In d dates.
Proof.
  unfold date_keys. etransitivity; [|apply (List.nodup_In Z.eq_dec)].
  split; apply Permutation_in;
    [apply sort_perm|symmetry; apply sort_perm].
Qed.

Lemma date_keys_nodup (dates : list Z) : List.NoDup (date_keys dates).
Proof.
  unfold date_keys.
  apply (Permutation_NoDup (l := nodup Z.eq_dec dates)).
  - symmetry. apply sort_perm.
  - apply List.NoDup_nodup.
Qed.

Lemma hour_keys_in (df : list Quarter) (k : Z * Z) :
  In k (hour_keys df) <-> In k (map (fun r => (date r, hour r)) df).
Proof.
  unfold hour_keys. etransitivity; [|apply (List.nodup_In pair_eq_dec)].
  split; apply Permutation_in;
    [apply sort_perm|symmetry; apply sort_perm].
Qed.

Lemma nth_error_skipn_cons (l : list Q) (i : nat) (x : Q) :
  nth_error l i = Some x -> skipn i l = x :: skipn (S i) l.
Proof.
  revert l. induction i as [|i IH]; intros [|y l] H; try discriminate H.
  - injection H as ->. reflexivity.
  - cbn [nth_error] in H. change (skipn i l = x :: skipn (S i) l).
    now apply IH.
Qed.

Lemma nth_error_bound (l : list Q) (k : nat) (y : Q) :
  nth_error l k = Some y -> (k < length l)%nat.
Proof.
  intros H. apply List.nth_error_Some. congruence.
Qed.

(** The scan for the first least element, over the positions from
    [start] on. *)
Lemma idxmin_from_inv (prices : list Q) (start : nat) :
  forall (rest : list Q) (i best_i : nat) (best : Q),
    skipn i prices = rest ->
    nth_error prices best_i = Some best ->
    (start <= best_i < i)%nat ->
    (forall k y, (start <= k < i)%nat ->
                 nth_error prices k = Some y -> best <= y) ->
    (forall k y, (start <= k < best_i)%nat ->
                 nth_error prices k = Some y -> best < y) ->
    exists m : Q,
      nth_error prices (idxmin_from best_i best i rest) = Some m
      /\ (start <= idxmin_from best_i best i rest)%nat
      /\ (forall k y, (start <= k)%nat ->
                      nth_error prices k = Some y -> m <= y)
      /\ (forall k y, (start <= k < idxmin_from best_i best i rest)%nat ->
                      nth_error prices k = Some y -> m < y).
Proof.
  induction rest as [|x r IH]; intros i best_i best Hsk Hb Hi Hle Hlt.
  - cbn [idxmin_from]. exists best. split; [exact Hb|].
    split; [lia|]. split; [|exact Hlt].
    intros k y Hk Hy. apply (Hle k y); [|exact Hy].
    apply List.skipn_all_iff in Hsk.
    pose proof (nth_error_bound _ _ _ Hy). lia.
  - apply skipn_cons_inv in Hsk as [Hx Hsk]. cbn [idxmin_from].
    destruct (Qlt_le_dec x best) as [Hlt'|Hge].
    + apply (IH (S i) i x Hsk Hx); [lia| |].
      * intros k y Hk Hy. destruct (Nat.eq_dec k i) as [->|Hne].
        -- rewrite Hx in Hy. injection Hy as <-. lra.
        -- pose proof (Hle k y ltac:(lia) Hy). lra.
      * intros k y Hk Hy. pose proof (Hle k y ltac:(lia) Hy). lra.
    + apply (IH (S i) best_i best Hsk Hb); [lia| |exact Hlt].
      intros k y Hk Hy. destruct (Nat.eq_dec k i) as [->|Hne].
      * rewrite Hx in Hy. injection Hy as <-. exact Hge.
      * apply (Hle k y); [lia|exact Hy].
Qed.

(** The scan for the first greatest element. *)
Lemma idxmax_from_inv (prices : list Q) (start : nat) :
  forall (rest : list Q) (i best_i : nat) (best : Q),
    skipn i prices = rest ->
    nth_error prices best_i = Some best ->
    (start <= best_i < i)%nat ->
    (forall k y, (start <= k < i)%nat ->
                 nth_error prices k = Some y -> y <= best) ->
    (forall k y, (start <= k < best_i)%nat ->
                 nth_error prices k = Some y -> y < best) ->
    exists m : Q,
      nth_error prices (idxmax_from best_i best i rest) = Some m
      /\ (start <= idxmax_from best_i best i rest)%nat
      /\ (forall k y, (start <= k)%nat ->
                      nth_error prices k = Some y -> y <= m)
      /\ (forall k y, (start <= k < idxmax_from best_i best i rest)%nat ->
                      nth_error prices k = Some y -> y < m).
Proof.
  induction rest as [|x r IH]; intros i best_i best Hsk Hb Hi Hle Hlt.
  - cbn [idxmax_from]. exists best. split; [exact Hb|].
    split; [lia|]. split; [|exact Hlt].
    intros k y Hk Hy. apply (Hle k y); [|exact Hy].
    apply List.skipn_all_iff in Hsk.
    pose proof (nth_error_bound _ _ _ Hy). lia.
  - apply skipn_cons_inv in Hsk as [Hx Hsk]. cbn [idxmax_from].
    destruct (Qlt_le_dec best x) as [Hlt'|Hge].
    + apply (IH (S i) i x Hsk Hx); [lia| |].
      * intros k y Hk Hy. destruct (Nat.eq_dec k i) as [->|Hne].
        -- rewrite Hx in Hy. injection Hy as <-. lra.
        -- pose proof (Hle k y ltac:(lia) Hy). lra.
      * intros k y Hk Hy. pose proof (Hle k y ltac:(lia) Hy). lra.
    + apply (IH (S i) best_i best Hsk Hb); [lia| |exact Hlt].
      intros k y Hk Hy. destruct (Nat.eq_dec k i) as [->|Hne].
      * rewrite Hx in Hy. injection Hy as <-. exact Hge.
      * apply (Hle k y); [lia|exact Hy].
Qed.

(** The revenue of one day: bought at the first lowest price, sold at the
    first highest price from there on. *)
Lemma day_revenue_cases (prices : list Q) (capacity_mwh : Q) :
  prices <> [] ->
  exists (i j : nat) (buy sell : Q),
    day_revenue prices capacity_mwh = inr ((sell - buy) * capacity_mwh)
    /\ nth_error prices i = Some buy
    /\ nth_error prices j = Some sell
    /\ (i <= j)%nat
    /\ (forall k y, nth_error prices k = Some y -> buy <= y)
    /\ (forall k y, (k < i)%nat -> nth_error prices k = Some y -> buy < y)
    /\ (forall k y, (i <= k)%nat -> nth_error prices k = Some y -> y <= sell)
    /\ (forall k y, (i <= k < j)%nat ->
                    nth_error prices k = Some y -> y < sell).
Proof.
  destruct prices as [|x rest]; [contradiction|]. intros _.
  assert (Hle0 : forall k y, (0 <= k < 1)%nat ->
                             nth_error (x :: rest) k = Some y -> x <= y).
  { intros k y Hk Hy. assert (k = 0%nat) as -> by lia.
    injection Hy as <-. lra. }
  assert (Hlt0 : forall k y, (0 <= k < 0)%nat ->
                             nth_error (x :: rest) k = Some y -> x < y).
  { intros k y Hk. lia. }
  destruct (idxmin_from_inv (x :: rest) 0 rest 1 0 x eq_refl eq_refl
              ltac:(lia) Hle0 Hlt0)
    as (buy & Hbuy & _ & Hmin & Hfirst).
  set (i := idxmin_from 0 x 1 rest) in *.
  pose proof (nth_error_skipn_cons _ _ _ Hbuy) as Hsk.
  assert (Hle1 : forall k y, (i <= k < S i)%nat ->
                             nth_error (x :: rest) k = Some y -> y <= buy).
  { intros k y Hk Hy. assert (k = i) as -> by lia.
    rewrite Hbuy in Hy. injection Hy as <-. lra. }
  assert (Hlt1 : forall k y, (i <= k < i)%nat ->
                             nth_error (x :: rest) k = Some y -> y < buy).
  { intros k y Hk. lia. }
  destruct (idxmax_from_inv (x :: rest) i (skipn (S i) (x :: rest))
              (S i) i buy eq_refl Hbuy ltac:(lia) Hle1 Hlt1)
    as (sell & Hsell & Hij & Hmax & Hlast).
  set (j := idxmax_from i buy (S i) (skipn (S i) (x :: rest))) in *.
  exists i, j, buy, sell.
  split.
  { unfold day_revenue, idxmin. fold i. unfold idxmax_after.
    rewrite Hsk. fold j. unfold loc. now rewrite Hbuy, Hsell. }
  split; [exact Hbuy|]. split; [exact Hsell|]. split; [exact Hij|].
  split; [intros k y; apply Hmin; lia|].
  split; [intros k y Hk; apply Hfirst; lia|].
  split; [exact Hmax|exact Hlast].
Qed.

(** X15. The revenue of one day of the battery, for a non-empty series
    of hourly prices: the energy is bought at the first position that
    holds the day's lowest price and sold at the first position, at or
    after it, that holds the highest price from there on; the revenue is
    the price difference times the capacity and is never negative for a
    non-negative capacity. *)
Theorem day_revenue_spec :
  forall (prices : list Q) (capacity_mwh : Q),
    prices <> [] ->
    exists (i j : nat) (buy sell : Q),
      day_revenue prices capacity_mwh = inr ((sell - buy) * capacity_mwh)
      /\ nth_error prices i = Some buy
      /\ nth_error prices j = Some sell
      /\ (i <= j)%nat
      /\ (forall k y, nth_error prices k = Some y -> buy <= y)
      /\ (forall k y, (k < i)%nat -> nth_error prices k = Some y -> buy < y)
      /\ (forall k y, (i <= k)%nat ->
                      nth_error prices k = Some y -> y <= sell)
      /\ (forall k y, (i <= k < j)%nat ->
                      nth_error prices k = Some y -> y < sell)
      /\ (0 <= capacity_mwh -> 0 <= (sell - buy) * capacity_mwh).
Proof.
  intros prices capacity_mwh Hne.
  destruct (day_revenue_cases prices capacity_mwh Hne)
    as (i & j & buy & sell & H1 & H2 & H3 & H4 & H5 & H6 & H7 & H8).
  exists i, j, buy, sell. repeat (split; [assumption|]).
  intros Hc. apply Qmult_le_0_compat; [|exact Hc].
  pose proof (H7 i buy (Nat.le_refl i) H2). lra.
Qed.

Lemma day_revenue_spec_witness :
  exists (i j : nat) (buy sell : Q),
    day_revenue [50; 30; 70; 30; 60] 1 = inr ((sell - buy) * 1)
    /\ nth_error [50; 30; 70; 30; 60] i = Some buy
    /\ nth_error [50; 30; 70; 30; 60] j = Some sell
    /\ (i <= j)%nat.
Proof.
  destruct (day_revenue_spec [50; 30; 70; 30; 60] 1 ltac:(discriminate))
    as (i & j & buy & sell & H1 & H2 & H3 & H4 & _).
  exists i, j, buy, sell. auto.
Defined.
Lemma sum_nonneg (l : list Q) : (forall r, In r l -> 0 <= r) -> 0 <= sum l.
Proof.
  induction l as [|x rest IH]; intros H; unfold sum; cbn [fold_right].
  - lra.
  - pose proof (H x (or_introl eq_refl)).
    pose proof (IH (fun r Hr => H r (or_intror Hr))) as Hs.
    unfold sum in Hs. lra.
Qed.

Lemma day_prices_nonempty (hourly : list PriceRow) (d : Z) :
  In d (map price_date hourly) -> day_prices hourly d <> [].
Proof.
  intros Hin Hnil. apply List.in_map_iff in Hin as (row & Hd & Hrow).
  unfold day_prices in Hnil. apply List.map_eq_nil in Hnil.
  assert (Hf : In row (List.filter (fun r => (price_date r =? d)%Z) hourly)).
  { apply List.filter_In. split; [exact Hrow|]. now apply Z.eqb_eq. }
  apply (Permutation_in row
           (Permutation_sym
              (sort_perm (fun a b => (price_hour a <=? price_hour b)%Z) _)))
    in Hf.
  rewrite Hnil in Hf. destruct Hf.
Qed.

Lemma revenues_loop_ok (hourly : list PriceRow) (days : list Z)
    (capacity_mwh : Q) :
  0 <= capacity_mwh ->
  (forall d, In d days -> In d (map price_date hourly)) ->
  exists rs : list Q,
    revenues_loop hourly days capacity_mwh = inr rs
    /\ length rs = length days
    /\ forall r, In r rs -> 0 <= r.
Proof.
  intros Hc. induction days as [|d rest IH]; intros Hin.
  - exists []. cbn. split; [reflexivity|]. split; [reflexivity|].
    intros r [].
  - destruct (IH (fun x Hx => Hin x (or_intror Hx))) as (rs & Hrs & Hlen & Hpos).
    destruct (day_revenue_cases (day_prices hourly d) capacity_mwh
                (day_prices_nonempty hourly d (Hin d (or_introl eq_refl))))
      as (i & j & buy & sell & Hrev & Hb & _ & _ & _ & _ & Hmax & _).
    exists ((sell - buy) * capacity_mwh :: rs).
    cbn [revenues_loop]. rewrite Hrev, Hrs.
    split; [reflexivity|]. split; [cbn [length]; now rewrite Hlen|].
    intros r [<-|Hr]; [|now apply Hpos].
    apply Qmult_le_0_compat; [|exact Hc].
    pose proof (Hmax i buy (Nat.le_refl i) Hb). lra.
Qed.

Lemma hourly_prices_dates (df : list Quarter) (d : Z) :
  In d (map price_date (hourly_prices df)) <-> In d (map date df).
Proof.
  unfold hourly_prices. rewrite List.map_map. cbn [price_date].
  rewrite !List.in_map_iff. split.
  - intros (k & <- & Hk). apply hour_keys_in in Hk.
    apply List.in_map_iff in Hk as (r & <- & Hr). now exists r.
  - intros (r & <- & Hr). exists (date r, hour r). split; [reflexivity|].
    apply hour_keys_in. apply List.in_map_iff. now exists r.
Qed.

Lemma battery_days (df : list Quarter) :
  length (date_keys (map price_date (hourly_prices df)))
  = length (nodup Z.eq_dec (map date df)).
Proof.
  apply Permutation_length, Permutation.NoDup_Permutation.
  - apply date_keys_nodup.
  - apply List.NoDup_nodup.
  - intros d. rewrite date_keys_in, hourly_prices_dates.
    symmetry. apply List.nodup_In.
Qed.

(** X16. With a non-negative capacity [task2_6_battery_revenue] never
    fails on a non-empty frame, and raises [ZeroDivisionError] on the
    empty one; its total revenue and its average per day are never
    negative, and the average is the total divided by the number of
    distinct dates of the frame. *)
Theorem battery_revenue_outcome :
  forall (df : list Quarter) (capacity_mwh : Q),
    0 <= capacity_mwh ->
    (df = [] /\ task2_6_battery_revenue df capacity_mwh
                = inl ZeroDivisionError)
    \/ (df <> []
        /\ exists total avg : Q,
             task2_6_battery_revenue df capacity_mwh = inr (total, avg)
             /\ 0 <= total /\ 0 <= avg
             /\ avg
                == total
                   / inject_Z
                       (Z.of_nat
                          (length (nodup Z.eq_dec (map date df))))).
Proof.
  intros df capacity_mwh Hc.
  destruct df as [|q df']; [left; split; reflexivity|right].
  split; [discriminate|]. set (df := q :: df').
  assert (Hkeys : forall d,
             In d (date_keys (map price_date (hourly_prices df))) ->
             In d (map price_date (hourly_prices df))).
  { intros d Hd. exact (proj1 (date_keys_in _ d) Hd). }
  destruct (revenues_loop_ok (hourly_prices df)
              (date_keys (map price_date (hourly_prices df)))
              capacity_mwh Hc Hkeys) as (rs & Hrs & Hlen & Hpos).
  rewrite battery_days in Hlen.
  assert (Hdays : (0 < length (nodup Z.eq_dec (map date df)))%nat).
  { assert (Hin : In (date q) (nodup Z.eq_dec (map date df))).
    { apply List.nodup_In. now left. }
    destruct (nodup Z.eq_dec (map date df)); [destruct Hin|cbn; lia]. }
  unfold task2_6_battery_revenue. rewrite Hrs.
  destruct rs as [|r rs']; [cbn [length] in Hlen; lia|].
  exists (sum (r :: rs')),
    (sum (r :: rs') / inject_Z (Z.of_nat (length (r :: rs')))).
  split; [reflexivity|].
  pose proof (sum_nonneg (r :: rs') Hpos) as Hsum.
  split; [exact Hsum|]. split.
  - unfold Qdiv. apply Qmult_le_0_compat; [exact Hsum|].
    apply Qinv_le_0_compat.
    change 0 with (inject_Z 0). rewrite <- Zle_Qle. lia.
  - now rewrite Hlen.
Qed.

Lemma battery_revenue_outcome_witness :
  exists total avg : Q,
    task2_6_battery_revenue sample_quarters 1 = inr (total, avg)
    /\ 0 <= total /\ 0 <= avg.
Proof.
  assert (Hc : 0 <= 1) by lra.
  destruct (battery_revenue_outcome sample_quarters 1 Hc)
    as [[Hnil _]|(_ & total & avg & H1 & H2 & H3 & _)];
    [discriminate Hnil|].
  exists total, avg. auto.
Defined.




End Task2Facts.

(** ** The generated sample data *)

Section SampleFacts.
Import Store Report Props Terminal Sample.
Local Open Scope Z_scope.

Lemma in_sample_rows (today : Z) (num_days : nat) (traders : list string)
    (draws : nat -> string -> list Draw) (t : Trade) :
  In t (sample_rows today num_days traders draws)
  <-> exists (o : nat) (trader : string) (d : Draw),
        (o < num_days)%nat /\ In trader traders /\ In d (draws o trader)
        /\ t = sample_trade (today - Z.of_nat num_days + Z.of_nat o)
                 trader d.
Proof.
  unfold sample_rows. rewrite List.in_flat_map. split.
  - intros (o & Ho & Ht). apply List.in_seq in Ho.
    apply List.in_flat_map in Ht as (trader & Htr & Ht).
    apply List.in_map_iff in Ht as (d & <- & Hd).
    exists o, trader, d. repeat split; try assumption. lia.
  - intros (o & trader & d & Ho & Htr & Hd & ->).
    exists o. split; [apply List.in_seq; lia|].
    apply List.in_flat_map. exists trader. split; [exact Htr|].
    apply List.in_map_iff. now exists d.
Qed.

Lemma delivery_hour_of_range (d : Draw) :
  well_drawn d -> 0 <= delivery_hour_of d <= 23.
Proof.
  intros (Hh & Hp & _). unfold delivery_hour_of.
  destruct (peak_draw d) as [c|]; [|exact Hh].
  specialize (Hp c eq_refl). cbn [In] in Hp.
  intuition lia.
Qed.

Lemma sample_trade_check (day : Z) (trader : string) (d : Draw) :
  well_drawn d -> check_constraints (sample_trade day trader d) = true.
Proof.
  intros Hd. pose proof (delivery_hour_of_range d Hd) as Hh.
  destruct Hd as (_ & _ & Hs & _).
  unfold check_constraints, sample_trade. cbn [side delivery_hour].
  destruct (Z.leb_spec 0 (delivery_hour_of d)); [|lia].
  destruct (Z.leb_spec (delivery_hour_of d) 23); [|lia].
  destruct Hs as [-> | ->]; reflexivity.
Qed.

Lemma trade_time_date (day : Z) (d : Draw) :
  well_drawn d ->
  Clock.date_of (Api.seconds (trade_time day d)) = day - 1.
Proof.
  intros (_ & _ & _ & Hh & Hm & Hs).
  unfold Clock.date_of, trade_time. cbn [Api.seconds].
  rewrite Z.add_comm, Z.div_add by lia.
  rewrite Z.div_small by lia. lia.
Qed.

Lemma sample_rows_checked (today : Z) (num_days : nat)
    (traders : list string) (draws : nat -> string -> list Draw) :
  all_well_drawn draws ->
  checked (sample_rows today num_days traders draws).
Proof.
  intros Hw. unfold checked. apply List.Forall_forall. intros t Ht.
  apply in_sample_rows in Ht as (o & trader & d & _ & _ & Hd & ->).
  apply sample_trade_check. exact (Hw o trader d Hd).
Qed.

(** X18. Every row that [generate_sample_trades] produces from draws in
    the ranges of their [random] calls satisfies the two CHECK clauses,
    belongs to one of the given traders, delivers on a day from
    [today - num_days] up to the day before [today], and carries a
    timestamp that lies on the day before its delivery day. *)
Theorem sample_rows_valid :
  forall (today : Z) (num_days : nat) (traders : list string)
         (draws : nat -> string -> list Draw) (t : Trade),
    all_well_drawn draws ->
    In t (sample_rows today num_days traders draws) ->
    check_constraints t = true
    /\ In (trader_id t) traders
    /\ exists (day : Z) (time : Api.DateTime),
         today - Z.of_nat num_days <= day < today
         /\ delivery_day t = Clock.date_isoformat day
         /\ timestamp t = Api.isoformat time
         /\ Clock.date_of (Api.seconds time) = day - 1.
Proof.
  intros today num_days traders draws t Hw Ht.
  apply in_sample_rows in Ht as (o & trader & d & Ho & Htr & Hd & ->).
  pose proof (Hw o trader d Hd) as Hwd.
  split; [now apply sample_trade_check|]. split; [exact Htr|].
  exists (today - Z.of_nat num_days + Z.of_nat o),
    (trade_time (today - Z.of_nat num_days + Z.of_nat o) d).
  split; [lia|]. split; [reflexivity|]. split; [reflexivity|].
  now apply trade_time_date.
Qed.

Lemma sample_draws_well : all_well_drawn sample_draws.
Proof.
  intros o trader d [<-|[]]. unfold well_drawn, sample_draw. cbn.
  repeat split; try lia.
  - intros c Hc. injection Hc as <-. tauto.
  - now right.
Qed.

Lemma sample_rows_valid_witness :
  check_constraints (sample_trade 18793 "trader1" sample_draw) = true
  /\ In "trader1"%string ["trader1"%string].
Proof.
  assert (Hin : In (sample_trade 18793 "trader1" sample_draw)
                  (sample_rows 18794 1 ["trader1"%string] sample_draws)).
  { left. reflexivity. }
  destruct (sample_rows_valid 18794 1 ["trader1"%string] sample_draws _
              sample_draws_well Hin) as (H1 & H2 & _).
  split; [exact H1|exact H2].
Defined.

Lemma insert_rows_no_check_error (trades table : list Trade) (id : string) :
  forallb check_constraints trades = true ->
  insert_rows table trades <> inl (CheckViolation id).
Proof.
  revert table. induction trades as [|t rest IH]; intros table Hc.
  - discriminate.
  - cbn [forallb] in Hc. apply andb_true_iff in Hc as [Ht Hc].
    cbn [insert_rows]. unfold insert_row. rewrite Ht. cbn [negb].
    destruct (has_key table (trade_id t)); [discriminate|].
    now apply IH.
Qed.

Lemma sample_ids_clash (day day' : Z) (a b : string) (d d' : Draw) :
  trade_id (sample_trade day a d) = trade_id (sample_trade day' b d')
  <-> a = b
      /\ Clock.strftime (Api.seconds (trade_time day d))
         = Clock.strftime (Api.seconds (trade_time day' d')).
Proof.
  split.
  - intros H.
    destruct (generated_id_parts a b (trade_time day d)
                (trade_time day' d') H) as (Hab & Hs & _).
    now split.
  - intros [-> Hs]. cbn [sample_trade trade_id]. unfold Api.strftime.
    now rewrite Hs.
Qed.

(** X19. For draws in the ranges of their calls, [generate_sample_trades]
    replaces the table by the generated rows exactly when their trade ids
    are pairwise distinct; otherwise an INSERT raises on the primary key
    (never on a CHECK clause) and the table stays as it was. Two
    generated rows get the same id exactly when they have the same
    trader and their trade times format to the same second. *)
Theorem sample_generation_outcome :
  forall (table : list Trade) (today : Z) (num_days : nat)
         (traders : list string) (draws : nat -> string -> list Draw),
    all_well_drawn draws ->
    ((List.NoDup (map trade_id (sample_rows today num_days traders draws))
      /\ generate_sample_trades table today num_days traders draws
         = (None, sample_rows today num_days traders draws))
     \/ (~ List.NoDup
             (map trade_id (sample_rows today num_days traders draws))
         /\ exists id : string,
              generate_sample_trades table today num_days traders draws
              = (Some (PrimaryKeyCollision id), table)))
    /\ forall (day day' : Z) (a b : string) (d d' : Draw),
         trade_id (sample_trade day a d) = trade_id (sample_trade day' b d')
         <-> a = b
             /\ Clock.strftime (Api.seconds (trade_time day d))
                = Clock.strftime (Api.seconds (trade_time day' d')).
Proof.
  intros table today num_days traders draws Hw.
  split; [|intros; apply sample_ids_clash].
  set (rows := sample_rows today num_days traders draws).
  assert (Hck : forallb check_constraints rows = true).
  { apply List.forallb_forall. intros t Ht.
    pose proof (sample_rows_checked today num_days traders draws Hw) as Hc.
    unfold checked in Hc. rewrite List.Forall_forall in Hc. now apply Hc. }
  unfold generate_sample_trades. fold rows.
  destruct (insert_rows [] rows) as [e|table'] eqn:E.
  - right. split.
    + intros Hnd.
      rewrite (insert_rows_insertable rows []) in E; [discriminate E|].
      split; [exact Hck|]. split; [exact Hnd|]. intros t _ [].
    + destruct e as [id|id|].
      * exfalso. exact (insert_rows_no_check_error rows [] id Hck E).
      * now exists id.
      * exfalso. exact (insert_rows_no_format_error rows [] E).
  - left. apply insert_rows_inr in E as [-> (_ & Hnd & _)].
    split; [exact Hnd|reflexivity].
Qed.

Lemma sample_generation_outcome_witness :
  generate_sample_trades [] 18794 1 ["trader1"%string] sample_draws
  = (None, sample_rows 18794 1 ["trader1"%string] sample_draws).
Proof.
  destruct (sample_generation_outcome [] 18794 1 ["trader1"%string]
              sample_draws sample_draws_well)
    as [[[_ H]|[Hnd _]] _]; [exact H|].
  exfalso. apply Hnd. cbn. constructor; [intros []|constructor].
Defined.

Lemma occurs_pad6 (c : ascii) (n : Z) :
  numeric_char c = false -> occurs c (Api.pad6 n) = false.
Proof.
  intros Hc. unfold Api.pad6. cbn [occurs].
  rewrite !(numeric_char_eqb c _ Hc (digit_numeric _)).
  now rewrite occurs_pad4.
Qed.

Lemma occurs_sample_id (c : ascii) (day : Z) (trader : string) (d : Draw) :
  numeric_char c = false -> Ascii.eqb c "_" = false ->
  occurs c trader = false ->
  occurs c (trade_id (sample_trade day trader d)) = false.
Proof.
  intros Hc Hu Ht. cbn [sample_trade trade_id]. unfold Api.strftime.
  rewrite !occurs_app, Ht, occurs_strftime, occurs_pad6 by assumption.
  cbn. now rewrite Hu.
Qed.

Lemma volume_where_none (p : Trade -> bool) (rows : list Trade) :
  (forall t, In t rows -> p t = false) -> volume_where p rows = 0%Q.
Proof.
  intros H. unfold volume_where. now rewrite (filter_all_false p rows H).
Qed.

(** X20. Sample data shows no volume in the report: when no trader id
    contains the letter D or the letter I, no generated trade id contains
    [_DA_] or [_ID_], so for a table made of generated rows (draws in the
    ranges of their calls) every hourly entry of [compute_hourly_pnl]
    counts the hour's trades but has all four volume columns at zero. *)
Theorem sample_rows_unmarked :
  forall (today : Z) (num_days : nat) (traders : list string)
         (draws : nat -> string -> list Draw)
         (trader : string) (day h : Z),
    all_well_drawn draws ->
    (forall a, In a traders ->
               occurs "D" a = false /\ occurs "I" a = false) ->
    0 <= h <= 23 ->
    (forall t, In t (sample_rows today num_days traders draws) ->
               has_da t = false /\ has_id t = false)
    /\ exists hd : HourData,
         hour_entry (sample_rows today num_days traders draws) trader day h
         = Some hd
         /\ num_trades hd
            = Z.of_nat
                (length (hour_rows
                           (sample_rows today num_days traders draws)
                           trader day h))
         /\ (buy_da_mw hd == 0)%Q /\ (sell_da_mw hd == 0)%Q
         /\ (buy_ida_mw hd == 0)%Q /\ (sell_ida_mw hd == 0)%Q.
Proof.
  intros today num_days traders draws trader day h Hw Hun Hh.
  set (table := sample_rows today num_days traders draws).
  assert (Hmark : forall t, In t table ->
                            has_da t = false /\ has_id t = false).
  { intros t Ht.
    apply in_sample_rows in Ht as (o & a & d & _ & Ha & _ & ->).
    destruct (Hun a Ha) as [HD HI]. unfold has_da, has_id. split.
    - apply (contains_absent "D"); [reflexivity|].
      now apply occurs_sample_id.
    - apply (contains_absent "I"); [reflexivity|].
      now apply occurs_sample_id. }
  split; [exact Hmark|].
  pose proof (sample_rows_checked today num_days traders draws Hw) as Hc.
  fold table in Hc.
  destruct (hourly_entries table trader day Hc) as (m & Hrun & _ & Hlook).
  exists (fold_left update_hour (hour_rows table trader day h) zero_hour).
  split; [unfold hour_entry; rewrite Hrun; now apply Hlook|].
  assert (Hrows : checked (hour_rows table trader day h)).
  { unfold hour_rows. now do 2 apply checked_filter. }
  assert (Hin : forall t, In t (hour_rows table trader day h) ->
                          In t table).
  { intros t Ht. unfold hour_rows in Ht.
    apply List.filter_In in Ht as [Ht _].
    now apply List.filter_In in Ht as [Ht _]. }
  pose proof (fold_update_count (hour_rows table trader day h) zero_hour)
    as Hn.
  destruct (fold_update_volumes _ zero_hour Hrows) as (V1 & V2 & V3 & V4).
  split; [rewrite Hn; reflexivity|].
  rewrite V1, V2, V3, V4.
  rewrite !volume_where_none.
  - cbn [zero_hour buy_da_mw sell_da_mw buy_ida_mw sell_ida_mw].
    repeat split; ring.
  - intros t Ht. destruct (Hmark t (Hin t Ht)) as [_ ->].
    apply andb_false_r.
  - intros t Ht. destruct (Hmark t (Hin t Ht)) as [_ ->].
    apply andb_false_r.
  - intros t Ht. destruct (Hmark t (Hin t Ht)) as [-> _].
    apply andb_false_r.
  - intros t Ht. destruct (Hmark t (Hin t Ht)) as [-> _].
    apply andb_false_r.
Qed.

Lemma sample_rows_unmarked_witness :
  exists hd : HourData,
    hour_entry (sample_rows 18794 1 ["trader1"%string] sample_draws)
      "trader1" 18793 17 = Some hd
    /\ (sell_da_mw hd == 0)%Q.
Proof.
  assert (Hun : forall a, In a ["trader1"%string] ->
                          occurs "D" a = false /\ occurs "I" a = false).
  { intros a [<-|[]]. split; reflexivity. }
  assert (Hh : 0 <= 17 <= 23) by lia.
  destruct (sample_rows_unmarked 18794 1 ["trader1"%string] sample_draws
              "trader1" 18793 17 sample_draws_well Hun Hh)
    as (_ & hd & H1 & _ & _ & H2 & _).
  exists hd. split; [exact H1|exact H2].
Defined.

End SampleFacts.

(** ** The result frame of the forecaster, day by day *)

Section ScoredFacts.
Import Frame Forecast Props.
Local Open Scope Z_scope.

Lemma unique_nodup (l : list Z) : List.NoDup (unique l).
Proof.
  induction l as [|x rest IH]; cbn [unique]; constructor.
  - intros Hin. apply List.filter_In in Hin as [_ Hne].
    rewrite Z.eqb_refl in Hne. discriminate Hne.
  - now apply List.NoDup_filter.
Qed.

Lemma skipn_nodup (n : nat) (l : list Z) :
  List.NoDup l -> List.NoDup (skipn n l).
Proof.
  revert l. induction n as [|n IH]; intros l Hnd; [exact Hnd|].
  destruct l as [|x l]; [constructor|].
  change (List.NoDup (skipn n l)). apply IH.
  now apply List.NoDup_cons_iff in Hnd.
Qed.

Lemma filter_reset_index_from (d : Z) (start : nat) (l : list Scored) :
  map snd (List.filter (on_day d) (reset_index_from start l))
  = List.filter (fun s => date (row s) =? d) l.
Proof.
  unfold reset_index_from. revert start.
  induction l as [|s l IH]; intros start; [reflexivity|].
  cbn [length seq map combine List.filter]. unfold on_day at 1.
  cbn [snd]. destruct (date (row s) =? d); cbn [map snd]; now rewrite IH.
Qed.

Section Classifier.
Variable Model : Type.
Variable fit :
  list (list Q) -> list Z -> list (Binary64.ext R) -> option Model.
Variable predict_proba : Model -> list Q -> Q.

Lemma filter_walk (df : list Row) (days : list Z) (d : Z)
    (frames : list (list Scored)) :
  List.NoDup days -> In d days ->
  (min_samples <= length (train_data df d))%nat ->
  walk Model fit predict_proba df days = inr frames ->
  exists model,
    fit_for Model fit df d = Some model
    /\ List.filter (fun s => date (row s) =? d) (concat frames)
       = map (score Model predict_proba model) (test_data df d).
Proof.
  intros Hnd Hin Hn.
  assert (Hskip : forall days' frames',
             ~ In d days' ->
             walk Model fit predict_proba df days' = inr frames' ->
             List.filter (fun s => date (row s) =? d) (concat frames') = []).
  { intros days' frames' Hd Hw. apply filter_none. intros s Hs.
    apply (in_walk _ _ _ _ _ _ _ Hw) in Hs as (d' & t & Hd' & Ht & Hs).
    rewrite (day_step_dates _ _ _ _ _ _ _ Ht Hs).
    apply Z.eqb_neq. intros ->. contradiction. }
  revert frames. induction days as [|d' rest IH]; [destruct Hin|].
  intros frames Hw.
  apply List.NoDup_cons_iff in Hnd as [Hd' Hnd].
  cbn [walk] in Hw.
  destruct (Z.eq_dec d' d) as [->|Hne].
  - destruct (day_step Model fit predict_proba df d) as [[e|t]|] eqn:E;
      [discriminate Hw| |].
    + destruct (walk Model fit predict_proba df rest) as [e|fr] eqn:Er;
        [discriminate Hw|].
      injection Hw as <-.
      cbn [concat].
      rewrite List.filter_app, (Hskip rest fr Hd' Er), List.app_nil_r.
      assert (Hdates : forall s, In s t -> date (row s) = d)
        by (intros s; exact (day_step_dates _ _ _ _ _ _ s E)).
      apply day_step_some in E as (_ & _ & model & Hm & ->).
      exists model. split; [exact Hm|].
      apply List.forallb_filter_id. apply List.forallb_forall.
      intros s Hs. apply Z.eqb_eq. now apply Hdates.
    + rewrite (Hskip rest frames Hd' Hw).
      unfold day_step in E.
      destruct (Nat.ltb_spec (length (train_data df d)) min_samples);
        [lia|].
      destruct (fit_for Model fit df d) as [model|]; [|discriminate E].
      exists model. split; [reflexivity|].
      destruct (length (test_data df d) =? 0)%nat eqn:El;
        [|discriminate E].
      apply Nat.eqb_eq in El.
      now destruct (test_data df d).
  - destruct Hin as [He|Hin]; [contradiction|].
    destruct (day_step Model fit predict_proba df d') as [[e|t]|] eqn:E;
      [discriminate Hw| |].
    + destruct (walk Model fit predict_proba df rest) as [e|fr] eqn:Er;
        [discriminate Hw|].
      injection Hw as <-.
      destruct (IH Hnd Hin fr eq_refl) as (model & Hm & Hf).
      exists model. split; [exact Hm|].
      cbn [concat]. rewrite List.filter_app, Hf.
      rewrite (filter_none _ t); [reflexivity|].
      intros s Hs. rewrite (day_step_dates _ _ _ _ _ _ _ E Hs).
      now apply Z.eqb_neq.
    + exact (IH Hnd Hin frames Hw).
Qed.

Lemma scored_day_rows (df : list Row) (d : Z) (res : list (Z * Scored)) :
  apply_daily_ml_strategy Model fit predict_proba df = inr res ->
  In d (skipn min_train_days (unique_days df)) ->
  (min_samples <= length (train_data df d))%nat ->
  exists model,
    fit_for Model fit df d = Some model
    /\ map snd (List.filter (on_day d) res)
       = map (score Model predict_proba model) (test_data df d).
Proof.
  intros Hrun Hin Hn.
  apply run_returns in Hrun as (frames & Hw & _ & ->).
  unfold reset_index. rewrite filter_reset_index_from.
  apply (filter_walk df (skipn min_train_days (unique_days df)) d frames);
    [|exact Hin|exact Hn|exact Hw].
  apply skipn_nodup, unique_nodup.
Qed.

End Classifier.

(** X21. The result frame of [apply_daily_ml_strategy], day by day: when
    the run returns, then for a day beyond the first [min_train_days]
    distinct days that has at least [min_samples] earlier rows the fit on
    the rows dated strictly before the day has returned a model, and the
    rows of the result dated that day are exactly the frame's rows of that
    day, once each and in frame order, every one scored by that model,
    with the signal of its probability. *)
Theorem scored_day :
  forall (Model : Type)
         (fit : list (list Q) -> list Z -> list (Binary64.ext R)
                -> option Model)
         (predict_proba : Model -> list Q -> Q)
         (df : list Row) (d : Z),
    returns (apply_daily_ml_strategy Model fit predict_proba df) ->
    In d (skipn min_train_days (unique_days df)) ->
    (min_samples <= length (train_data df d))%nat ->
    exists model : Model,
      fit (map feature_columns (train_data df d))
          (y_train (train_data df d))
          (time_weights (length (train_data df d))) = Some model
      /\ map snd
           (day_rows d (apply_daily_ml_strategy Model fit predict_proba df))
         = map (score Model predict_proba model) (test_data df d)
      /\ map (fun ir => row (snd ir))
           (day_rows d (apply_daily_ml_strategy Model fit predict_proba df))
         = test_data df d
      /\ forall ir,
           In ir (day_rows d
                    (apply_daily_ml_strategy Model fit predict_proba df)) ->
           signal (snd ir) = signal_of (prob (snd ir))
           /\ prob (snd ir)
              = predict_proba model (feature_columns (row (snd ir))).
Proof.
  intros Model fit predict_proba df d [res Hres] Hin Hn.
  destruct (scored_day_rows Model fit predict_proba df d res Hres Hin Hn)
    as (model & Hm & H).
  rewrite Hres. cbn [day_rows].
  exists model. split; [exact Hm|]. split; [exact H|]. split.
  - rewrite <- (List.map_map snd row), H, List.map_map. cbn [score row].
    apply List.map_id.
  - intros ir Hir. apply (List.in_map snd) in Hir. rewrite H in Hir.
    apply List.in_map_iff in Hir as (r & <- & _). cbn. now split.
Qed.

Lemma scored_day_witness :
  map (fun ir => row (snd ir))
    (day_rows 30 (apply_daily_ml_strategy unit sample_fit hour_proba
                    (history ++ [row_30])))
  = test_data (history ++ [row_30]) 30.
Proof.
  assert (Hret : returns (apply_daily_ml_strategy unit sample_fit hour_proba
                            (history ++ [row_30])))
    by (eexists; vm_compute; reflexivity).
  assert (Hin : In 30 (skipn min_train_days
                         (unique_days (history ++ [row_30]))))
    by (vm_compute; tauto).
  assert (Hn : (min_samples
                <= length (train_data (history ++ [row_30]) 30))%nat)
    by (vm_compute; lia).
  destruct (scored_day unit sample_fit hour_proba
              (history ++ [row_30]) 30 Hret Hin Hn)
    as (model & _ & _ & H & _).
  exact H.
Defined.

End ScoredFacts.

(** ** The hour-of-day features look at the whole frame *)

Section FeatureFacts.
Import Features.
Local Open Scope Q_scope.

Lemma sum_middle (a b : list Q) (x delta : Q) :
  Task2.sum (a ++ (x + delta) :: b) == Task2.sum (a ++ x :: b) + delta.
Proof.
  unfold Task2.sum. induction a as [|y a IH]; cbn [app fold_right].
  - ring.
  - rewrite IH. ring.
Qed.

Lemma hour_group_middle (before after : list Raw) (r : Raw) (h : Z) :
  hour r = h ->
  List.filter (fun x => (hour x =? h)%Z) (before ++ r :: after)
  = (List.filter (fun x => (hour x =? h)%Z) before
     ++ r :: List.filter (fun x => (hour x =? h)%Z) after)%list.
Proof.
  intros <-. rewrite List.filter_app. cbn [List.filter].
  now rewrite Z.eqb_refl.
Qed.

Lemma hour_mean_bump (before after : list Raw) (r : Raw) (delta : Q) :
  hour_mean da_price (before ++ bump r delta :: after) (hour r)
  == hour_mean da_price (before ++ r :: after) (hour r)
     + delta
       / inject_Z
           (Z.of_nat
              (length
                 (List.filter (fun x => (hour x =? hour r)%Z)
                    (before ++ r :: after)))).
Proof.
  unfold hour_mean, Task2.mean.
  rewrite (hour_group_middle before after (bump r delta) (hour r) eq_refl).
  rewrite (hour_group_middle before after r (hour r) eq_refl).
  rewrite !List.map_app. cbn [map bump da_price].
  rewrite sum_middle, !List.length_app. cbn [length].
  rewrite !List.length_map. unfold Qdiv. ring.
Qed.

(** X22. The hour-of-day mean that [create_strategy_features] merges
    into every row is taken over the whole frame: when the day-ahead
    price of a row is raised by [delta], the feature
    [da_price_hour_mean] of every earlier row of the same hour rises by
    [delta] divided by the number of rows of that hour, so for a non-zero
    [delta] the features of earlier rows change with a later price. *)
Theorem hour_mean_uses_later_rows :
  forall (before after : list Raw) (r e : Raw) (delta : Q) (i : nat),
    nth_error before i = Some e ->
    hour e = hour r ->
    exists s s' : HourStats,
      nth_error (merge_hourly_stats (before ++ r :: after)) i = Some (e, s)
      /\ nth_error (merge_hourly_stats (before ++ bump r delta :: after)) i
         = Some (e, s')
      /\ da_price_hour_mean s'
         == da_price_hour_mean s
            + delta
              / inject_Z
                  (Z.of_nat
                     (length
                        (List.filter (fun x => (hour x =? hour r)%Z)
                           (before ++ r :: after))))
      /\ (~ delta == 0 -> ~ da_price_hour_mean s' == da_price_hour_mean s).
Proof.
  intros before after r e delta i Hi He.
  assert (Hlt : (i < length before)%nat).
  { apply List.nth_error_Some. congruence. }
  eexists. eexists. unfold merge_hourly_stats.
  rewrite !List.nth_error_map, !List.nth_error_app1, Hi by exact Hlt.
  cbn [option_map]. split; [reflexivity|]. split; [reflexivity|].
  cbn [da_price_hour_mean]. rewrite He.
  pose proof (hour_mean_bump before after r delta) as Hb.
  split; [exact Hb|].
  intros Hd Heq. rewrite Heq in Hb. apply Hd.
  set (n := inject_Z
              (Z.of_nat
                 (length
                    (List.filter (fun x => (hour x =? hour r)%Z)
                       (before ++ r :: after))))) in *.
  assert (Hn : ~ n == 0).
  { unfold n. rewrite (hour_group_middle before after r (hour r) eq_refl).
    rewrite List.length_app. cbn [length].
    intros H0. unfold Qeq in H0. cbn [Qnum Qden inject_Z] in H0. lia. }
  assert (Hz : delta / n == 0).
  { revert Hb. generalize (delta / n).
    generalize (hour_mean da_price (before ++ r :: after) (hour r)).
    intros m q Hb. lra. }
  rewrite <- (Qmult_div_r delta n Hn), Hz. ring.
Qed.

Lemma hour_mean_uses_later_rows_witness :
  exists s s' : HourStats,
    nth_error
      (merge_hourly_stats ([mkRaw 13 50 52] ++ mkRaw 13 60 61 :: [])) 0
    = Some (mkRaw 13 50 52, s)
    /\ nth_error
         (merge_hourly_stats
            ([mkRaw 13 50 52] ++ bump (mkRaw 13 60 61) 10 :: [])) 0
       = Some (mkRaw 13 50 52, s')
    /\ ~ da_price_hour_mean s' == da_price_hour_mean s.
Proof.
  destruct (hour_mean_uses_later_rows [mkRaw 13 50 52] []
              (mkRaw 13 60 61) (mkRaw 13 50 52) 10 0 eq_refl eq_refl)
    as (s & s' & H1 & H2 & _ & H4).
  exists s, s'. split; [exact H1|]. split; [exact H2|].
  apply H4. intros H. discriminate H.
Defined.

End FeatureFacts.
